(** * License verification and tenant federation of the admin panel

    A shallow embedding of the licensing core of the admin back-office:

    - [src/app/api/saas/verify-license/route.ts]   (POST and GET /verify-license)
    - [src/app/api/saas/check-by-domain/route.ts]  (POST /check-by-domain)
    - [src/app/api/saas/clients/[id]/toggle-status/route.ts]
    - [src/app/api/saas/clients/[id]/regenerate-license/route.ts] (generateLicenseKey)
    - [src/lib/tenant-api.ts]                      (createHmacSignature, fetchTenantUsers)

    Conventions.  A JavaScript string is a [string] of bytes (the ASCII
    fragment; [toLowerCase] and [toUpperCase] act on the letters A-Z/a-z).
    A [Date] is its time value, a [Z] of milliseconds since the epoch.  A
    nullable column is an [option].  The table [saasClients] is a list of
    rows in storage order; [select ... where ... limit 1] returns the first
    row that satisfies the condition, and column equality is equality of
    strings.  Everything the runtime hands to a handler (clock readings, the
    fresh uuid, random bytes, the remote server's answer) is an explicit
    input.  A field of a JSON body or a query parameter is an
    [option string], [None] when it is absent.

    Left out: the console output of the handlers, and the [catch] blocks that
    turn a fault of the database or of the JSON decoder into a 500 answer
    (the store of the model never fails). *)

From Stdlib Require Import ZArith NArith List String Ascii Bool Lia.
From Stdlib Require Import Init.Byte Strings.Byte.
From Stdlib Require Import DecimalString.
Import ListNotations.

Local Open Scope list_scope.
Local Open Scope string_scope.

Set Implicit Arguments.

(* ================================================================== *)
(** * Part I: definitions                                              *)
(* ================================================================== *)

(** ** JavaScript primitives used by the handlers *)

Module JS.

Definition code (c : ascii) : nat := nat_of_ascii c.

Definition isUpperAlpha (c : ascii) : bool := (65 <=? code c)%nat && (code c <=? 90)%nat.
Definition isLowerAlpha (c : ascii) : bool := (97 <=? code c)%nat && (code c <=? 122)%nat.
Definition isDigit (c : ascii) : bool := (48 <=? code c)%nat && (code c <=? 57)%nat.
Definition isAlpha (c : ascii) : bool := isUpperAlpha c || isLowerAlpha c.

Definition lowerChar (c : ascii) : ascii :=
  if isUpperAlpha c then ascii_of_nat (code c + 32) else c.
Definition upperChar (c : ascii) : ascii :=
  if isLowerAlpha c then ascii_of_nat (code c - 32) else c.

Fixpoint mapString (f : ascii -> ascii) (s : string) : string :=
  match s with
  | EmptyString => EmptyString
  | String c s' => String (f c) (mapString f s')
  end.

(** [s.toLowerCase()], [s.toUpperCase()] *)
Definition toLowerCase : string -> string := mapString lowerChar.
Definition toUpperCase : string -> string := mapString upperChar.

(** [s.startsWith(p)] *)
Definition startsWith (s p : string) : bool := String.prefix p s.

(** Truthiness of a [string | null | undefined]: [!v] is [negb (truthy v)]. *)
Definition truthy (v : option string) : bool :=
  match v with
  | Some (String _ _) => true
  | _ => false
  end.

(** [v || d] for a nullable string [v]. *)
Definition orElse (v : option string) (d : string) : string :=
  match v with
  | Some (String c s) => String c s
  | _ => d
  end.

(** The string held by a value known to be truthy. *)
Definition value (v : option string) : string :=
  match v with Some s => s | None => EmptyString end.

Definition newline : string := String (ascii_of_nat 10) EmptyString.

(** [s] between double quotes. *)
Definition quoted (s : string) : string :=
  String (ascii_of_nat 34) (s ++ String (ascii_of_nat 34) EmptyString).

Definition isWhiteSpace (c : ascii) : bool :=
  ((9 <=? code c)%nat && (code c <=? 13)%nat) || (code c =? 32)%nat.

Fixpoint trimStart (s : string) : string :=
  match s with
  | String c s' => if isWhiteSpace c then trimStart s' else s
  | EmptyString => EmptyString
  end.

Fixpoint trimEnd (s : string) : string :=
  match s with
  | String c s' =>
      match trimEnd s' with
      | EmptyString => if isWhiteSpace c then EmptyString else String c EmptyString
      | t => String c t
      end
  | EmptyString => EmptyString
  end.

(** [s.trim()] *)
Definition trim (s : string) : string := trimEnd (trimStart s).

(** [s.split(',')[0]]: the text before the first comma. *)
Fixpoint beforeComma (s : string) : string :=
  match s with
  | String c s' => if Ascii.eqb c "," then EmptyString else String c (beforeComma s')
  | EmptyString => EmptyString
  end.

(** [list.includes(x)] *)
Definition includes (l : list string) (x : string) : bool := existsb (String.eqb x) l.

(** [parts.join(sep)] *)
Definition join (sep : string) (parts : list string) : string := String.concat sep parts.

(** [String(n)] for an integral number. *)
Definition stringOfZ (n : Z) : string := NilZero.string_of_int (Z.to_int n).

(** Line terminators, the characters [.] does not match in a regular
    expression (LF and CR in the byte fragment). *)
Definition lineTerminator (c : ascii) : bool := (code c =? 10)%nat || (code c =? 13)%nat.

(** One match attempt of [/.{1,n}/] at the head of [s]: the longest prefix
    of at most [n] characters none of which is a line terminator, and the
    rest of the string. *)
Fixpoint takeDots (n : nat) (s : string) : string * string :=
  match n, s with
  | S n', String c s' =>
      if lineTerminator c then (EmptyString, s)
      else let (m, r) := takeDots n' s' in (String c m, r)
  | _, _ => (EmptyString, s)
  end.

(** The successive matches of the global expression [/.{1,4}/g]: after a
    match the search resumes behind it, where no match starts it resumes one
    character further.  Every round consumes a character, so [length s]
    rounds always suffice. *)
Fixpoint matchAllDots (fuel : nat) (s : string) : list string :=
  match fuel, s with
  | S fuel', String _ s' =>
      match takeDots 4 s with
      | (EmptyString, _) => matchAllDots fuel' s'
      | (m, r) => m :: matchAllDots fuel' r
      end
  | _, _ => []
  end.

(** [s.match(/.{1,4}/g)]: [null] when there is no match at all. *)
Definition match_dot_1_4_g (s : string) : option (list string) :=
  match matchAllDots (String.length s) s with
  | [] => None
  | parts => Some parts
  end.

End JS.

(** ** Hexadecimal encoding of byte buffers ([buf.toString('hex')], [digest('hex')]) *)

Module Hex.

Definition digits : string := "0123456789abcdef".

Definition digit (n : N) : ascii :=
  match String.get (N.to_nat n) digits with
  | Some c => c
  | None => "0"%char
  end.

Definition hi (b : byte) : ascii := digit (Byte.to_N b / 16).
Definition lo (b : byte) : ascii := digit (Byte.to_N b mod 16).

Fixpoint encode (bs : list byte) : string :=
  match bs with
  | [] => EmptyString
  | b :: bs' => String (hi b) (String (lo b) (encode bs'))
  end.

Definition isLowerHex (c : ascii) : bool :=
  JS.isDigit c || ((97 <=? JS.code c)%nat && (JS.code c <=? 102)%nat).
Definition isUpperHex (c : ascii) : bool :=
  JS.isDigit c || ((65 <=? JS.code c)%nat && (JS.code c <=? 70)%nat).

Fixpoint forallb (p : ascii -> bool) (s : string) : bool :=
  match s with
  | EmptyString => true
  | String c s' => p c && forallb p s'
  end.

End Hex.

(** ** Regular expressions, enough for the key pattern *)

Module Regex.

Inductive regex : Type :=
| Void : regex
| Eps : regex
| Class (p : ascii -> bool) : regex
| Cat (r1 r2 : regex) : regex
| Alt (r1 r2 : regex) : regex
| Star (r : regex) : regex.

Definition Chr (c : ascii) : regex := Class (Ascii.eqb c).

Fixpoint Lit (s : string) : regex :=
  match s with
  | EmptyString => Eps
  | String c s' => Cat (Chr c) (Lit s')
  end.

(** [r{n}] *)
Fixpoint Repeat (n : nat) (r : regex) : regex :=
  match n with
  | O => Eps
  | S n' => Cat r (Repeat n' r)
  end.

Fixpoint nullable (r : regex) : bool :=
  match r with
  | Void => false
  | Eps => true
  | Class _ => false
  | Cat r1 r2 => nullable r1 && nullable r2
  | Alt r1 r2 => nullable r1 || nullable r2
  | Star _ => true
  end.

Fixpoint deriv (c : ascii) (r : regex) : regex :=
  match r with
  | Void => Void
  | Eps => Void
  | Class p => if p c then Eps else Void
  | Cat r1 r2 =>
      if nullable r1 then Alt (Cat (deriv c r1) r2) (deriv c r2)
      else Cat (deriv c r1) r2
  | Alt r1 r2 => Alt (deriv c r1) (deriv c r2)
  | Star r1 => Cat (deriv c r1) (Star r1)
  end.

(** [/^r$/.test(s)] *)
Fixpoint test (r : regex) (s : string) : bool :=
  match s with
  | EmptyString => nullable r
  | String c s' => test (deriv c r) s'
  end.

(** The language of an expression. *)
Inductive Matches : regex -> string -> Prop :=
| MEps : Matches Eps EmptyString
| MClass p c : p c = true -> Matches (Class p) (String c EmptyString)
| MCat r1 r2 s1 s2 : Matches r1 s1 -> Matches r2 s2 -> Matches (Cat r1 r2) (s1 ++ s2)
| MAltL r1 r2 s : Matches r1 s -> Matches (Alt r1 r2) s
| MAltR r1 r2 s : Matches r2 s -> Matches (Alt r1 r2) s
| MStarNil r : Matches (Star r) EmptyString
| MStarApp r s1 s2 : Matches r s1 -> Matches (Star r) s2 -> Matches (Star r) (s1 ++ s2).

End Regex.

(** ** Key generator ([generateLicenseKey], in both
       [clients/route.ts] and [clients/[id]/regenerate-license/route.ts]) *)

Module KeyGen.

(** The cryptographic random source: an unbounded supply of bytes. *)
Definition entropy : Type := nat -> byte.

(** [crypto.randomBytes(n)]: the next [n] bytes of the source, and the
    source behind them. *)
Definition randomBytes (n : nat) (src : entropy) : list byte * entropy :=
  (map src (seq 0 n), fun i => src (n + i)%nat).

(** [const formatted = randomPart.match(/.{1,4}/g)?.join('-') || randomPart] *)
Definition format (randomPart : string) : string :=
  match JS.match_dot_1_4_g randomPart with
  | Some parts =>
      match JS.join "-" parts with
      | EmptyString => randomPart
      | joined => joined
      end
  | None => randomPart
  end.

Definition generateLicenseKey (src : entropy) : string * entropy :=
  let prefix := "LIC" in
  let (bytes, src') := randomBytes 12 src in
  let randomPart := JS.toUpperCase (Hex.encode bytes) in
  let formatted := format randomPart in
  (prefix ++ "-" ++ formatted, src').

(** [generateApiKey]: [crypto.randomBytes(32).toString('hex')] *)
Definition generateApiKey (src : entropy) : string * entropy :=
  let (bytes, src') := randomBytes 32 src in
  (Hex.encode bytes, src').

(** The pattern [^LIC(-[0-9A-F]{4}){6}$]. *)
Definition licensePattern : Regex.regex :=
  Regex.Cat (Regex.Lit "LIC")
    (Regex.Repeat 6 (Regex.Cat (Regex.Chr "-") (Regex.Repeat 4 (Regex.Class Hex.isUpperHex)))).

(** The shape written in the comment of the source and in the data model,
    [LIC-XXXX-XXXX-XXXX-XXXX-XXXX]: five groups. *)
Definition fiveGroupPattern : Regex.regex :=
  Regex.Cat (Regex.Lit "LIC")
    (Regex.Repeat 5 (Regex.Cat (Regex.Chr "-") (Regex.Repeat 4 (Regex.Class Hex.isUpperHex)))).

End KeyGen.

(** ** SHA-256 (FIPS 180-4) and HMAC (RFC 2104), as [crypto.createHmac] computes them *)

Module Sha256.

Local Open Scope Z_scope.

(** 32-bit words are integers reduced modulo 2^32. *)
Definition wrap (x : Z) : Z := x mod 2 ^ 32.
Definition add (x y : Z) : Z := wrap (x + y).
Definition rotr (n x : Z) : Z := Z.lor (Z.shiftr x n) (wrap (Z.shiftl x (32 - n))).
Definition shr (n x : Z) : Z := Z.shiftr x n.
Definition compl (x : Z) : Z := Z.lxor x 0xFFFFFFFF.

Definition Ch (x y z : Z) : Z := Z.lxor (Z.land x y) (Z.land (compl x) z).
Definition Maj (x y z : Z) : Z := Z.lxor (Z.lxor (Z.land x y) (Z.land x z)) (Z.land y z).
Definition Sum0 (x : Z) : Z := Z.lxor (Z.lxor (rotr 2 x) (rotr 13 x)) (rotr 22 x).
Definition Sum1 (x : Z) : Z := Z.lxor (Z.lxor (rotr 6 x) (rotr 11 x)) (rotr 25 x).
Definition sig0 (x : Z) : Z := Z.lxor (Z.lxor (rotr 7 x) (rotr 18 x)) (shr 3 x).
Definition sig1 (x : Z) : Z := Z.lxor (Z.lxor (rotr 17 x) (rotr 19 x)) (shr 10 x).

Definition K : list Z :=
  [
    0x428A2F98; 0x71374491; 0xB5C0FBCF; 0xE9B5DBA5;
    0x3956C25B; 0x59F111F1; 0x923F82A4; 0xAB1C5ED5;
    0xD807AA98; 0x12835B01; 0x243185BE; 0x550C7DC3;
    0x72BE5D74; 0x80DEB1FE; 0x9BDC06A7; 0xC19BF174;
    0xE49B69C1; 0xEFBE4786; 0x0FC19DC6; 0x240CA1CC;
    0x2DE92C6F; 0x4A7484AA; 0x5CB0A9DC; 0x76F988DA;
    0x983E5152; 0xA831C66D; 0xB00327C8; 0xBF597FC7;
    0xC6E00BF3; 0xD5A79147; 0x06CA6351; 0x14292967;
    0x27B70A85; 0x2E1B2138; 0x4D2C6DFC; 0x53380D13;
    0x650A7354; 0x766A0ABB; 0x81C2C92E; 0x92722C85;
    0xA2BFE8A1; 0xA81A664B; 0xC24B8B70; 0xC76C51A3;
    0xD192E819; 0xD6990624; 0xF40E3585; 0x106AA070;
    0x19A4C116; 0x1E376C08; 0x2748774C; 0x34B0BCB5;
    0x391C0CB3; 0x4ED8AA4A; 0x5B9CCA4F; 0x682E6FF3;
    0x748F82EE; 0x78A5636F; 0x84C87814; 0x8CC70208;
    0x90BEFFFA; 0xA4506CEB; 0xBEF9A3F7; 0xC67178F2
  ].

Record state : Type := mkState { ha : Z; hb : Z; hc : Z; hd : Z; he : Z; hf : Z; hg : Z; hh : Z }.

Definition H0 : state :=
  mkState 0x6A09E667 0xBB67AE85 0x3C6EF372 0xA54FF53A 0x510E527F 0x9B05688C 0x1F83D9AB 0x5BE0CD19.

Definition zOfByte (b : byte) : Z := Z.of_N (Byte.to_N b).
Definition byteOfZ (z : Z) : byte :=
  match Byte.of_N (Z.to_N (z mod 256)) with
  | Some b => b
  | None => x00
  end.

(** Big-endian encodings. *)
Definition be32 (w : Z) : list byte :=
  [byteOfZ (Z.shiftr w 24); byteOfZ (Z.shiftr w 16); byteOfZ (Z.shiftr w 8); byteOfZ w].
Definition be64 (n : Z) : list byte := (be32 (Z.shiftr n 32) ++ be32 n)%list.

(** Padding (5.1.1): a 1 bit, zeros up to 56 modulo 64 bytes, the bit length. *)
Definition pad (msg : list byte) : list byte :=
  let len := Z.of_nat (List.length msg) in
  (msg ++ [x80] ++ repeat x00 (Z.to_nat ((55 - len) mod 64)) ++ be64 (8 * len))%list.

Fixpoint wordsOf (bs : list byte) : list Z :=
  match bs with
  | b0 :: b1 :: b2 :: b3 :: rest =>
      (Z.shiftl (zOfByte b0) 24 + Z.shiftl (zOfByte b1) 16 + Z.shiftl (zOfByte b2) 8 + zOfByte b3)
        :: wordsOf rest
  | _ => []
  end.

(** Message schedule (6.2.2 step 1); [rev_w] holds W_(t-1), W_(t-2), ... *)
Fixpoint extend (n : nat) (rev_w : list Z) : list Z :=
  match n with
  | O => rev_w
  | S n' =>
      let w := add (add (sig1 (nth 1 rev_w 0)) (nth 6 rev_w 0))
                   (add (sig0 (nth 14 rev_w 0)) (nth 15 rev_w 0)) in
      extend n' (w :: rev_w)
  end.

Definition schedule (block : list Z) : list Z := rev (extend 48 (rev block)).

Definition round (s : state) (kw : Z * Z) : state :=
  let (k, w) := kw in
  let t1 := add (add (add (add (hh s) (Sum1 (he s))) (Ch (he s) (hf s) (hg s))) k) w in
  let t2 := add (Sum0 (ha s)) (Maj (ha s) (hb s) (hc s)) in
  mkState (add t1 t2) (ha s) (hb s) (hc s) (add (hd s) t1) (he s) (hf s) (hg s).

Definition compress (s : state) (block : list Z) : state :=
  let r := fold_left round (combine K (schedule block)) s in
  mkState (add (ha s) (ha r)) (add (hb s) (hb r)) (add (hc s) (hc r)) (add (hd s) (hd r))
          (add (he s) (he r)) (add (hf s) (hf r)) (add (hg s) (hg r)) (add (hh s) (hh r)).

Fixpoint blocks (n : nat) (bs : list byte) (s : state) : state :=
  match n with
  | O => s
  | S n' => blocks n' (skipn 64 bs) (compress s (wordsOf (firstn 64 bs)))
  end.

Definition digestOf (s : state) : list byte :=
  (be32 (ha s) ++ be32 (hb s) ++ be32 (hc s) ++ be32 (hd s)
    ++ be32 (he s) ++ be32 (hf s) ++ be32 (hg s) ++ be32 (hh s))%list.

Definition sha256 (msg : list byte) : list byte :=
  let padded := pad msg in
  digestOf (blocks (List.length padded / 64) padded H0).

End Sha256.

Module Hmac.

Definition blockSize : nat := 64.

Definition xorByte (c : Z) (b : byte) : byte :=
  Sha256.byteOfZ (Z.lxor (Sha256.zOfByte b) c).

(** RFC 2104: H((K0 xor opad) || H((K0 xor ipad) || text)), where K0 is the
    key, hashed first when longer than a block, padded with zeros. *)
Definition hmacSha256 (key text : list byte) : list byte :=
  let k := if (blockSize <? List.length key)%nat then Sha256.sha256 key else key in
  let k0 := (k ++ repeat x00 (blockSize - List.length k))%list in
  Sha256.sha256 (map (xorByte 0x5C) k0 ++ Sha256.sha256 (map (xorByte 0x36) k0 ++ text))%list.

End Hmac.

(** ** [src/lib/tenant-api.ts]: the HMAC client signer *)

Module Crypto.

(** The object [crypto.createHmac('sha256', key)] returns: the key and the
    data fed to it so far. *)
Record HmacObject : Type := { hmacKey : list byte; hmacData : list byte }.

Definition createHmacSha256 (key : string) : HmacObject :=
  {| hmacKey := list_byte_of_string key; hmacData := [] |}.

Definition update (h : HmacObject) (data : string) : HmacObject :=
  {| hmacKey := hmacKey h; hmacData := (hmacData h ++ list_byte_of_string data)%list |}.

Definition digestHex (h : HmacObject) : string :=
  Hex.encode (Hmac.hmacSha256 (hmacKey h) (hmacData h)).

End Crypto.

Module Signer.

(** [createHmacSignature(secret, timestamp, path, search, body = '')];
    an omitted [body] is [None]. *)
Definition createHmacSignature
    (secret timestamp path search : string) (body : option string) : string :=
  let body := match body with Some b => b | None => "" end in
  let toSign := timestamp ++ ":" ++ path ++ ":" ++ search ++ ":" ++ body in
  Crypto.digestHex (Crypto.update (Crypto.createHmacSha256 secret) toSign).

End Signer.

(** ** The URL parser behind [new URL(s).hostname]

    A model of the WHATWG URL parser (no base URL) as far as the host goes:
    trimming, scheme, slashes, authority with credentials, host and port, the
    forbidden code points, lower-casing of the host of a special scheme.
    [None] is a parse failure ([new URL] throws).  The model follows the
    standard on byte strings whose host is an ordinary ASCII domain.  Not
    modelled: percent-decoding of the host, IDNA ([xn--] labels, non-ASCII
    bytes), the IPv4 reading of a host whose last label is a number, IPv6
    literals, and the [file:] scheme (which no input of [extractDomain] can
    have, as the string parsed always starts with "http"). *)

Module URL.

Definition chars := list ascii.

Definition isChar (c d : ascii) : bool := Ascii.eqb c d.

Fixpoint dropWhile (p : ascii -> bool) (l : chars) : chars :=
  match l with
  | c :: l' => if p c then dropWhile p l' else l
  | [] => []
  end.

(** The longest prefix free of [p], and what follows it. *)
Fixpoint break (p : ascii -> bool) (l : chars) : chars * chars :=
  match l with
  | c :: l' => if p c then ([], l) else let (a, b) := break p l' in (c :: a, b)
  | [] => ([], [])
  end.

Definition isC0OrSpace (c : ascii) : bool := (JS.code c <=? 32)%nat.
Definition isTabOrNewline (c : ascii) : bool :=
  (JS.code c =? 9)%nat || (JS.code c =? 10)%nat || (JS.code c =? 13)%nat.

Definition preprocess (l : chars) : chars :=
  let trimmed := rev (dropWhile isC0OrSpace (rev (dropWhile isC0OrSpace l))) in
  filter (fun c => negb (isTabOrNewline c)) trimmed.

Definition isSchemeChar (c : ascii) : bool :=
  JS.isAlpha c || JS.isDigit c || isChar c "+" || isChar c "-" || isChar c ".".

(** Scheme state: characters up to the colon, lower-cased. *)
Fixpoint schemeTail (l : chars) : option (chars * chars) :=
  match l with
  | [] => None
  | c :: l' =>
      if isChar c ":" then Some ([], l')
      else if isSchemeChar c then
        match schemeTail l' with
        | Some (scheme, rest) => Some (JS.lowerChar c :: scheme, rest)
        | None => None
        end
      else None
  end.

Definition parseScheme (l : chars) : option (chars * chars) :=
  match l with
  | c :: _ => if JS.isAlpha c then schemeTail l else None
  | [] => None
  end.

Definition special (scheme : chars) : bool :=
  let s := string_of_list_ascii scheme in
  String.eqb s "http" || String.eqb s "https" || String.eqb s "ws"
  || String.eqb s "wss" || String.eqb s "ftp".

Definition isSlash (c : ascii) : bool := isChar c "/" || isChar c "\".

Definition isAuthorityEnd (sp : bool) (c : ascii) : bool :=
  isChar c "/" || isChar c "?" || isChar c "#" || (sp && isChar c "\").

(** What follows the last [@] of the authority, when there is one. *)
Fixpoint afterLastAt (l : chars) : option chars :=
  match l with
  | [] => None
  | c :: l' =>
      match afterLastAt l' with
      | Some r => Some r
      | None => if isChar c "@" then Some l' else None
      end
  end.

(** Host state: the host runs up to the first colon outside brackets. *)
Fixpoint splitHostPort (inside : bool) (l : chars) : chars * option chars :=
  match l with
  | [] => ([], None)
  | c :: l' =>
      if isChar c ":" && negb inside then ([], Some l')
      else
        let inside' := if isChar c "[" then true else if isChar c "]" then false else inside in
        let (h, p) := splitHostPort inside' l' in (c :: h, p)
  end.

Definition portValue (p : chars) : N :=
  fold_left (fun acc c => (acc * 10 + N.of_nat (JS.code c - 48))%N) p 0%N.

Definition validPort (p : chars) : bool :=
  forallb JS.isDigit p && (portValue p <=? 65535)%N.

Definition forbiddenHost (c : ascii) : bool :=
  existsb (Nat.eqb (JS.code c)) [0; 9; 10; 13; 32; 35; 47; 58; 60; 62; 63; 64; 91; 92; 93; 94; 124]%nat.

Definition forbiddenDomain (c : ascii) : bool :=
  forbiddenHost c || (JS.code c <=? 31)%nat || isChar c "%" || (JS.code c =? 127)%nat.

(** Percent-encoding of the C0 control set, for opaque hosts. *)
Definition percentEncode (c : ascii) : chars :=
  if (JS.code c <=? 31)%nat || (126 <? JS.code c)%nat
  then ["%"%char; JS.upperChar (Hex.hi (byte_of_ascii c)); JS.upperChar (Hex.lo (byte_of_ascii c))]
  else [c].

(** Host parser: a domain for special schemes, an opaque host otherwise. *)
Definition parseHost (sp : bool) (h : chars) : option chars :=
  if sp then
    if existsb forbiddenDomain h then None else Some (map JS.lowerChar h)
  else
    if existsb forbiddenHost h then None else Some (flat_map percentEncode h).

Definition hostOfAuthority (sp : bool) (authority : chars) : option chars :=
  let hostport :=
    match afterLastAt authority with
    | Some [] => None
    | Some hp => Some hp
    | None => Some authority
    end in
  match hostport with
  | None => None
  | Some hp =>
      let (h, port) := splitHostPort false hp in
      match h, port with
      | [], Some _ => None
      | [], None => if sp then None else Some []
      | _, Some pt => if validPort pt then parseHost sp h else None
      | _, None => parseHost sp h
      end
  end.

Definition hostnameChars (input : chars) : option chars :=
  match parseScheme (preprocess input) with
  | None => None
  | Some (scheme, rest) =>
      if special scheme then
        hostOfAuthority true (fst (break (isAuthorityEnd true) (dropWhile isSlash rest)))
      else
        match rest with
        | "/"%char :: "/"%char :: r => hostOfAuthority false (fst (break (isAuthorityEnd false) r))
        | _ => Some []
        end
  end.

(** The characters of an ordinary domain name: letters, digits, hyphen, dot
    and underscore. *)
Definition plainDomainChar (c : ascii) : bool :=
  JS.isAlpha c || JS.isDigit c || isChar c "-" || isChar c "." || isChar c "_".

(** A trailing slash, or none. *)
Definition optionalSlash (slash : bool) : chars := if slash then ["/"%char] else [].

Definition plainDomain (d : string) : Prop :=
  d <> "" /\ forallb plainDomainChar (list_ascii_of_string d) = true.

(** [new URL(input).hostname]; [None] when the constructor throws. *)
Definition hostname (input : string) : option string :=
  option_map string_of_list_ascii (hostnameChars (list_ascii_of_string input)).

End URL.

(** ** JSON values and HTTP responses ([NextResponse.json]) *)

Module Http.

#[warnings="-register-all"]
Inductive json : Type :=
| JNull : json
| JBool (b : bool) : json
| JNumber (n : Z) : json
| JString (s : string) : json
| JDate (t : Z) : json
| JObject (fields : list (string * json)) : json.

Definition jsonOfDate (d : option Z) : json :=
  match d with Some t => JDate t | None => JNull end.

Definition jsonOfNullable (v : option string) : json :=
  match v with Some s => JString s | None => JNull end.

Record Response : Type := { statusCode : Z; headers : list (string * string); body : json }.

(** [NextResponse.json(body, { status, headers })] *)
Definition respond (body : json) (status : Z) (headers : list (string * string)) : Response :=
  {| statusCode := status; headers := headers; body := body |}.

Fixpoint field (name : string) (fields : list (string * json)) : option json :=
  match fields with
  | [] => None
  | (k, v) :: rest => if String.eqb k name then Some v else field name rest
  end.

(** [body.name], for an object body. *)
Definition get (name : string) (j : json) : option json :=
  match j with
  | JObject fields => field name fields
  | _ => None
  end.

Definition header (name : string) (r : Response) : option string :=
  option_map snd (find (fun kv => String.eqb (fst kv) name) (headers r)).

(** [corsHeaders], the same constant in every licensing route. *)
Definition corsHeaders : list (string * string) :=
  [ ("Access-Control-Allow-Origin", "*");
    ("Access-Control-Allow-Methods", "GET, POST, OPTIONS");
    ("Access-Control-Allow-Headers", "Content-Type, Authorization") ].

End Http.

(** ** The license store: tables [saasClients] and [licenseVerificationLogs] *)

Module Store.

(** One row of [saasClients], with the columns the create route writes. *)
Record TenantRecord : Type := {
  id : string;
  companyName : string;
  contactName : string;
  contactEmail : string;
  contactPhone : option string;
  websiteUrl : string;
  websiteDomain : string;
  licenseKey : string;
  status : string;
  subscriptionType : string;
  subscriptionStatus : string;
  subscriptionStartDate : Z;
  subscriptionEndDate : option Z;
  lastAccessDate : option Z;
  lastVerificationDate : option Z;
  licenseVerified : string;
  notes : option string;
  apiBaseUrl : option string;
  authType : string;
  apiKey : option string;
  publicKey : option string;
  apiStatus : option string;
  lastSeenAt : option Z;
  createdAt : Z;
  updatedAt : Z
}.

(** One row of [licenseVerificationLogs]. *)
Record VerificationLogEntry : Type := {
  logId : string;
  clientId : string;
  logLicenseKey : string;
  requestDomain : string;
  requestIp : string;
  userAgent : string;
  verificationStatus : string;
  errorMessage : option string;
  responseTime : Z
}.

Record World : Type := {
  clients : list TenantRecord;
  logs : list VerificationLogEntry
}.

(** What the runtime supplies while one request is handled: the clock
    reading on entry ([Date.now()] at the top of the handler), the clock
    reading of the later [new Date()] and [Date.now()] calls, and the value
    of [uuidv4()]. *)
Record Runtime : Type := { startTime : Z; now : Z; uuid : string }.

(** The columns a [.set({...})] of the handlers assigns. *)
Record Patch : Type := {
  setStatus : option string;
  setSubscriptionStatus : option string;
  setNotes : option (option string);
  setLastAccessDate : option Z;
  setLastVerificationDate : option Z;
  setUpdatedAt : option Z
}.

Definition assign {A : Type} (new : option A) (old : A) : A :=
  match new with Some v => v | None => old end.

Definition applyPatch (p : Patch) (r : TenantRecord) : TenantRecord :=
  {| id := id r;
     companyName := companyName r;
     contactName := contactName r;
     contactEmail := contactEmail r;
     contactPhone := contactPhone r;
     websiteUrl := websiteUrl r;
     websiteDomain := websiteDomain r;
     licenseKey := licenseKey r;
     status := assign (setStatus p) (status r);
     subscriptionType := subscriptionType r;
     subscriptionStatus := assign (setSubscriptionStatus p) (subscriptionStatus r);
     subscriptionStartDate := subscriptionStartDate r;
     subscriptionEndDate := subscriptionEndDate r;
     lastAccessDate := match setLastAccessDate p with Some t => Some t | None => lastAccessDate r end;
     lastVerificationDate :=
       match setLastVerificationDate p with Some t => Some t | None => lastVerificationDate r end;
     licenseVerified := licenseVerified r;
     notes := assign (setNotes p) (notes r);
     apiBaseUrl := apiBaseUrl r;
     authType := authType r;
     apiKey := apiKey r;
     publicKey := publicKey r;
     apiStatus := apiStatus r;
     lastSeenAt := lastSeenAt r;
     createdAt := createdAt r;
     updatedAt := assign (setUpdatedAt p) (updatedAt r) |}.

(** [eq(saasClients.col, v)] *)
Definition idIs (v : string) (r : TenantRecord) : bool := String.eqb (id r) v.
Definition licenseKeyIs (v : string) (r : TenantRecord) : bool := String.eqb (licenseKey r) v.
Definition websiteDomainIs (v : string) (r : TenantRecord) : bool := String.eqb (websiteDomain r) v.

(** [db.select().from(saasClients).where(cond).limit(1)]: the first row
    that satisfies [cond], if any. *)
Definition selectFirst (cond : TenantRecord -> bool) (w : World) : option TenantRecord :=
  find cond (clients w).

(** [db.update(saasClients).set(patch).where(cond)] *)
Definition update (p : Patch) (cond : TenantRecord -> bool) (w : World) : World :=
  {| clients := map (fun r => if cond r then applyPatch p r else r) (clients w);
     logs := logs w |}.

(** [db.insert(licenseVerificationLogs).values(entry)] *)
Definition insertLog (e : VerificationLogEntry) (w : World) : World :=
  {| clients := clients w; logs := (logs w ++ [e])%list |}.

(** The row as [NextResponse.json] serialises it. *)
Definition jsonOfTenant (r : TenantRecord) : Http.json :=
  Http.JObject
    [ ("id", Http.JString (id r));
      ("companyName", Http.JString (companyName r));
      ("contactName", Http.JString (contactName r));
      ("contactEmail", Http.JString (contactEmail r));
      ("contactPhone", Http.jsonOfNullable (contactPhone r));
      ("websiteUrl", Http.JString (websiteUrl r));
      ("websiteDomain", Http.JString (websiteDomain r));
      ("licenseKey", Http.JString (licenseKey r));
      ("status", Http.JString (status r));
      ("subscriptionType", Http.JString (subscriptionType r));
      ("subscriptionStatus", Http.JString (subscriptionStatus r));
      ("subscriptionStartDate", Http.JDate (subscriptionStartDate r));
      ("subscriptionEndDate", Http.jsonOfDate (subscriptionEndDate r));
      ("lastAccessDate", Http.jsonOfDate (lastAccessDate r));
      ("lastVerificationDate", Http.jsonOfDate (lastVerificationDate r));
      ("licenseVerified", Http.JString (licenseVerified r));
      ("notes", Http.jsonOfNullable (notes r));
      ("apiBaseUrl", Http.jsonOfNullable (apiBaseUrl r));
      ("authType", Http.JString (authType r));
      ("apiKey", Http.jsonOfNullable (apiKey r));
      ("publicKey", Http.jsonOfNullable (publicKey r));
      ("apiStatus", Http.jsonOfNullable (apiStatus r));
      ("lastSeenAt", Http.jsonOfDate (lastSeenAt r));
      ("createdAt", Http.JDate (createdAt r));
      ("updatedAt", Http.JDate (updatedAt r)) ].

(** [if (endDate) { if (now > new Date(endDate)) ... }] *)
Definition elapsed (endDate : option Z) (now : Z) : bool :=
  match endDate with
  | Some expiryDate => (expiryDate <? now)%Z
  | None => false
  end.

End Store.

(** ** [src/app/api/saas/verify-license/route.ts] *)

Module VerifyLicense.

Import Store Http.

(** The request as the handlers read it: the two fields of the JSON body
    (or, for GET, the query parameters [license] and [domain]) and three
    headers; an absent field or header is [None]. *)
Record Request : Type := {
  licenseKeyField : option string;
  domainField : option string;
  xForwardedFor : option string;
  xRealIp : option string;
  userAgentHeader : option string
}.

Section Handlers.

(** [new URL(s).hostname], [None] when the constructor throws. *)
Variable hostnameOf : string -> option string.

Definition extractDomain (url : string) : string :=
  match hostnameOf (if JS.startsWith url "http" then url else "https://" ++ url) with
  | Some hostname => JS.toLowerCase hostname
  | None => JS.toLowerCase url
  end.

Definition getClientIP (req : Request) : string :=
  JS.orElse (option_map JS.beforeComma (xForwardedFor req))
            (JS.orElse (xRealIp req) "unknown").

(** [{ valid: false, error }] *)
Definition invalid (error : string) : json :=
  JObject [("valid", JBool false); ("error", JString error)].

(** [.set({ subscriptionStatus: 'expired', updatedAt: new Date() })] *)
Definition expiredPatch (now : Z) : Patch :=
  {| setStatus := None;
     setSubscriptionStatus := Some "expired";
     setNotes := None;
     setLastAccessDate := None;
     setLastVerificationDate := None;
     setUpdatedAt := Some now |}.

(** [.set({ lastAccessDate: new Date(), lastVerificationDate: new Date(),
    updatedAt: new Date() })] *)
Definition verifiedPatch (now : Z) : Patch :=
  {| setStatus := None;
     setSubscriptionStatus := None;
     setNotes := None;
     setLastAccessDate := Some now;
     setLastVerificationDate := Some now;
     setUpdatedAt := Some now |}.

(** [{ valid: true, client: { id, companyName, subscriptionType,
    subscriptionEndDate } }] *)
Definition validBody (clientData : TenantRecord) : json :=
  JObject
    [ ("valid", JBool true);
      ("client",
       JObject
         [ ("id", JString (id clientData));
           ("companyName", JString (companyName clientData));
           ("subscriptionType", JString (subscriptionType clientData));
           ("subscriptionEndDate", jsonOfDate (subscriptionEndDate clientData)) ]) ].

Definition POST (rt : Runtime) (req : Request) (w : World) : Response * World :=
  let startTime := startTime rt in
  if negb (JS.truthy (licenseKeyField req)) || negb (JS.truthy (domainField req)) then
    (respond (invalid "License key and domain are required") 400 corsHeaders, w)
  else
    let licenseKey := JS.value (licenseKeyField req) in
    let domain := JS.value (domainField req) in
    let requestDomain := extractDomain domain in
    let clientIP := getClientIP req in
    let userAgent := JS.orElse (userAgentHeader req) "unknown" in
    let logEntry (clientId verificationStatus : string) (errorMessage : option string) :=
      {| logId := uuid rt;
         clientId := clientId;
         logLicenseKey := licenseKey;
         requestDomain := requestDomain;
         requestIp := clientIP;
         userAgent := userAgent;
         verificationStatus := verificationStatus;
         errorMessage := errorMessage;
         responseTime := (now rt - startTime)%Z |} in
    match selectFirst (licenseKeyIs licenseKey) w with
    | None =>
        let w := insertLog (logEntry "unknown" "invalid" (Some "License key not found")) w in
        (respond (invalid "Invalid license key") 401 corsHeaders, w)
    | Some clientData =>
        if negb (String.eqb (status clientData) "active") then
          let w := insertLog (logEntry (id clientData) "suspended"
                                (Some ("Client status: " ++ status clientData))) w in
          (respond (invalid ("License is " ++ status clientData)) 403 corsHeaders, w)
        else
          let clientDomain := extractDomain (websiteDomain clientData) in
          if negb (String.eqb requestDomain clientDomain) then
            let w := insertLog (logEntry (id clientData) "invalid"
                       (Some ("Domain mismatch: " ++ requestDomain
                              ++ " not authorized for " ++ clientDomain))) w in
            (respond (invalid ("Domain not authorized for this license. Expected: "
                               ++ clientDomain ++ ", Got: " ++ requestDomain))
                     403 corsHeaders, w)
          else if negb (String.eqb (subscriptionStatus clientData) "active") then
            let w := insertLog (logEntry (id clientData) "expired"
                       (Some ("Subscription status: " ++ subscriptionStatus clientData))) w in
            (respond (invalid ("Subscription is " ++ subscriptionStatus clientData))
                     402 corsHeaders, w)
          else if elapsed (subscriptionEndDate clientData) (now rt) then
            let w := update (expiredPatch (now rt)) (idIs (id clientData)) w in
            let w := insertLog (logEntry (id clientData) "expired"
                                  (Some "Subscription expired")) w in
            (respond (invalid "Subscription has expired") 402 corsHeaders, w)
          else
            let w := update (verifiedPatch (now rt)) (idIs (id clientData)) w in
            let w := insertLog (logEntry (id clientData) "valid" None) w in
            (respond (validBody clientData) 200 corsHeaders, w)
    end.

(** The lighter GET version; it issues no insert and no update. *)
Definition GET (rt : Runtime) (req : Request) (w : World) : Response * World :=
  if negb (JS.truthy (licenseKeyField req)) || negb (JS.truthy (domainField req)) then
    (respond (invalid "License key and domain are required") 400 corsHeaders, w)
  else
    let licenseKey := JS.value (licenseKeyField req) in
    let domain := JS.value (domainField req) in
    let requestDomain := extractDomain domain in
    match selectFirst (licenseKeyIs licenseKey) w with
    | None => (respond (invalid "Invalid license key") 401 corsHeaders, w)
    | Some clientData =>
        if negb (String.eqb (status clientData) "active") then
          (respond (invalid ("License is " ++ status clientData)) 403 corsHeaders, w)
        else if negb (String.eqb (subscriptionStatus clientData) "active") then
          (respond (invalid ("Subscription is " ++ subscriptionStatus clientData))
                   402 corsHeaders, w)
        else
          let clientDomain := extractDomain (websiteDomain clientData) in
          if negb (String.eqb requestDomain clientDomain) then
            (respond (invalid ("Domain not authorized. Expected: " ++ clientDomain
                               ++ ", Got: " ++ requestDomain)) 403 corsHeaders, w)
          else if elapsed (subscriptionEndDate clientData) (now rt) then
            (respond (invalid "Subscription expired") 402 corsHeaders, w)
          else
            (respond (JObject [ ("valid", JBool true);
                                ("expiresAt", jsonOfDate (subscriptionEndDate clientData)) ])
                     200 corsHeaders, w)
    end.

(** The conditions of the verification pipeline on a stored tenant, in the
    words of the specification: account active, canonical domains equal,
    subscription active, end date null or not strictly in the past. *)
Definition notPast (endDate : option Z) (now : Z) : Prop :=
  match endDate with
  | None => True
  | Some expiryDate => (now <= expiryDate)%Z
  end.

Definition passes (rt : Runtime) (domain : string) (t : TenantRecord) : Prop :=
  status t = "active"
  /\ extractDomain domain = extractDomain (websiteDomain t)
  /\ subscriptionStatus t = "active"
  /\ notPast (subscriptionEndDate t) (now rt).

(** The checks of the pipeline, as the handler tests them. *)
Definition passesb (rt : Runtime) (domain : string) (t : TenantRecord) : bool :=
  String.eqb (status t) "active"
  && String.eqb (extractDomain domain) (extractDomain (websiteDomain t))
  && String.eqb (subscriptionStatus t) "active"
  && negb (elapsed (subscriptionEndDate t) (now rt)).

(** Where the two handlers order their checks differently: the tenant is
    found and active, its subscription is not active and the domain does
    not match. *)
Definition ordersDiffer (req : Request) (w : World) : bool :=
  JS.truthy (licenseKeyField req) && JS.truthy (domainField req)
  && match selectFirst (licenseKeyIs (JS.value (licenseKeyField req))) w with
     | Some t =>
         String.eqb (status t) "active"
         && negb (String.eqb (subscriptionStatus t) "active")
         && negb (String.eqb (extractDomain (JS.value (domainField req)))
                             (extractDomain (websiteDomain t)))
     | None => false
     end.

End Handlers.

End VerifyLicense.

(** ** [src/app/api/saas/check-by-domain/route.ts] *)

Module CheckByDomain.

Import Store Http.

Section Handlers.

Variable hostnameOf : string -> option string.

(** The route's own copy of the helper. *)
Definition extractDomain (url : string) : string :=
  match hostnameOf (if JS.startsWith url "http" then url else "https://" ++ url) with
  | Some hostname => JS.toLowerCase hostname
  | None => JS.toLowerCase url
  end.

Definition invalid (error : string) : json :=
  JObject [("valid", JBool false); ("error", JString error)].

(** [domainField] is the [domain] of the JSON body. *)
Definition POST (rt : Runtime) (domainField : option string) (w : World) : Response * World :=
  if negb (JS.truthy domainField) then
    (respond (invalid "Domain is required") 400 corsHeaders, w)
  else
    let domain := JS.value domainField in
    let requestDomain := extractDomain domain in
    match selectFirst (websiteDomainIs requestDomain) w with
    | None => (respond (invalid "No license found for this domain") 404 corsHeaders, w)
    | Some clientData =>
        if negb (String.eqb (status clientData) "active") then
          (respond (invalid ("License is " ++ status clientData)) 403 corsHeaders, w)
        else if negb (String.eqb (subscriptionStatus clientData) "active") then
          (respond (invalid ("Subscription is " ++ subscriptionStatus clientData))
                   402 corsHeaders, w)
        else if elapsed (subscriptionEndDate clientData) (now rt) then
          (respond (invalid "Subscription has expired") 402 corsHeaders, w)
        else
          let isGloballyVerified := String.eqb (licenseVerified clientData) "yes" in
          (respond
             (JObject
                [ ("valid", JBool true);
                  ("globallyVerified", JBool isGloballyVerified);
                  ("licenseKey", JString (licenseKey clientData));
                  ("client",
                   JObject
                     [ ("id", JString (id clientData));
                       ("companyName", JString (companyName clientData));
                       ("subscriptionStatus", JString (subscriptionStatus clientData));
                       ("subscriptionEndDate", jsonOfDate (subscriptionEndDate clientData)) ]) ])
             200 corsHeaders, w)
    end.

End Handlers.

End CheckByDomain.

(** ** [src/app/api/saas/clients/[id]/toggle-status/route.ts] *)

Module ToggleStatus.

Import Store Http.

Section Handlers.

(** [date.toISOString()] *)
Variable toISOString : Z -> string.

Definition failure (error : string) : json :=
  JObject [("success", JBool false); ("error", JString error)].

(** The [switch (action)]: the new [status] and [subscriptionStatus]. *)
Definition decide (action : string) (client : TenantRecord) : option (string * string) :=
  let newSubscriptionStatus := subscriptionStatus client in
  if String.eqb action "enable" then
    Some ("active",
          if String.eqb (subscriptionStatus client) "cancelled" then "active"
          else newSubscriptionStatus)
  else if String.eqb action "disable" then
    Some ("suspended", newSubscriptionStatus)
  else if String.eqb action "suspend" then
    Some ("suspended", "suspended")
  else None.

(** [idParam] is the route parameter, [actionField] and [reasonField] the
    [action] and [reason] of the JSON body. *)
Definition POST (rt : Runtime) (idParam : string) (actionField reasonField : option string)
    (w : World) : Response * World :=
  if negb (JS.truthy actionField)
     || negb (JS.includes ["enable"; "disable"; "suspend"] (JS.value actionField)) then
    (respond (failure ("Invalid action. Must be " ++ JS.quoted "enable" ++ ", "
                       ++ JS.quoted "disable" ++ ", or " ++ JS.quoted "suspend")) 400 [], w)
  else
    let action := JS.value actionField in
    match selectFirst (idIs idParam) w with
    | None => (respond (failure "Client not found") 404 [], w)
    | Some client =>
        match decide action client with
        | None => (respond (failure "Invalid action") 400 [], w)
        | Some (newStatus, newSubscriptionStatus) =>
            let newNotes :=
              if JS.truthy reasonField then
                Some (JS.trim (JS.orElse (notes client) "" ++ JS.newline
                               ++ "[" ++ toISOString (now rt) ++ "] "
                               ++ JS.toUpperCase action ++ ": " ++ JS.value reasonField))
              else notes client in
            let w := update {| setStatus := Some newStatus;
                               setSubscriptionStatus := Some newSubscriptionStatus;
                               setNotes := Some newNotes;
                               setLastAccessDate := None;
                               setLastVerificationDate := None;
                               setUpdatedAt := Some (now rt) |}
                            (idIs idParam) w in
            let updatedClient := selectFirst (idIs idParam) w in
            (respond
               (JObject
                  ([("success", JBool true)]
                   ++ match updatedClient with
                      | Some r => [("data", jsonOfTenant r)]
                      | None => []
                      end
                   ++ [("message", JString ("Client website " ++ action ++ "d successfully"))])%list)
               200 [], w)
        end
    end.

End Handlers.

End ToggleStatus.

(** ** [src/lib/tenant-api.ts]: the tenant user fetcher *)

Module TenantApi.

Import Http.

Record TenantClient : Type := {
  id : string;
  companyName : string;
  apiBaseUrl : option string;
  authType : string;
  apiKey : option string;
  publicKey : option string;
  apiStatus : option string
}.

Record Options : Type := {
  limit : option Z;
  cursor : option string;
  q : option string;
  updatedSince : option string
}.

(** A [URL] object: what [href] holds before the path, the path, and the
    query parameters in order. *)
Record URLObject : Type := {
  hrefBase : string;
  pathname : string;
  searchParams : list (string * string)
}.

(** [url.searchParams.set(name, value)]: the first pair named [name] takes
    the value and later ones go; without one, the pair is appended. *)
Fixpoint setParam (name value : string) (ps : list (string * string)) : list (string * string) :=
  match ps with
  | [] => [(name, value)]
  | (k, v) :: rest =>
      if String.eqb k name
      then (k, value) :: filter (fun kv => negb (String.eqb (fst kv) name)) rest
      else (k, v) :: setParam name value rest
  end.

Definition set (name value : string) (u : URLObject) : URLObject :=
  {| hrefBase := hrefBase u; pathname := pathname u;
     searchParams := setParam name value (searchParams u) |}.

Record FetchRequest : Type := {
  reqUrl : string;
  reqMethod : string;
  reqHeaders : list (string * string)
}.

Record FetchResponse : Type := {
  ok : bool;
  respStatus : Z;
  statusText : string;
  bodyText : string;
  bodyJson : option json
}.

(** What the function throws: an [Error] it creates itself, or an exception
    of the runtime (the [URL] constructor, [fetch], [response.json()]). *)
Inductive exn : Type :=
| Error (message : string)
| InvalidURL
| FetchFailed
| BodyNotJson.

Inductive outcome (A : Type) : Type :=
| Returned (a : A)
| Thrown (e : exn).
Arguments Returned {A} a.
Arguments Thrown {A} e.

Definition pausedMessage (apiStatus : option string) : string :=
  "Tenant API is " ++ JS.orElse apiStatus "inactive".
Definition baseUrlMessage : string := "Tenant API base URL is not configured".
Definition authMessage : string :=
  "Only HMAC authentication is currently supported and API key is required".

(** The three guards at the top of [fetchTenantUsers]: the message of the
    first one that throws. *)
Definition precondition (tenant : TenantClient) : option string :=
  if negb (match apiStatus tenant with Some s => String.eqb s "active" | None => false end) then
    Some (pausedMessage (apiStatus tenant))
  else if negb (JS.truthy (apiBaseUrl tenant)) then
    Some baseUrlMessage
  else if negb (String.eqb (authType tenant) "HMAC") || negb (JS.truthy (apiKey tenant)) then
    Some authMessage
  else None.


Section Fetch.

(** [new URL(path, base)], [None] when it throws. *)
Variable newURL : string -> string -> option URLObject.
(** The query string of a parameter list (the urlencoded serialiser). *)
Variable serialize : list (string * string) -> string.
(** The remote end: the response to a request, [None] when [fetch] rejects. *)
Variable remote : FetchRequest -> option FetchResponse.

(** [url.search] and [url.toString()] *)
Definition search (u : URLObject) : string :=
  match searchParams u with
  | [] => ""
  | ps => "?" ++ serialize ps
  end.
Definition toString (u : URLObject) : string := hrefBase u ++ pathname u ++ search u.

(** [calls] is the list of requests sent so far, the latest first. *)
Definition fetchTenantUsers (now : Z) (tenant : TenantClient) (options : Options)
    (calls : list FetchRequest) : outcome json * list FetchRequest :=
  match precondition tenant with
  | Some message => (Thrown (Error message), calls)
  | None =>
      match newURL "/api/admin/users" (JS.value (apiBaseUrl tenant)) with
      | None => (Thrown InvalidURL, calls)
      | Some url =>
          let url := match limit options with
                     | Some n => if (n =? 0)%Z then url else set "limit" (JS.stringOfZ n) url
                     | None => url
                     end in
          let url := if JS.truthy (cursor options)
                     then set "cursor" (JS.value (cursor options)) url else url in
          let url := if JS.truthy (q options) then set "q" (JS.value (q options)) url else url in
          let url := if JS.truthy (updatedSince options)
                     then set "updated_since" (JS.value (updatedSince options)) url else url in
          let timestamp := JS.stringOfZ now in
          let signature :=
            Signer.createHmacSignature (JS.value (apiKey tenant)) timestamp
                                       (pathname url) (search url) None in
          let request :=
            {| reqUrl := toString url;
               reqMethod := "GET";
               reqHeaders := [ ("x-timestamp", timestamp);
                               ("x-signature", signature);
                               ("User-Agent", "Admin-Panel/1.0") ] |} in
          let calls := request :: calls in
          match remote request with
          | None => (Thrown FetchFailed, calls)
          | Some response =>
              if negb (ok response) then
                (Thrown (Error ("Tenant API error " ++ JS.stringOfZ (respStatus response)
                                ++ ": " ++ statusText response)), calls)
              else
                match bodyJson response with
                | Some data => (Returned data, calls)
                | None => (Thrown BodyNotJson, calls)
                end
          end
      end
  end.

Definition testTenantConnection (now : Z) (tenant : TenantClient)
    (calls : list FetchRequest) : bool * list FetchRequest :=
  match fetchTenantUsers now tenant
          {| limit := Some 1%Z; cursor := None; q := None; updatedSince := None |} calls with
  | (Returned _, calls) => (true, calls)
  | (Thrown _, calls) => (false, calls)
  end.

End Fetch.

End TenantApi.

(** ** Sample data for the worked examples *)

Module Samples.

(** A random source that keeps returning the byte 00. *)
Definition zeroEntropy : KeyGen.entropy := fun _ => x00.

(** A tenant on a yearly plan that ends at time 2000. *)
Definition acme : Store.TenantRecord :=
  {| Store.id := "t-1";
     Store.companyName := "Acme Flowers";
     Store.contactName := "Ada";
     Store.contactEmail := "ada@acme.example";
     Store.contactPhone := None;
     Store.websiteUrl := "https://shop.example.com";
     Store.websiteDomain := "shop.example.com";
     Store.licenseKey := "LIC-0000-0000-0000-0000-0000-0000";
     Store.status := "active";
     Store.subscriptionType := "yearly";
     Store.subscriptionStatus := "active";
     Store.subscriptionStartDate := 0;
     Store.subscriptionEndDate := Some 2000%Z;
     Store.lastAccessDate := None;
     Store.lastVerificationDate := None;
     Store.licenseVerified := "no";
     Store.notes := None;
     Store.apiBaseUrl := Some "https://shop.example.com";
     Store.authType := "HMAC";
     Store.apiKey := Some "secret";
     Store.publicKey := None;
     Store.apiStatus := Some "active";
     Store.lastSeenAt := None;
     Store.createdAt := 0;
     Store.updatedAt := 0 |}.

Definition world : Store.World := {| Store.clients := [acme]; Store.logs := [] |}.

(** A request for [acme]'s key from its own domain. *)
Definition request : VerifyLicense.Request :=
  {| VerifyLicense.licenseKeyField := Some "LIC-0000-0000-0000-0000-0000-0000";
     VerifyLicense.domainField := Some "https://Shop.Example.com/";
     VerifyLicense.xForwardedFor := Some "203.0.113.7, 10.0.0.1";
     VerifyLicense.xRealIp := None;
     VerifyLicense.userAgentHeader := None |}.

(** Handling a request at time 1000 (before the plan ends) and at time 3000
    (after it). *)
Definition early : Store.Runtime := {| Store.startTime := 990; Store.now := 1000; Store.uuid := "log-1" |}.
Definition late : Store.Runtime := {| Store.startTime := 2990; Store.now := 3000; Store.uuid := "log-2" |}.


(** [acme]'s key presented from another domain. *)
Definition foreignRequest : VerifyLicense.Request :=
  {| VerifyLicense.licenseKeyField := Some "LIC-0000-0000-0000-0000-0000-0000";
     VerifyLicense.domainField := Some "other.example.com";
     VerifyLicense.xForwardedFor := None;
     VerifyLicense.xRealIp := None;
     VerifyLicense.userAgentHeader := None |}.

(** A tenant record as the fetcher sees it, with its API paused. *)
Definition pausedTenant : TenantApi.TenantClient :=
  {| TenantApi.id := "t-1";
     TenantApi.companyName := "Acme Flowers";
     TenantApi.apiBaseUrl := Some "https://shop.example.com";
     TenantApi.authType := "HMAC";
     TenantApi.apiKey := Some "secret";
     TenantApi.publicKey := None;
     TenantApi.apiStatus := Some "paused" |}.

(** The store once [acme]'s subscription has been marked expired. *)
Definition lapsedWorld : Store.World :=
  {| Store.clients := [Store.applyPatch (VerifyLicense.expiredPatch 2500) acme];
     Store.logs := [] |}.

End Samples.

(* ================================================================== *)
(** * Part I, continued: the administrative routes                     *)
(* ================================================================== *)

(** ** JSON values with arrays, for the responses of the administrative routes *)

Module Json.

#[warnings="-register-all"]
Inductive value : Type :=
| Null : value
| Bool (b : bool) : value
| Number (n : Z) : value
| Str (s : string) : value
| Date (t : Z) : value
| Arr (items : list value) : value
| Obj (fields : list (string * value)) : value.

(** The values of the verification routes, read as values of this type. *)
Fixpoint ofHttp (j : Http.json) : value :=
  match j with
  | Http.JNull => Null
  | Http.JBool b => Bool b
  | Http.JNumber n => Number n
  | Http.JString s => Str s
  | Http.JDate t => Date t
  | Http.JObject fields => Obj (map (fun kv : string * Http.json => match kv with (k, v) => (k, ofHttp v) end) fields)
  end.

Definition ofDate (d : option Z) : value :=
  match d with Some t => Date t | None => Null end.

Definition ofNullable (v : option string) : value :=
  match v with Some s => Str s | None => Null end.

Fixpoint field (name : string) (fields : list (string * value)) : option value :=
  match fields with
  | [] => None
  | (k, v) :: rest => if String.eqb k name then Some v else field name rest
  end.

(** [body.name], for an object. *)
Definition get (name : string) (j : value) : option value :=
  match j with
  | Obj fields => field name fields
  | _ => None
  end.

(** [{ ...row }]: the properties of an object, none for [undefined]. *)
Definition spread (j : option value) : list (string * value) :=
  match j with
  | Some (Obj fields) => fields
  | _ => []
  end.

(** [NextResponse.json(body, { status })] of the administrative routes,
    which set no headers. *)
Record Reply : Type := { code : Z; content : value }.

Definition reply (content : value) (code : Z) : Reply := {| code := code; content := content |}.

(** [{ success: false, error }] *)
Definition failure (error : string) : value :=
  Obj [("success", Bool false); ("error", Str error)].

End Json.

(** ** Further string primitives *)

Module Text.

(** [s.replace(/\/$/, '')]: without one trailing slash. *)
Fixpoint removeTrailingSlash (s : string) : string :=
  match s with
  | EmptyString => EmptyString
  | String c EmptyString => if Ascii.eqb c "/" then EmptyString else s
  | String c s' => String c (removeTrailingSlash s')
  end.

(** A nullable string inside a template literal. *)
Definition interpolate (v : option string) : string :=
  match v with Some s => s | None => "undefined" end.

(** [s.substring(0, n)] *)
Definition take (n : nat) (s : string) : string := String.substring 0 n s.

End Text.

(** ** Writing to [saasClients] *)

Module Admin.

Import Store.

(** One property of the object handed to [.set({...})]. *)
Inductive assignment : Type :=
| CompanyName (v : string)
| ContactName (v : string)
| ContactEmail (v : string)
| ContactPhone (v : option string)
| WebsiteUrl (v : string)
| WebsiteDomain (v : string)
| LicenseKey (v : string)
| Status (v : string)
| SubscriptionType (v : string)
| SubscriptionStatus (v : string)
| SubscriptionEndDate (v : option Z)
| Notes (v : option string)
| ApiKey (v : option string)
| ApiStatus (v : option string)
| UpdatedAt (t : Z).

Definition assign (a : assignment) (r : TenantRecord) : TenantRecord :=
  {| id := id r;
     companyName := match a with CompanyName v => v | _ => companyName r end;
     contactName := match a with ContactName v => v | _ => contactName r end;
     contactEmail := match a with ContactEmail v => v | _ => contactEmail r end;
     contactPhone := match a with ContactPhone v => v | _ => contactPhone r end;
     websiteUrl := match a with WebsiteUrl v => v | _ => websiteUrl r end;
     websiteDomain := match a with WebsiteDomain v => v | _ => websiteDomain r end;
     licenseKey := match a with LicenseKey v => v | _ => licenseKey r end;
     status := match a with Status v => v | _ => status r end;
     subscriptionType := match a with SubscriptionType v => v | _ => subscriptionType r end;
     subscriptionStatus := match a with SubscriptionStatus v => v | _ => subscriptionStatus r end;
     subscriptionStartDate := subscriptionStartDate r;
     subscriptionEndDate := match a with SubscriptionEndDate v => v | _ => subscriptionEndDate r end;
     lastAccessDate := lastAccessDate r;
     lastVerificationDate := lastVerificationDate r;
     licenseVerified := licenseVerified r;
     notes := match a with Notes v => v | _ => notes r end;
     apiBaseUrl := apiBaseUrl r;
     authType := authType r;
     apiKey := match a with ApiKey v => v | _ => apiKey r end;
     publicKey := publicKey r;
     apiStatus := match a with ApiStatus v => v | _ => apiStatus r end;
     lastSeenAt := lastSeenAt r;
     createdAt := createdAt r;
     updatedAt := match a with UpdatedAt t => t | _ => updatedAt r end |}.

(** The row after [.set(values)]; of two properties with one name the later
    one counts. *)
Definition set (values : list assignment) (r : TenantRecord) : TenantRecord :=
  fold_left (fun acc a => assign a acc) values r.

(** [db.update(saasClients).set(values).where(cond)] *)
Definition update (values : list assignment) (cond : TenantRecord -> bool) (w : World) : World :=
  {| clients := map (fun r => if cond r then set values r else r) (clients w);
     logs := logs w |}.

(** [db.insert(saasClients).values(row)] *)
Definition insert (row : TenantRecord) (w : World) : World :=
  {| clients := (clients w ++ [row])%list; logs := logs w |}.

(** [eq(saasClients.contactEmail, v)] *)
Definition contactEmailIs (v : string) (r : TenantRecord) : bool := String.eqb (contactEmail r) v.

Definition maxAttempts : nat := 10.

(** The loop
    [while (!isUnique && attempts < maxAttempts) { key = generateLicenseKey(); ... attempts++ }]
    of the create and regenerate routes, [remaining] being
    [maxAttempts - attempts]: the first key drawn that no row holds, [None]
    when the attempts run out ([isUnique] still false). *)
Fixpoint uniqueKeyLoop (remaining : nat) (src : KeyGen.entropy) (w : World)
    : option string * KeyGen.entropy :=
  match remaining with
  | O => (None, src)
  | S remaining' =>
      let (licenseKey, src') := KeyGen.generateLicenseKey src in
      match selectFirst (licenseKeyIs licenseKey) w with
      | None => (Some licenseKey, src')
      | Some _ => uniqueKeyLoop remaining' src' w
      end
  end.

Definition generateUniqueLicenseKey (src : KeyGen.entropy) (w : World)
    : option string * KeyGen.entropy :=
  uniqueKeyLoop maxAttempts src w.

(** A row of the table in a response. *)
Definition valueOfTenant (r : TenantRecord) : Json.value := Json.ofHttp (jsonOfTenant r).

End Admin.

(** ** [src/app/api/saas/clients/[id]/regenerate-license/route.ts]: POST *)

Module RegenerateLicense.

Import Store Json Admin.

Section Handlers.

(** [date.toISOString()] *)
Variable toISOString : Z -> string.

Definition POST (rt : Runtime) (idParam : string) (src : KeyGen.entropy) (w : World)
    : Reply * World * KeyGen.entropy :=
  match selectFirst (idIs idParam) w with
  | None => (reply (failure "Client not found") 404, w, src)
  | Some client =>
      let oldLicenseKey := licenseKey client in
      match generateUniqueLicenseKey src w with
      | (None, src) => (reply (failure "Failed to generate unique license key") 500, w, src)
      | (Some newLicenseKey, src) =>
          let w :=
            update [ LicenseKey newLicenseKey;
                     Notes (Some (JS.trim (JS.orElse (notes client) "" ++ JS.newline
                                           ++ "[" ++ toISOString (now rt)
                                           ++ "] License key regenerated. Old key: "
                                           ++ oldLicenseKey)));
                     UpdatedAt (now rt) ]
                   (idIs idParam) w in
          let updatedClient := selectFirst (idIs idParam) w in
          (reply
             (Obj [ ("success", Bool true);
                    ("data", Obj (spread (option_map valueOfTenant updatedClient)
                                  ++ [("oldLicenseKey", Str oldLicenseKey)])%list);
                    ("message", Str "License key regenerated successfully") ])
             200, w, src)
      end
  end.

End Handlers.

End RegenerateLicense.

(** ** [src/app/api/saas/clients/[id]/regenerate-api-key/route.ts]: POST *)

Module RegenerateApiKey.

Import Store Json Admin.

Definition instructions (newApiKey : string) : list string :=
  [ "🔄 API KEY REGENERATED - Update your client project:";
    "";
    "1. Update your client's .env.local file:";
    ("   ADMIN_API_SECRET=" ++ newApiKey);
    "";
    "2. Restart your client application to load the new key";
    "";
    "3. The old API key is now invalid";
    "";
    "4. Test the connection from the SaaS Users page";
    "";
    "⚠️  IMPORTANT: Copy this key now - it won't be shown again!" ].

Definition POST (rt : Runtime) (idParam : string) (src : KeyGen.entropy) (w : World)
    : Reply * World * KeyGen.entropy :=
  match selectFirst (idIs idParam) w with
  | None => (reply (failure "Client not found") 404, w, src)
  | Some client =>
      let (newApiKey, src) := KeyGen.generateApiKey src in
      let w := update [ ApiKey (Some newApiKey); ApiStatus (Some "active"); UpdatedAt (now rt) ]
                      (idIs idParam) w in
      match selectFirst (idIs idParam) w with
      | None => (reply (failure "Failed to update API key") 500, w, src)
      | Some updatedClient =>
          (reply
             (Obj [ ("success", Bool true);
                    ("data", valueOfTenant updatedClient);
                    ("message", Str "API key regenerated successfully");
                    ("setupInstructions",
                     Obj [ ("apiKey", Str newApiKey);
                           ("instructions", Arr (map Str (instructions newApiKey)));
                           ("apiBaseUrl", ofNullable (apiBaseUrl client));
                           ("authType", Str (authType client)) ]) ])
             200, w, src)
      end
  end.

End RegenerateApiKey.

(** ** The create route ([src/app/api/saas/clients/route.ts]): POST *)

Module Clients.

Import Store Json Admin.

(** The fields the handler reads from the JSON body. *)
Record Body : Type := {
  companyNameField : option string;
  contactNameField : option string;
  contactEmailField : option string;
  contactPhoneField : option string;
  websiteUrlField : option string;
  websiteDomainField : option string;
  subscriptionTypeField : option string;
  subscriptionEndDateField : option string;
  notesField : option string
}.

Definition instructions (licenseKey apiKey apiBaseUrl : string) : list string :=
  [ "ðŸŽ‰ SaaS Client Created Successfully!";
    "";
    "ðŸ“‹ API Federation has been configured automatically:";
    ("   âœ… License Key: " ++ licenseKey);
    ("   âœ… API Key: " ++ apiKey);
    ("   âœ… API Base URL: " ++ apiBaseUrl);
    "   âœ… Auth Type: HMAC";
    "   âœ… API Status: Active";
    "";
    "ðŸ”§ CLIENT SETUP REQUIRED:";
    "";
    "1. Add this to your client's .env.local file:";
    ("   ADMIN_API_SECRET=" ++ apiKey);
    "";
    "2. Restart your client application to load the new environment variable";
    "";
    "3. The admin API endpoint is already implemented at:";
    "   ðŸ“ /api/admin/users/route.ts";
    "";
    "4. Verify your API Base URL is accessible:";
    ("   ðŸŒ " ++ apiBaseUrl ++ "/api/admin/users");
    "";
    "5. Test the connection:";
    "   ðŸ‘€ Go to SaaS Users â†’ View Users";
    "";
    "âš ï¸  IMPORTANT: Save this API key securely - it's required for admin access to your user data!";
    "";
    "ðŸ“š Need help? Check the SAAS_API_FEDERATION_SETUP.md guide" ].

Section Handlers.

(** [new Date(now.setMonth(now.getMonth() + 1))] and
    [new Date(now.setFullYear(now.getFullYear() + 1))], calendar arithmetic in
    the server's time zone. *)
Variable plusOneMonth : Z -> Z.
Variable plusOneYear : Z -> Z.
(** The time value stored for an end date supplied in the body. *)
Variable dateOf : string -> Z.

(** [rt] gives the clock and the [uuidv4()] that becomes the row's id. *)
Definition POST (rt : Runtime) (body : Body) (src : KeyGen.entropy) (w : World)
    : Reply * World * KeyGen.entropy :=
  let subscriptionType :=
    match subscriptionTypeField body with Some s => s | None => "monthly" end in
  if negb (JS.truthy (companyNameField body)) || negb (JS.truthy (contactNameField body))
     || negb (JS.truthy (contactEmailField body)) || negb (JS.truthy (websiteUrlField body))
     || negb (JS.truthy (websiteDomainField body)) then
    (reply (failure ("Missing required fields: companyName, contactName, contactEmail, "
                     ++ "websiteUrl, websiteDomain")) 400, w, src)
  else
    let companyName := JS.value (companyNameField body) in
    let contactName := JS.value (contactNameField body) in
    let contactEmail := JS.value (contactEmailField body) in
    let websiteUrl := JS.value (websiteUrlField body) in
    let websiteDomain := JS.value (websiteDomainField body) in
    match selectFirst (contactEmailIs contactEmail) w with
    | Some _ => (reply (failure "Client with this email already exists") 409, w, src)
    | None =>
        match generateUniqueLicenseKey src w with
        | (None, src) => (reply (failure "Failed to generate unique license key") 500, w, src)
        | (Some licenseKey, src) =>
            let calculatedEndDate :=
              if JS.truthy (subscriptionEndDateField body) then
                Some (dateOf (JS.value (subscriptionEndDateField body)))
              else if negb (String.eqb subscriptionType "lifetime") then
                if String.eqb subscriptionType "monthly" then Some (plusOneMonth (now rt))
                else if String.eqb subscriptionType "yearly" then Some (plusOneYear (now rt))
                else None
              else None in
            let (apiKey, src) := KeyGen.generateApiKey src in
            let apiBaseUrl :=
              if negb (JS.startsWith websiteUrl "http://")
                 && negb (JS.startsWith websiteUrl "https://")
              then "https://" ++ websiteUrl else websiteUrl in
            let apiBaseUrl := Text.removeTrailingSlash apiBaseUrl in
            let newClient :=
              {| id := uuid rt;
                 companyName := companyName;
                 contactName := contactName;
                 contactEmail := contactEmail;
                 contactPhone := if JS.truthy (contactPhoneField body)
                                 then contactPhoneField body else None;
                 websiteUrl := websiteUrl;
                 websiteDomain := websiteDomain;
                 licenseKey := licenseKey;
                 status := "active";
                 subscriptionType := subscriptionType;
                 subscriptionStatus := "active";
                 subscriptionStartDate := now rt;
                 subscriptionEndDate := calculatedEndDate;
                 lastAccessDate := None;
                 lastVerificationDate := None;
                 licenseVerified := "no";
                 notes := if JS.truthy (notesField body) then notesField body else None;
                 apiBaseUrl := Some apiBaseUrl;
                 authType := "HMAC";
                 apiKey := Some apiKey;
                 publicKey := None;
                 apiStatus := Some "active";
                 lastSeenAt := None;
                 createdAt := now rt;
                 updatedAt := now rt |} in
            let w := insert newClient w in
            (reply
               (Obj [ ("success", Bool true);
                      ("data", valueOfTenant newClient);
                      ("message",
                       Str "Client created successfully - API federation configured automatically");
                      ("setupInstructions",
                       Obj [ ("licenseKey", Str licenseKey);
                             ("apiKey", Str apiKey);
                             ("apiBaseUrl", Str apiBaseUrl);
                             ("authType", Str "HMAC");
                             ("instructions",
                              Arr (map Str (instructions licenseKey apiKey apiBaseUrl))) ]) ])
               201, w, src)
        end
    end.

End Handlers.

End Clients.

(** ** [src/app/api/saas/clients/[id]/route.ts]: GET, PUT, DELETE *)

Module ClientById.

Import Store Json Admin.

Definition GET (idParam : string) (w : World) : Reply :=
  match selectFirst (idIs idParam) w with
  | None => reply (failure "Client not found") 404
  | Some client => reply (Obj [("success", Bool true); ("data", valueOfTenant client)]) 200
  end.

(** The body of a PUT.  A field is [None] when the body does not have it
    ([undefined]); a column that may be null takes [Some None] for [null]. *)
Record Body : Type := {
  companyNameField : option string;
  contactNameField : option string;
  contactEmailField : option string;
  contactPhoneField : option (option string);
  websiteUrlField : option string;
  websiteDomainField : option string;
  statusField : option string;
  subscriptionTypeField : option string;
  subscriptionStatusField : option string;
  subscriptionEndDateField : option (option string);
  notesField : option (option string)
}.

(** [if (x !== undefined) updateData.col = x] *)
Definition whenDefined {A : Type} (x : option A) (col : A -> assignment) : list assignment :=
  match x with Some v => [col v] | None => [] end.

Section Handlers.

(** [new Date(s)], as a time value. *)
Variable dateOf : string -> Z.
(** What the foreign keys of the schema do to the log when rows of
    [saasClients] with some id go. *)
Variable onDelete : string -> list VerificationLogEntry -> list VerificationLogEntry.

Definition updateData (rt : Runtime) (body : Body) : list assignment :=
  ([UpdatedAt (now rt)]
   ++ whenDefined (companyNameField body) CompanyName
   ++ whenDefined (contactNameField body) ContactName
   ++ whenDefined (contactEmailField body) ContactEmail
   ++ whenDefined (contactPhoneField body) ContactPhone
   ++ whenDefined (websiteUrlField body) WebsiteUrl
   ++ whenDefined (websiteDomainField body) WebsiteDomain
   ++ whenDefined (statusField body) Status
   ++ whenDefined (subscriptionTypeField body) SubscriptionType
   ++ whenDefined (subscriptionStatusField body) SubscriptionStatus
   ++ whenDefined (subscriptionEndDateField body)
        (fun v => SubscriptionEndDate (if JS.truthy v then Some (dateOf (JS.value v)) else None))
   ++ whenDefined (notesField body) Notes)%list.

Definition PUT (rt : Runtime) (idParam : string) (body : Body) (w : World) : Reply * World :=
  match selectFirst (idIs idParam) w with
  | None => (reply (failure "Client not found") 404, w)
  | Some existingClient =>
      if JS.truthy (contactEmailField body)
         && negb (String.eqb (JS.value (contactEmailField body)) (contactEmail existingClient))
         && match selectFirst (contactEmailIs (JS.value (contactEmailField body))) w with
            | Some _ => true
            | None => false
            end
      then (reply (failure "Client with this email already exists") 409, w)
      else
        let w := update (updateData rt body) (idIs idParam) w in
        let updatedClient := selectFirst (idIs idParam) w in
        (reply
           (Obj ([("success", Bool true)]
                 ++ match updatedClient with
                    | Some r => [("data", valueOfTenant r)]
                    | None => []
                    end
                 ++ [("message", Str "Client updated successfully")])%list)
           200, w)
  end.

Definition DELETE (idParam : string) (w : World) : Reply * World :=
  match selectFirst (idIs idParam) w with
  | None => (reply (failure "Client not found") 404, w)
  | Some _ =>
      let w := {| clients := filter (fun r => negb (idIs idParam r)) (clients w);
                  logs := onDelete idParam (logs w) |} in
      (reply (Obj [("success", Bool true); ("message", Str "Client deleted successfully")]) 200, w)
  end.

End Handlers.

End ClientById.

(** ** [src/app/api/saas/check-domain/route.ts]: POST *)

Module CheckDomain.

Import Store Json.

Section Handlers.

Variable hostnameOf : string -> option string.
(** The database's [LIKE]: does the value match the pattern? *)
Variable like : string -> string -> bool.

(** The route's own copy of the helper. *)
Definition extractDomain (url : string) : string :=
  match hostnameOf (if JS.startsWith url "http" then url else "https://" ++ url) with
  | Some hostname => JS.toLowerCase hostname
  | None => JS.toLowerCase url
  end.

(** [primaryClient.licenseKey ? `${licenseKey.substring(0, 10)}...` : null] *)
Definition maskedKey (licenseKey : string) : Http.json :=
  if JS.truthy (Some licenseKey) then Http.JString (Text.take 10 licenseKey ++ "...")
  else Http.JNull.

(** The rows the query selects: the domain column equal to the normalised
    domain, or containing it, or the URL column containing it. *)
Definition matching (normalizedDomain : string) (w : World) : list TenantRecord :=
  filter (fun r => websiteDomainIs normalizedDomain r
                   || like (websiteDomain r) ("%" ++ normalizedDomain ++ "%")
                   || like (websiteUrl r) ("%" ++ normalizedDomain ++ "%"))
         (clients w).

Definition POST (domainField : option string) (w : World) : Http.Response :=
  if negb (JS.truthy domainField) then
    Http.respond (Http.JObject [("exists", Http.JBool false);
                                ("error", Http.JString "Domain is required")])
                 400 Http.corsHeaders
  else
    let normalizedDomain := extractDomain (JS.value domainField) in
    let clients := matching normalizedDomain w in
    match clients with
    | [] =>
        Http.respond
          (Http.JObject [ ("exists", Http.JBool false);
                          ("domain", Http.JString normalizedDomain);
                          ("message", Http.JString "Domain not found in SAAS clients database") ])
          200 Http.corsHeaders
    | first :: _ =>
        let exactMatch :=
          find (fun client => String.eqb (extractDomain (websiteDomain client)) normalizedDomain)
               clients in
        let primaryClient := match exactMatch with Some c => c | None => first end in
        Http.respond
          (Http.JObject
             [ ("exists", Http.JBool true);
               ("domain", Http.JString normalizedDomain);
               ("client",
                Http.JObject
                  [ ("id", Http.JString (id primaryClient));
                    ("companyName", Http.JString (companyName primaryClient));
                    ("contactEmail", Http.JString (contactEmail primaryClient));
                    ("websiteDomain", Http.JString (websiteDomain primaryClient));
                    ("websiteUrl", Http.JString (websiteUrl primaryClient));
                    ("status", Http.JString (status primaryClient));
                    ("subscriptionStatus", Http.JString (subscriptionStatus primaryClient));
                    ("subscriptionType", Http.JString (subscriptionType primaryClient));
                    ("subscriptionEndDate", Http.jsonOfDate (subscriptionEndDate primaryClient));
                    ("licenseKey", maskedKey (licenseKey primaryClient));
                    ("createdAt", Http.JDate (createdAt primaryClient));
                    ("lastAccessDate", Http.jsonOfDate (lastAccessDate primaryClient));
                    ("lastVerificationDate",
                     Http.jsonOfDate (lastVerificationDate primaryClient)) ]);
               ("allMatches", Http.JNumber (Z.of_nat (List.length clients)));
               ("exactMatch", Http.JBool (match exactMatch with Some _ => true | None => false end)) ])
          200 Http.corsHeaders
    end.

End Handlers.

End CheckDomain.

(** ** The validation utilities for the API federation setup
       ([validateSaasClient], [formatValidationReport]) *)

Module Validation.

Record SaasClientData : Type := {
  id : string;
  companyName : string;
  status : string;
  apiBaseUrl : option string;
  authType : option string;
  apiKey : option string;
  apiStatus : option string;
  lastSeenAt : option string
}.

Record SaasClientValidation : Type := {
  isValid : bool;
  issues : list string;
  readyForAPI : bool;
  setupInstructions : list string
}.

(** One check: the issue it reports and the instruction that goes with it. *)
Definition finding : Type := (string * string)%type.

Definition holds (v : option string) (s : string) : bool :=
  match v with Some x => String.eqb x s | None => false end.

Section Validate.

(** [new URL(s).hostname], [None] when the constructor throws. *)
Variable hostnameOf : string -> option string.

Definition statusFindings (client : SaasClientData) : list finding :=
  if negb (String.eqb (status client) "active") then
    [ ("Client status is " ++ JS.quoted (status client) ++ " (must be " ++ JS.quoted "active" ++ ")",
       "• Enable client status in admin panel") ]
  else [].

Definition baseUrlFindings (client : SaasClientData) : list finding :=
  if negb (JS.truthy (apiBaseUrl client)) then
    [ ("API Base URL is not configured", "• Set API Base URL in client settings") ]
  else
    match hostnameOf (JS.value (apiBaseUrl client)) with
    | Some _ =>
        if negb (JS.startsWith (JS.value (apiBaseUrl client)) "https://")
           && negb (JS.startsWith (JS.value (apiBaseUrl client)) "http://") then
          [ ("API Base URL should include protocol (https:// or http://)",
             "• Update API Base URL to include https:// protocol") ]
        else []
    | None =>
        [ ("API Base URL is not a valid URL format",
           "• Fix API Base URL format (e.g., https://client-domain.com)") ]
    end.

Definition authFindings (client : SaasClientData) : list finding :=
  if negb (JS.truthy (authType client)) then
    [ ("Authentication type is not set", "• Set authentication type (default: HMAC)") ]
  else if negb (holds (authType client) "HMAC") then
    [ ("Authentication type " ++ JS.quoted (JS.value (authType client)) ++ " is not yet supported",
       "• Only HMAC authentication is currently supported") ]
  else [].

Definition apiKeyFindings (client : SaasClientData) : list finding :=
  if negb (JS.truthy (apiKey client)) then
    [ ("API key is not generated",
       "• Generate API key using " ++ JS.quoted "Regenerate API Key" ++ " button") ]
  else if (String.length (JS.value (apiKey client)) <? 32)%nat then
    [ ("API key appears to be too short (security concern)",
       "• Regenerate API key for better security") ]
  else [].

Definition apiStatusFindings (client : SaasClientData) : list finding :=
  if negb (holds (apiStatus client) "active") then
    [ ("API status is " ++ JS.quoted (Text.interpolate (apiStatus client))
       ++ " (must be " ++ JS.quoted "active" ++ ")",
       "• Enable API access in client settings") ]
  else [].

Definition validateSaasClient (client : SaasClientData) : SaasClientValidation :=
  let findings :=
    (statusFindings client ++ baseUrlFindings client ++ authFindings client
     ++ apiKeyFindings client ++ apiStatusFindings client)%list in
  let issues := map fst findings in
  let setupInstructions := map snd findings in
  let readyForAPI :=
    String.eqb (status client) "active"
    && JS.truthy (apiBaseUrl client)
    && holds (authType client) "HMAC"
    && JS.truthy (apiKey client)
    && holds (apiStatus client) "active" in
  let setupInstructions :=
    if readyForAPI then
      (setupInstructions
       ++ [ "• Add ADMIN_API_SECRET to client .env.local file";
            "• Restart client application";
            "• Test connection from SaaS Users page" ])%list
    else setupInstructions in
  {| isValid := match issues with [] => true | _ => false end;
     issues := issues;
     readyForAPI := readyForAPI;
     setupInstructions := setupInstructions |}.

End Validate.

Definition formatValidationReport (validation : SaasClientValidation) : string :=
  let lines :=
    if isValid validation then ["✅ SaaS Client API Federation - All checks passed!"]
    else ("❌ SaaS Client API Federation - Issues found:"
          :: map (fun issue => "   • " ++ issue) (issues validation)) in
  let lines :=
    if readyForAPI validation then (lines ++ [""; "🎉 Ready for API access!"])%list
    else (lines ++ [""; "⚠️  Not ready for API access"])%list in
  let lines :=
    match setupInstructions validation with
    | [] => lines
    | instructions =>
        (lines ++ [""; "📋 Next steps:"]
         ++ map (fun instruction => ("   " ++ instruction)%string) instructions)%list
    end in
  JS.join JS.newline lines.

End Validation.

(** ** The tenant users page: [getTenantFromDB]
       ([src/app/saas-users/[tenantId]/page.tsx]) *)

Module TenantPage.

(** The seven columns the page selects, as the fetcher's [TenantClient];
    [None] when no row has the id. *)
Definition getTenantFromDB (tenantId : string) (w : Store.World) : option TenantApi.TenantClient :=
  match Store.selectFirst (Store.idIs tenantId) w with
  | Some r =>
      Some {| TenantApi.id := Store.id r;
              TenantApi.companyName := Store.companyName r;
              TenantApi.apiBaseUrl := Store.apiBaseUrl r;
              TenantApi.authType := Store.authType r;
              TenantApi.apiKey := Store.apiKey r;
              TenantApi.publicKey := Store.publicKey r;
              TenantApi.apiStatus := Store.apiStatus r |}
  | None => None
  end.

End TenantPage.

(** ** The columns a verification reads *)

Module Relevant.

Import Store.

(** Two rows that agree on every column the verification handlers read. *)
Definition sameForVerification (r r' : TenantRecord) : Prop :=
  id r' = id r /\ licenseKey r' = licenseKey r /\ companyName r' = companyName r
  /\ websiteDomain r' = websiteDomain r /\ status r' = status r
  /\ subscriptionType r' = subscriptionType r
  /\ subscriptionStatus r' = subscriptionStatus r
  /\ subscriptionEndDate r' = subscriptionEndDate r.

End Relevant.

(** ** Verification traffic: a sequence of POST /verify-license requests *)

Module Traffic.

Section Run.

Variable hostnameOf : string -> option string.

(** The store after the requests have been handled one after the other. *)
Definition run (requests : list (Store.Runtime * VerifyLicense.Request)) (w : Store.World)
    : Store.World :=
  fold_left (fun w rq => snd (VerifyLicense.POST hostnameOf (fst rq) (snd rq) w)) requests w.

End Run.

End Traffic.

(** ** Hexadecimal digits read back (used to show that keys determine their bytes) *)

Module HexRead.

Definition digitValue (c : ascii) : N :=
  let n := N.of_nat (JS.code c) in
  if JS.isDigit c then (n - 48)%N
  else if JS.isUpperAlpha c then (n - 55)%N
  else (n - 87)%N.

Definition byteOfDigits (h l : ascii) : byte :=
  match Byte.of_N (16 * digitValue h + digitValue l) with
  | Some b => b
  | None => x00
  end.

Fixpoint decode (s : string) : list byte :=
  match s with
  | String h (String l rest) => byteOfDigits h l :: decode rest
  | _ => []
  end.

End HexRead.

(** ** More sample data *)

Module MoreSamples.

(** A body for the create route: a lifetime plan for a second shop. *)
Definition createBody : Clients.Body :=
  {| Clients.companyNameField := Some "Bloom & Co";
     Clients.contactNameField := Some "Bea";
     Clients.contactEmailField := Some "bea@bloom.example";
     Clients.contactPhoneField := None;
     Clients.websiteUrlField := Some "bloom.example/";
     Clients.websiteDomainField := Some "bloom.example";
     Clients.subscriptionTypeField := Some "lifetime";
     Clients.subscriptionEndDateField := None;
     Clients.notesField := None |}.

(** A random source that counts 0, 1, 2, ... modulo 256. *)
Definition countingEntropy : KeyGen.entropy :=
  fun i => match Byte.of_N (N.of_nat i mod 256) with Some b => b | None => x00 end.

(** A client record as the validation utilities see it. *)
Definition readyClient : Validation.SaasClientData :=
  {| Validation.id := "t-1";
     Validation.companyName := "Acme Flowers";
     Validation.status := "active";
     Validation.apiBaseUrl := Some "https://shop.example.com";
     Validation.authType := Some "HMAC";
     Validation.apiKey := Some "0123456789abcdef0123456789abcdef";
     Validation.apiStatus := Some "active";
     Validation.lastSeenAt := None |}.

(** A tenant record as the fetcher sees it, in working order. *)
Definition readyTenant : TenantApi.TenantClient :=
  {| TenantApi.id := "t-1";
     TenantApi.companyName := "Acme Flowers";
     TenantApi.apiBaseUrl := Some "https://shop.example.com";
     TenantApi.authType := "HMAC";
     TenantApi.apiKey := Some "0123456789abcdef0123456789abcdef";
     TenantApi.publicKey := None;
     TenantApi.apiStatus := Some "active" |}.

(** A second tenant, on a lifetime plan, whose domain contains [acme]'s. *)
Definition bloom : Store.TenantRecord :=
  {| Store.id := "t-2";
     Store.companyName := "Bloom & Co";
     Store.contactName := "Bea";
     Store.contactEmail := "bea@bloom.example";
     Store.contactPhone := None;
     Store.websiteUrl := "https://beta.shop.example.com";
     Store.websiteDomain := "beta.shop.example.com";
     Store.licenseKey := "LIC-0001-0203-0405-0607-0809-0A0B";
     Store.status := "active";
     Store.subscriptionType := "lifetime";
     Store.subscriptionStatus := "active";
     Store.subscriptionStartDate := 0;
     Store.subscriptionEndDate := None;
     Store.lastAccessDate := None;
     Store.lastVerificationDate := None;
     Store.licenseVerified := "no";
     Store.notes := Some "VIP customer";
     Store.apiBaseUrl := Some "https://beta.shop.example.com";
     Store.authType := "HMAC";
     Store.apiKey := None;
     Store.publicKey := None;
     Store.apiStatus := Some "paused";
     Store.lastSeenAt := None;
     Store.createdAt := 0;
     Store.updatedAt := 0 |}.

(** [bloom] is stored before [acme]. *)
Definition twoWorld : Store.World :=
  {| Store.clients := [bloom; Samples.acme]; Store.logs := [] |}.

(** A body for PUT that sets the contact email to [acme]'s. *)
Definition emailChange : ClientById.Body :=
  {| ClientById.companyNameField := None;
     ClientById.contactNameField := None;
     ClientById.contactEmailField := Some "ada@acme.example";
     ClientById.contactPhoneField := None;
     ClientById.websiteUrlField := None;
     ClientById.websiteDomainField := None;
     ClientById.statusField := None;
     ClientById.subscriptionTypeField := None;
     ClientById.subscriptionStatusField := None;
     ClientById.subscriptionEndDateField := None;
     ClientById.notesField := None |}.

(** A [LIKE] for the examples: [%] stands for any characters, [_] for one,
    every other character for itself. *)
Fixpoint likePattern (pattern : string) : string -> bool :=
  match pattern with
  | EmptyString => fun value => match value with EmptyString => true | _ => false end
  | String p pattern' =>
      if Ascii.eqb p "%" then
        fix anywhere (value : string) : bool :=
          likePattern pattern' value
          || match value with
             | EmptyString => false
             | String _ value' => anywhere value'
             end
      else if Ascii.eqb p "_" then
        fun value => match value with
                     | EmptyString => false
                     | String _ value' => likePattern pattern' value'
                     end
      else
        fun value => match value with
                     | EmptyString => false
                     | String c value' => Ascii.eqb c p && likePattern pattern' value'
                     end
  end.

Definition like (value pattern : string) : bool := likePattern pattern value.

(** Handling a request at time 1600, with its own id. *)
Definition midway : Store.Runtime :=
  {| Store.startTime := 1590; Store.now := 1600; Store.uuid := "t-3" |}.

(** A stand-in for [toISOString] in the examples, which are all handled at
    time 1600. *)
Definition isoTime (t : Z) : string := "1970-01-01T00:00:01.600Z".

End MoreSamples.

(* ================================================================== *)
(** * Part II: theorems                                                *)
(* ================================================================== *)

(** ** Key generator *)

Example generateLicenseKey_zero :
  fst (KeyGen.generateLicenseKey Samples.zeroEntropy) = "LIC-0000-0000-0000-0000-0000-0000".
Proof. reflexivity. Qed.

(** *** Regular expressions: the matcher accepts the language *)

Lemma append_nil_inv (s1 s2 : string) : s1 ++ s2 = "" -> s1 = "" /\ s2 = "".
Proof. destruct s1; simpl; [auto | discriminate]. Qed.

Lemma Matches_nil_nullable r s : Regex.Matches r s -> s = "" -> Regex.nullable r = true.
Proof.
  induction 1; intros E; simpl; try reflexivity; try discriminate.
  - apply append_nil_inv in E as [E1 E2].
    rewrite IHMatches1, IHMatches2; auto.
  - rewrite IHMatches; auto.
  - rewrite IHMatches; auto using orb_true_r.
Qed.

Lemma Matches_deriv r s :
  Regex.Matches r s -> forall c t, s = String c t -> Regex.Matches (Regex.deriv c r) t.
Proof.
  induction 1; intros a t E; simpl; try discriminate.
  - injection E as -> <-. rewrite H. constructor.
  - destruct s1 as [|b s1'].
    + simpl in E. rewrite (Matches_nil_nullable H eq_refl).
      apply Regex.MAltR. eauto.
    + simpl in E. injection E as -> <-.
      destruct (Regex.nullable r1).
      * apply Regex.MAltL. constructor; eauto.
      * constructor; eauto.
  - apply Regex.MAltL; eauto.
  - apply Regex.MAltR; eauto.
  - destruct s1 as [|b s1'].
    + simpl in E. apply IHMatches2 in E. exact E.
    + simpl in E. injection E as -> <-.
      constructor; eauto.
Qed.

Lemma test_complete s : forall r, Regex.Matches r s -> Regex.test r s = true.
Proof.
  induction s as [|c s IH]; intros r H; simpl.
  - eapply Matches_nil_nullable; eauto.
  - apply IH. eapply Matches_deriv; eauto.
Qed.

Lemma Matches_cons p r c s :
  p c = true -> Regex.Matches r s -> Regex.Matches (Regex.Cat (Regex.Class p) r) (String c s).
Proof.
  intros Hp Hr. apply (Regex.MCat (Regex.MClass p c Hp) Hr).
Qed.

Lemma Matches_Lit s : Regex.Matches (Regex.Lit s) s.
Proof.
  induction s as [|c s IH]; simpl.
  - constructor.
  - apply Matches_cons; [apply Ascii.eqb_refl | exact IH].
Qed.

(** *** Hexadecimal digits *)

Lemma hi_lower_hex b : Hex.isLowerHex (Hex.hi b) = true.
Proof. destruct b; reflexivity. Qed.

Lemma lo_lower_hex b : Hex.isLowerHex (Hex.lo b) = true.
Proof. destruct b; reflexivity. Qed.

Lemma hi_upper_hex b : Hex.isUpperHex (JS.upperChar (Hex.hi b)) = true.
Proof. destruct b; reflexivity. Qed.

Lemma lo_upper_hex b : Hex.isUpperHex (JS.upperChar (Hex.lo b)) = true.
Proof. destruct b; reflexivity. Qed.

Lemma upper_hex_not_terminator c : Hex.isUpperHex c = true -> JS.lineTerminator c = false.
Proof.
  unfold Hex.isUpperHex, JS.lineTerminator, JS.isDigit.
  intros H.
  apply orb_true_iff in H as [H|H]; apply andb_true_iff in H as [H1 H2];
    apply Nat.leb_le in H1, H2; apply orb_false_iff; split; apply Nat.eqb_neq; lia.
Qed.

Lemma encode_length bs : String.length (Hex.encode bs) = (2 * List.length bs)%nat.
Proof. induction bs as [|b bs IH]; simpl; [reflexivity | rewrite IH; lia]. Qed.

Lemma encode_lower_hex bs : Hex.forallb Hex.isLowerHex (Hex.encode bs) = true.
Proof.
  induction bs as [|b bs IH]; simpl; [reflexivity |].
  rewrite hi_lower_hex, lo_lower_hex, IH. reflexivity.
Qed.

Lemma takeDots4 a b c d rest :
  JS.lineTerminator a = false -> JS.lineTerminator b = false ->
  JS.lineTerminator c = false -> JS.lineTerminator d = false ->
  JS.takeDots 4 (String a (String b (String c (String d rest))))
  = (String a (String b (String c (String d ""))), rest).
Proof. intros Ha Hb Hc Hd. simpl. rewrite Ha, Hb, Hc, Hd. reflexivity. Qed.

Lemma matchAllDots4 fuel a b c d rest :
  Hex.isUpperHex a = true -> Hex.isUpperHex b = true ->
  Hex.isUpperHex c = true -> Hex.isUpperHex d = true ->
  JS.matchAllDots (S fuel) (String a (String b (String c (String d rest))))
  = String a (String b (String c (String d ""))) :: JS.matchAllDots fuel rest.
Proof.
  intros Ha Hb Hc Hd.
  cbn [JS.matchAllDots].
  rewrite takeDots4 by auto using upper_hex_not_terminator.
  reflexivity.
Qed.

(** The key, character by character, for the twelve bytes drawn. *)
Lemma generateLicenseKey_chars (src : KeyGen.entropy) :
  let U := fun i => JS.upperChar (Hex.hi (src i)) in
  let V := fun i => JS.upperChar (Hex.lo (src i)) in
  fst (KeyGen.generateLicenseKey src)
  = string_of_list_ascii
      [ "L"; "I"; "C";
        "-"; U 0; V 0; U 1; V 1;
        "-"; U 2; V 2; U 3; V 3;
        "-"; U 4; V 4; U 5; V 5;
        "-"; U 6; V 6; U 7; V 7;
        "-"; U 8; V 8; U 9; V 9;
        "-"; U 10; V 10; U 11; V 11 ]%char%nat.
Proof.
  intros U V.
  assert (HU : forall i, Hex.isUpperHex (U i) = true) by (intro; apply hi_upper_hex).
  assert (HV : forall i, Hex.isUpperHex (V i) = true) by (intro; apply lo_upper_hex).
  unfold KeyGen.generateLicenseKey, KeyGen.randomBytes.
  cbn [map seq fst Hex.encode JS.toUpperCase JS.mapString string_of_list_ascii].
  repeat match goal with
         | |- context [JS.upperChar (Hex.hi (src ?i))] =>
             change (JS.upperChar (Hex.hi (src i))) with (U i)
         | |- context [JS.upperChar (Hex.lo (src ?i))] =>
             change (JS.upperChar (Hex.lo (src i))) with (V i)
         end.
  clearbody U V.
  unfold KeyGen.format, JS.match_dot_1_4_g.
  cbn [String.length].
  rewrite !matchAllDots4 by auto.
  reflexivity.
Qed.

(** C4 (as amended).  Every call of [generateLicenseKey] returns ["LIC-"]
    followed by the upper-case hexadecimal encoding of the twelve random
    bytes it draws (24 hexadecimal characters) cut into groups of four joined
    by ["-"]: six groups, [LIC-XXXX-XXXX-XXXX-XXXX-XXXX-XXXX], 33 characters
    in all, matching [^LIC(-[0-9A-F]{4}){6}$]. *)
Theorem generateLicenseKey_format (src : KeyGen.entropy) :
  let key := fst (KeyGen.generateLicenseKey src) in
  let bytes := fst (KeyGen.randomBytes 12 src) in
  let H := JS.toUpperCase (Hex.encode bytes) in
  List.length bytes = 12%nat /\
  String.length H = 24%nat /\
  Hex.forallb Hex.isUpperHex H = true /\
  key = "LIC-" ++ substring 0 4 H ++ "-" ++ substring 4 4 H ++ "-" ++ substring 8 4 H
               ++ "-" ++ substring 12 4 H ++ "-" ++ substring 16 4 H ++ "-" ++ substring 20 4 H /\
  String.length key = 33%nat /\
  Regex.test KeyGen.licensePattern key = true.
Proof.
  cbv zeta.
  rewrite generateLicenseKey_chars.
  unfold KeyGen.randomBytes.
  cbn [map seq fst Hex.encode JS.toUpperCase JS.mapString string_of_list_ascii].
  repeat split.
  - cbn [Hex.forallb]. rewrite !hi_upper_hex, !lo_upper_hex. reflexivity.
  - apply test_complete.
    unfold KeyGen.licensePattern.
    apply (Regex.MCat (s1 := "LIC") (Matches_Lit "LIC")).
    cbn [Regex.Repeat].
    repeat first
      [ apply Regex.MEps
      | apply Matches_cons; [first [apply hi_upper_hex | apply lo_upper_hex] | ]
      | match goal with
        | |- Regex.Matches (Regex.Cat (Regex.Cat _ _) _) (String ?m (String ?a (String ?b (String ?c (String ?d ?rest))))) =>
            apply (Regex.MCat (s1 := String m (String a (String b (String c (String d ""))))) (s2 := rest));
            [ apply Matches_cons; [reflexivity | ] | ]
        end ].
Qed.

(** C4, the claim as written fails: the key drawn from a source of zero
    bytes has 33 characters, not 29, and six groups, not the five of
    [LIC-XXXX-XXXX-XXXX-XXXX-XXXX]. *)
Lemma generateLicenseKey_not_29 :
  let key := fst (KeyGen.generateLicenseKey Samples.zeroEntropy) in
  key = "LIC-0000-0000-0000-0000-0000-0000" /\
  String.length key <> 29%nat /\
  Regex.test KeyGen.fiveGroupPattern key = false.
Proof. cbv zeta. repeat split. vm_compute. discriminate. Qed.

(** ** SHA-256 and HMAC: published test vectors *)

Example sha256_empty :
  Hex.encode (Sha256.sha256 [])
  = "e3b0c44298fc1c149afbf4c8996fb92427ae41e4649b934ca495991b7852b855".
Proof. vm_compute. reflexivity. Qed.

Example sha256_abc :
  Hex.encode (Sha256.sha256 (list_byte_of_string "abc"))
  = "ba7816bf8f01cfea414140de5dae2223b00361a396177a9cb410ff61f20015ad".
Proof. vm_compute. reflexivity. Qed.

Example sha256_two_blocks :
  Hex.encode (Sha256.sha256
    (list_byte_of_string "abcdbcdecdefdefgefghfghighijhijkijkljklmklmnlmnomnopnopq"))
  = "248d6a61d20638b8e5c026930c3e6039a33ce45964ff2167f6ecedd419db06c1".
Proof. vm_compute. reflexivity. Qed.

Example hmac_rfc4231_case2 :
  Hex.encode (Hmac.hmacSha256 (list_byte_of_string "Jefe")
                              (list_byte_of_string "what do ya want for nothing?"))
  = "5bdcc146bf60754e6a042426089575c75a003f089d2739839dec58b964ec3843".
Proof. vm_compute. reflexivity. Qed.

(** ** The license store *)

Lemma truthy_some (s : string) : s <> "" -> JS.truthy (Some s) = true.
Proof. destruct s; [congruence | reflexivity]. Qed.

Lemma truthy_value (v : option string) : JS.truthy v = true -> v = Some (JS.value v) /\ JS.value v <> "".
Proof. destruct v as [[|c s]|]; simpl; try discriminate. intros _. split; [reflexivity | discriminate]. Qed.

Lemma find_map_same {A : Type} (p : A -> bool) (f : A -> A) (l : list A) :
  (forall a, p (f a) = p a) -> find p (map f l) = option_map f (find p l).
Proof.
  intros Hp. induction l as [|a l IH]; simpl; [reflexivity |].
  rewrite Hp. destruct (p a); [reflexivity | exact IH].
Qed.

Lemma licenseKey_applyPatch p r : Store.licenseKey (Store.applyPatch p r) = Store.licenseKey r.
Proof. reflexivity. Qed.

Lemma id_applyPatch p r : Store.id (Store.applyPatch p r) = Store.id r.
Proof. reflexivity. Qed.

(** An update by id leaves the lookup by license key on the same row, patched
    when it is one of the rows updated. *)
Lemma selectFirst_key_update p i key w :
  Store.selectFirst (Store.licenseKeyIs key) (Store.update p (Store.idIs i) w)
  = option_map (fun r => if Store.idIs i r then Store.applyPatch p r else r)
               (Store.selectFirst (Store.licenseKeyIs key) w).
Proof.
  unfold Store.selectFirst, Store.update. simpl.
  apply find_map_same. intros a. unfold Store.licenseKeyIs.
  destruct (Store.idIs i a); reflexivity.
Qed.

Lemma selectFirst_id_update p i w :
  Store.selectFirst (Store.idIs i) (Store.update p (Store.idIs i) w)
  = option_map (Store.applyPatch p) (Store.selectFirst (Store.idIs i) w).
Proof.
  unfold Store.selectFirst, Store.update. simpl.
  induction (Store.clients w) as [|a l IH]; simpl; [reflexivity |].
  destruct (Store.idIs i a) eqn:E.
  - unfold Store.idIs in *. simpl. rewrite E. reflexivity.
  - rewrite E. exact IH.
Qed.

Lemma selectFirst_insertLog cond e w :
  Store.selectFirst cond (Store.insertLog e w) = Store.selectFirst cond w.
Proof. reflexivity. Qed.

Lemma idIs_self r : Store.idIs (Store.id r) r = true.
Proof. apply String.eqb_refl. Qed.


(** With license keys unique in the table, the row the lookup returns is the
    tenant that has the key. *)
Lemma selectFirst_unique_key key w t :
  NoDup (map Store.licenseKey (Store.clients w)) ->
  (Store.selectFirst (Store.licenseKeyIs key) w = Some t
   <-> In t (Store.clients w) /\ Store.licenseKey t = key).
Proof.
  unfold Store.selectFirst, Store.licenseKeyIs.
  intros Hnd. split.
  - intros H. apply find_some in H as [Hin Heq]. apply String.eqb_eq in Heq. auto.
  - intros [Hin Hk]. induction (Store.clients w) as [|a l IH]; [contradiction |].
    simpl in *. inversion Hnd as [|? ? Hnotin Hnd']; subst.
    destruct Hin as [-> | Hin].
    + rewrite String.eqb_refl. reflexivity.
    + destruct (String.eqb (Store.licenseKey a) (Store.licenseKey t)) eqn:E.
      * apply String.eqb_eq in E. exfalso. apply Hnotin. rewrite E. apply in_map. exact Hin.
      * apply IH; assumption.
Qed.

(** ** POST /verify-license *)

Section VerifyLicenseFacts.

Import Store Http VerifyLicense.

Variable hostnameOf : string -> option string.

Lemma elapsed_notPast endDate now : elapsed endDate now = false <-> notPast endDate now.
Proof.
  unfold elapsed, notPast. destruct endDate as [e|]; [| tauto].
  rewrite Z.ltb_ge. tauto.
Qed.

Lemma passesb_passes rt domain t :
  passesb hostnameOf rt domain t = true <-> passes hostnameOf rt domain t.
Proof.
  unfold passesb, passes.
  rewrite !andb_true_iff, negb_true_iff, !String.eqb_eq, elapsed_notPast. tauto.
Qed.

(** The successful branch. *)
Lemma POST_success rt req w key domain t :
  licenseKeyField req = Some key -> key <> "" ->
  domainField req = Some domain -> domain <> "" ->
  selectFirst (licenseKeyIs key) w = Some t ->
  passes hostnameOf rt domain t ->
  exists e,
    POST hostnameOf rt req w
    = (respond (validBody t) 200 corsHeaders,
       insertLog e (update (verifiedPatch (now rt)) (idIs (id t)) w))
    /\ verificationStatus e = "valid".
Proof.
  intros Hk Hk0 Hd Hd0 Hsel Hp.
  apply passesb_passes in Hp. unfold passesb in Hp.
  rewrite !andb_true_iff, negb_true_iff in Hp.
  destruct Hp as [[[H1 H2] H3] H4].
  unfold VerifyLicense.POST. rewrite Hk, Hd, !truthy_some by assumption.
  cbn [negb orb JS.value]. rewrite Hsel, H1, H2, H3, H4. cbn [negb].
  eexists. split; reflexivity.
Qed.



(** C2 (as amended).  For a tenant that passes lookup, account gate, domain
    binding and subscription gate and whose end date is strictly in the past,
    the first full verification sets [subscriptionStatus] to [expired] in the
    store and answers [valid: false], 402, "Subscription has expired"; a
    second verification of the same pair, at any time, answers
    [valid: false], 402 again, with the message "Subscription is expired",
    and leaves the tenants as they are. *)
Theorem POST_expiry_twice rt1 rt2 req w key domain t expiryDate :
  licenseKeyField req = Some key -> key <> "" ->
  domainField req = Some domain -> domain <> "" ->
  selectFirst (licenseKeyIs key) w = Some t ->
  status t = "active" ->
  extractDomain hostnameOf domain = extractDomain hostnameOf (websiteDomain t) ->
  subscriptionStatus t = "active" ->
  subscriptionEndDate t = Some expiryDate -> (expiryDate < now rt1)%Z ->
  let first := POST hostnameOf rt1 req w in
  let second := POST hostnameOf rt2 req (snd first) in
  statusCode (fst first) = 402%Z
  /\ body (fst first) = invalid "Subscription has expired"
  /\ (exists t', selectFirst (licenseKeyIs key) (snd first) = Some t'
                 /\ subscriptionStatus t' = "expired")
  /\ statusCode (fst second) = 402%Z
  /\ body (fst second) = invalid "Subscription is expired"
  /\ clients (snd second) = clients (snd first).
Proof.
  intros Hk Hk0 Hd Hd0 Hsel Hst Hdom Hsub Hend Hlt. cbv zeta.
  assert (H1 : exists e,
             POST hostnameOf rt1 req w
             = (respond (invalid "Subscription has expired") 402 corsHeaders,
                insertLog e (update (expiredPatch (now rt1)) (idIs (id t)) w))).
  { unfold VerifyLicense.POST. rewrite Hk, Hd, !truthy_some by assumption.
    cbn [negb orb JS.value]. rewrite Hsel, Hst, Hdom, Hsub, Hend.
    rewrite !String.eqb_refl. cbn [negb elapsed].
    apply Z.ltb_lt in Hlt. rewrite Hlt. eexists. reflexivity. }
  destruct H1 as [e1 H1]. rewrite H1. cbn [fst snd].
  assert (Hsel' : selectFirst (licenseKeyIs key)
                    (insertLog e1 (update (expiredPatch (now rt1)) (idIs (id t)) w))
                  = Some (applyPatch (expiredPatch (now rt1)) t)).
  { rewrite selectFirst_insertLog, selectFirst_key_update, Hsel. cbn [option_map].
    rewrite idIs_self. reflexivity. }
  split; [reflexivity | split; [reflexivity | split]].
  - eexists. split; [exact Hsel' | reflexivity].
  - unfold VerifyLicense.POST. rewrite Hk, Hd, !truthy_some by assumption.
    cbn [negb orb JS.value]. rewrite Hsel'.
    cbn [status websiteDomain subscriptionStatus applyPatch expiredPatch assign
         setStatus setSubscriptionStatus].
    rewrite Hst, Hdom, !String.eqb_refl. cbn [negb].
    repeat split.
Qed.

End VerifyLicenseFacts.


(** C2, the claim as written fails: after the plan of the sample tenant has
    ended, the first verification answers "Subscription has expired" and the
    second one "Subscription is expired". *)
Lemma POST_expiry_messages_differ :
  let first := VerifyLicense.POST URL.hostname Samples.late Samples.request Samples.world in
  let second := VerifyLicense.POST URL.hostname Samples.late Samples.request (snd first) in
  Http.get "error" (Http.body (fst first)) = Some (Http.JString "Subscription has expired")
  /\ Http.get "error" (Http.body (fst second)) = Some (Http.JString "Subscription is expired")
  /\ Http.get "error" (Http.body (fst first)) <> Http.get "error" (Http.body (fst second)).
Proof. cbv zeta. repeat split. vm_compute. discriminate. Qed.

Lemma POST_expiry_twice_witness :
  let first := VerifyLicense.POST URL.hostname Samples.late Samples.request Samples.world in
  let second := VerifyLicense.POST URL.hostname Samples.late Samples.request (snd first) in
  Http.body (fst second) = VerifyLicense.invalid "Subscription is expired".
Proof.
  refine (proj1 (proj2 (proj2 (proj2 (proj2
    (@POST_expiry_twice URL.hostname Samples.late Samples.late Samples.request Samples.world
       "LIC-0000-0000-0000-0000-0000-0000" "https://Shop.Example.com/" Samples.acme 2000%Z
       eq_refl _ eq_refl _ eq_refl eq_refl eq_refl eq_refl eq_refl _)))))).
  - discriminate.
  - discriminate.
  - reflexivity.
Defined.

(** ** GET /verify-license against POST, and the verification log *)

Section VerifyLicenseCodes.

Import Store Http VerifyLicense.

Variable hostnameOf : string -> option string.

(** C3 (as amended).  The lightweight GET check never changes the store: it
    writes no log entry and updates no tenant.  Its status code is 400 when a
    field is missing, 401 when the key is unknown, 200 when the tenant passes
    every check, 403 or 402 otherwise.  It is the status code of the full
    POST verification except when the tenant is found and active, its
    subscription is not active and the canonical domains differ: there GET
    answers 402, its subscription check coming first, and POST answers 403,
    its domain check coming first. *)
Theorem GET_status_code rt req w :
  let code := statusCode (fst (GET hostnameOf rt req w)) in
  let present := JS.truthy (licenseKeyField req) && JS.truthy (domainField req) in
  let found := selectFirst (licenseKeyIs (JS.value (licenseKeyField req))) w in
  snd (GET hostnameOf rt req w) = w
  /\ In code [400; 401; 403; 402; 200]%Z
  /\ (code =? 400)%Z = negb present
  /\ (code =? 401)%Z = present && match found with None => true | Some _ => false end
  /\ (code =? 200)%Z
     = present && match found with
                  | Some t => passesb hostnameOf rt (JS.value (domainField req)) t
                  | None => false
                  end
  /\ (if ordersDiffer hostnameOf req w
      then code = 402%Z /\ statusCode (fst (POST hostnameOf rt req w)) = 403%Z
      else code = statusCode (fst (POST hostnameOf rt req w))).
Proof.
  cbv zeta. unfold ordersDiffer, passesb, VerifyLicense.GET, VerifyLicense.POST.
  destruct (JS.truthy (licenseKeyField req)); cbn [negb orb andb];
    [| cbn; intuition auto].
  destruct (JS.truthy (domainField req)); cbn [negb orb andb];
    [| cbn; intuition auto].
  destruct (selectFirst _ w) as [t|]; [| cbn; intuition auto].
  destruct (String.eqb (status t) "active"); cbn [negb andb];
    [| cbn; intuition auto].
  destruct (String.eqb (subscriptionStatus t) "active"); cbn [negb andb];
    destruct (String.eqb (extractDomain hostnameOf _) (extractDomain hostnameOf (websiteDomain t)));
    cbn [negb andb]; try (cbn; intuition auto; fail).
  destruct (elapsed (subscriptionEndDate t) (now rt)); cbn; intuition auto.
Qed.


End VerifyLicenseCodes.

(** C3, the claim as written fails: for the lapsed tenant's key presented
    from another domain POST answers 403 and GET answers 402. *)
Lemma GET_POST_codes_differ :
  Http.statusCode (fst (VerifyLicense.POST URL.hostname Samples.late Samples.foreignRequest
                          Samples.lapsedWorld)) = 403%Z
  /\ Http.statusCode (fst (VerifyLicense.GET URL.hostname Samples.late Samples.foreignRequest
                             Samples.lapsedWorld)) = 402%Z.
Proof. split; vm_compute; reflexivity. Qed.


(** ** POST /check-by-domain *)

Section CheckByDomainFacts.

Import Store Http.

Variable hostnameOf : string -> option string.

(** When a single tenant is bound to the domain, it is the row the lookup
    returns. *)
Lemma selectFirst_unique_domain d w t :
  In t (clients w) -> websiteDomain t = d ->
  (forall t', In t' (clients w) -> websiteDomain t' = d -> t' = t) ->
  selectFirst (websiteDomainIs d) w = Some t.
Proof.
  unfold selectFirst, websiteDomainIs. intros Hin Hd Hu.
  destruct (find (fun r => String.eqb (websiteDomain r) d) (clients w)) as [t'|] eqn:E.
  - apply find_some in E as [Hin' Heq]. apply String.eqb_eq in Heq.
    f_equal. apply Hu; assumption.
  - exfalso. apply (find_none _ _ E) in Hin. simpl in Hin.
    rewrite Hd, String.eqb_refl in Hin. discriminate.
Qed.


End CheckByDomainFacts.


(** ** Toggle status *)

Section ToggleStatusFacts.

Import Store Http.

Variable toISOString : Z -> string.

(** C9.  For an existing tenant, toggle-status with action [enable] sets
    [status] to [active] and sets [subscriptionStatus] to [active] only when
    it was [cancelled], leaving any other value, [expired] and [suspended]
    among them, as it was; [disable] sets [status] to [suspended] and leaves
    [subscriptionStatus] untouched; [suspend] sets both to [suspended]. *)
Theorem toggle_status rt idParam action reason w client :
  selectFirst (idIs idParam) w = Some client ->
  In action ["enable"; "disable"; "suspend"] ->
  let result := ToggleStatus.POST toISOString rt idParam (Some action) reason w in
  exists client',
    selectFirst (idIs idParam) (snd result) = Some client'
    /\ statusCode (fst result) = 200%Z
    /\ (action = "enable" ->
        status client' = "active"
        /\ (subscriptionStatus client = "cancelled" -> subscriptionStatus client' = "active")
        /\ (subscriptionStatus client <> "cancelled" ->
            subscriptionStatus client' = subscriptionStatus client))
    /\ (action = "disable" ->
        status client' = "suspended"
        /\ subscriptionStatus client' = subscriptionStatus client)
    /\ (action = "suspend" ->
        status client' = "suspended"
        /\ subscriptionStatus client' = "suspended").
Proof.
  intros Hsel Hin. cbv zeta.
  assert (Hinc : JS.includes ["enable"; "disable"; "suspend"] action = true).
  { simpl in Hin. destruct Hin as [<- | [<- | [<- | []]]]; reflexivity. }
  assert (Htr : JS.truthy (Some action) = true).
  { simpl in Hin. destruct Hin as [<- | [<- | [<- | []]]]; reflexivity. }
  unfold ToggleStatus.POST. rewrite Htr. cbn [JS.value negb orb]. rewrite Hinc.
  cbn [negb]. rewrite Hsel.
  simpl in Hin. destruct Hin as [<- | [<- | [<- | []]]];
    cbn [ToggleStatus.decide String.eqb Ascii.eqb Bool.eqb andb fst snd];
    rewrite !selectFirst_id_update, Hsel; cbn [option_map fst snd];
    eexists; (split; [reflexivity |]); (split; [reflexivity |]);
    repeat split; try discriminate; cbn.
  - intros ->. reflexivity.
  - intros Hne. apply String.eqb_neq in Hne. rewrite Hne. reflexivity.
Qed.

End ToggleStatusFacts.

Lemma toggle_status_witness :
  exists client',
    Store.selectFirst (Store.idIs "t-1")
      (snd (ToggleStatus.POST (fun _ => "1970-01-01T00:00:03.000Z") Samples.late "t-1"
              (Some "enable") None Samples.lapsedWorld)) = Some client'
    /\ Store.status client' = "active"
    /\ Store.subscriptionStatus client' = "expired".
Proof.
  destruct (@toggle_status (fun _ => "1970-01-01T00:00:03.000Z") Samples.late "t-1" "enable" None
              Samples.lapsedWorld (Store.applyPatch (VerifyLicense.expiredPatch 2500) Samples.acme)
              eq_refl (or_introl eq_refl)) as [c [Hsel [_ [Hen _]]]].
  exists c. split; [exact Hsel |].
  destruct (Hen eq_refl) as [Hs [_ Hk]].
  split; [exact Hs |]. rewrite Hk; [reflexivity | discriminate].
Defined.

(** ** The tenant user fetcher *)




Section TenantApiFacts.

Import TenantApi.

Variable newURL : string -> string -> option URLObject.
Variable serialize : list (string * string) -> string.
Variable remote : FetchRequest -> option FetchResponse.



End TenantApiFacts.

(** The paused tenant of the samples, whatever the remote end would answer:
    the error mentions the status and the list of requests sent stays empty. *)
Example fetch_paused_tenant :
  TenantApi.fetchTenantUsers
    (fun _ _ => None) (fun _ => "") (fun _ => None) 3000 Samples.pausedTenant
    {| TenantApi.limit := Some 10%Z; TenantApi.cursor := None;
       TenantApi.q := None; TenantApi.updatedSince := None |} []
  = (TenantApi.Thrown (TenantApi.Error "Tenant API is paused"), []).
Proof. reflexivity. Qed.

(** ** The HMAC client signer *)

Lemma digestOf_length s : List.length (Sha256.digestOf s) = 32%nat.
Proof. reflexivity. Qed.

Lemma sha256_length msg : List.length (Sha256.sha256 msg) = 32%nat.
Proof. unfold Sha256.sha256. apply digestOf_length. Qed.

Lemma hmacSha256_length key text : List.length (Hmac.hmacSha256 key text) = 32%nat.
Proof. unfold Hmac.hmacSha256. apply sha256_length. Qed.

(** C8.  [createHmacSignature] returns the lower-case hexadecimal encoding
    (64 characters) of HMAC-SHA256 keyed with the secret over
    "timestamp:path:query:body", the body being the empty string when it is
    omitted; equal inputs give equal signatures. *)
Theorem createHmacSignature_spec secret timestamp path search body :
  let message :=
    timestamp ++ ":" ++ path ++ ":" ++ search ++ ":"
    ++ match body with Some b => b | None => "" end in
  let signature := Signer.createHmacSignature secret timestamp path search body in
  signature
  = Hex.encode (Hmac.hmacSha256 (list_byte_of_string secret) (list_byte_of_string message))
  /\ String.length signature = 64%nat
  /\ Hex.forallb Hex.isLowerHex signature = true
  /\ Signer.createHmacSignature secret timestamp path search None
     = Signer.createHmacSignature secret timestamp path search (Some "")
  /\ (forall secret' timestamp' path' search' body',
        secret' = secret -> timestamp' = timestamp -> path' = path ->
        search' = search -> body' = body ->
        Signer.createHmacSignature secret' timestamp' path' search' body' = signature).
Proof.
  cbv zeta.
  unfold Signer.createHmacSignature, Crypto.digestHex, Crypto.update, Crypto.createHmacSha256.
  cbn [Crypto.hmacKey Crypto.hmacData app].
  split; [reflexivity | split; [| split; [| split]]].
  - rewrite encode_length, hmacSha256_length. reflexivity.
  - apply encode_lower_hex.
  - reflexivity.
  - intros; subst; reflexivity.
Qed.

Example createHmacSignature_sample :
  Signer.createHmacSignature "secret" "1700000000000" "/api/admin/users" "?limit=10" None
  = Hex.encode (Hmac.hmacSha256 (list_byte_of_string "secret")
      (list_byte_of_string "1700000000000:/api/admin/users:?limit=10:")).
Proof. reflexivity. Qed.

(** ** The domain normaliser *)

Lemma lowerChar_not_upper c : JS.isUpperAlpha (JS.lowerChar c) = false.
Proof.
  destruct c as [[] [] [] [] [] [] [] []]; reflexivity.
Qed.

Lemma toLowerCase_lower s : Hex.forallb (fun c => negb (JS.isUpperAlpha c)) (JS.toLowerCase s) = true.
Proof.
  induction s as [|c s IH]; simpl; [reflexivity |].
  rewrite lowerChar_not_upper. exact IH.
Qed.

(** [extractDomain] is total: for every parser and input it returns the
    lower-cased host name of the input, prefixed with https:// unless it
    starts with http, or the lower-cased input when that does not parse; the
    result holds no upper-case letter. *)
Lemma extractDomain_total hostnameOf url :
  let candidate := if JS.startsWith url "http" then url else "https://" ++ url in
  (forall hostname, hostnameOf candidate = Some hostname ->
     VerifyLicense.extractDomain hostnameOf url = JS.toLowerCase hostname)
  /\ (hostnameOf candidate = None ->
     VerifyLicense.extractDomain hostnameOf url = JS.toLowerCase url)
  /\ Hex.forallb (fun c => negb (JS.isUpperAlpha c)) (VerifyLicense.extractDomain hostnameOf url)
     = true
  /\ CheckByDomain.extractDomain hostnameOf url = VerifyLicense.extractDomain hostnameOf url.
Proof.
  cbv zeta. unfold VerifyLicense.extractDomain, CheckByDomain.extractDomain.
  repeat split.
  - intros hostname ->. reflexivity.
  - intros ->. reflexivity.
  - destruct (hostnameOf _); apply toLowerCase_lower.
Qed.

(** C5, at the failing input.  The test [startsWith('http')] is
    case-sensitive, so "HTTPS://Foo.COM/" is taken to lack a scheme and is
    parsed as "https://HTTPS://Foo.COM/", a URL whose host is "HTTPS" with an
    empty port: the function returns "https", not "foo.com".  With the scheme
    in lower case, or without one, it does return "foo.com". *)
Theorem extractDomain_upper_case_scheme :
  JS.startsWith "HTTPS://Foo.COM/" "http" = false
  /\ URL.hostname "https://HTTPS://Foo.COM/" = Some "https"
  /\ VerifyLicense.extractDomain URL.hostname "HTTPS://Foo.COM/" = "https"
  /\ VerifyLicense.extractDomain URL.hostname "foo.com" = "foo.com"
  /\ VerifyLicense.extractDomain URL.hostname "https://Foo.COM/" = "foo.com"
  /\ VerifyLicense.extractDomain URL.hostname "HTTPS://Foo.COM/"
     <> VerifyLicense.extractDomain URL.hostname "foo.com".
Proof. repeat split. vm_compute. discriminate. Qed.

(** *** Ordinary domain names

    On a name made of letters, digits, hyphens, dots and underscores the
    parser and the normaliser can be followed step by step. *)

Lemma list_ascii_of_string_app s t :
  list_ascii_of_string (s ++ t) = (list_ascii_of_string s ++ list_ascii_of_string t)%list.
Proof. induction s as [|c s IH]; simpl; [reflexivity | rewrite IH; reflexivity]. Qed.

Lemma string_of_map_lower d :
  string_of_list_ascii (map JS.lowerChar (list_ascii_of_string d)) = JS.toLowerCase d.
Proof. induction d as [|c d IH]; simpl; [reflexivity | rewrite IH; reflexivity]. Qed.

Lemma append_empty (s : string) : s ++ "" = s.
Proof. induction s as [|c s IH]; simpl; [reflexivity | rewrite IH; reflexivity]. Qed.

Lemma plain_char_facts c :
  URL.plainDomainChar c = true ->
  URL.isC0OrSpace c = false /\ URL.isTabOrNewline c = false /\ URL.isSlash c = false
  /\ URL.isAuthorityEnd true c = false /\ URL.isChar c "@" = false
  /\ URL.isChar c ":" = false /\ URL.isChar c "[" = false /\ URL.isChar c "]" = false
  /\ URL.forbiddenDomain c = false.
Proof.
  destruct c as [[] [] [] [] [] [] [] []]; intros H; try discriminate H; repeat split.
Qed.

Section PlainDomain.

Variable D : list ascii.
Hypothesis plain : forallb URL.plainDomainChar D = true.
Hypothesis nonempty : D <> [].

Local Open Scope list_scope.

Lemma plain_filter S :
  filter (fun c => negb (URL.isTabOrNewline c)) (D ++ S)
  = (D ++ filter (fun c => negb (URL.isTabOrNewline c)) S)%list.
Proof.
  clear - plain. induction D as [|c D' IH]; simpl in *; [reflexivity |].
  apply andb_true_iff in plain as [Hc Hr].
  destruct (plain_char_facts c Hc) as [_ [-> _]]. simpl. rewrite IH by exact Hr. reflexivity.
Qed.

Lemma plain_break slash : URL.break (URL.isAuthorityEnd true) (D ++ URL.optionalSlash slash) = (D, URL.optionalSlash slash).
Proof.
  clear - plain. induction D as [|c D' IH]; simpl in *.
  - destruct slash; reflexivity.
  - apply andb_true_iff in plain as [Hc Hr].
    destruct (plain_char_facts c Hc) as [_ [_ [_ [-> _]]]].
    rewrite IH by exact Hr. reflexivity.
Qed.

Lemma plain_afterLastAt : URL.afterLastAt D = None.
Proof.
  clear - plain. induction D as [|c D' IH]; simpl in *; [reflexivity |].
  apply andb_true_iff in plain as [Hc Hr].
  destruct (plain_char_facts c Hc) as [_ [_ [_ [_ [-> _]]]]].
  rewrite IH by exact Hr. reflexivity.
Qed.

Lemma plain_splitHostPort : URL.splitHostPort false D = (D, None).
Proof.
  clear - plain. induction D as [|c D' IH]; simpl in *; [reflexivity |].
  apply andb_true_iff in plain as [Hc Hr].
  destruct (plain_char_facts c Hc) as [_ [_ [_ [_ [_ [-> [-> [-> _]]]]]]]].
  simpl. rewrite IH by exact Hr. reflexivity.
Qed.

Lemma plain_not_forbidden : existsb URL.forbiddenDomain D = false.
Proof.
  clear - plain. induction D as [|c D' IH]; simpl in *; [reflexivity |].
  apply andb_true_iff in plain as [Hc Hr].
  destruct (plain_char_facts c Hc) as [_ [_ [_ [_ [_ [_ [_ [_ ->]]]]]]]].
  rewrite IH by exact Hr. reflexivity.
Qed.

Lemma plain_hostOfAuthority : URL.hostOfAuthority true D = Some (map JS.lowerChar D).
Proof.
  unfold URL.hostOfAuthority.
  rewrite plain_afterLastAt, plain_splitHostPort.
  unfold URL.parseHost. rewrite plain_not_forbidden.
  destruct D; [congruence | reflexivity].
Qed.

(** An ordinary name, even followed by a slash, has no colon to end a
    scheme: on its own it does not parse. *)
Lemma plain_schemeTail slash : URL.schemeTail (D ++ URL.optionalSlash slash) = None.
Proof.
  clear - plain. induction D as [|c D' IH]; simpl in *.
  - destruct slash; reflexivity.
  - apply andb_true_iff in plain as [Hc Hr].
    destruct (plain_char_facts c Hc) as [_ [_ [_ [_ [_ [-> _]]]]]].
    rewrite IH by exact Hr. destruct (URL.isSchemeChar c); reflexivity.
Qed.

Lemma plain_head_kept (p : ascii -> bool) S :
  (forall c, URL.plainDomainChar c = true -> p c = false) ->
  URL.dropWhile p (D ++ S) = (D ++ S)%list.
Proof.
  clear - plain nonempty. intros Hp. destruct D as [|c D']; [congruence |]. simpl in *.
  apply andb_true_iff in plain as [Hc _]. rewrite (Hp c Hc). reflexivity.
Qed.

Lemma plain_last_kept S :
  URL.dropWhile URL.isC0OrSpace (rev D ++ S) = (rev D ++ S)%list.
Proof.
  clear - plain nonempty. destruct (rev D) as [|c R] eqn:E.
  - apply (f_equal (@rev ascii)) in E. rewrite rev_involutive in E. simpl in E. congruence.
  - simpl. assert (Hc : URL.plainDomainChar c = true).
    { rewrite forallb_forall in plain. apply plain. apply in_rev. rewrite E. left. reflexivity. }
    destruct (plain_char_facts c Hc) as [-> _]. reflexivity.
Qed.

(** Trimming and the removal of tabs and newlines leave [P ++ D] and
    [P ++ D ++ "/"] alone, for a prefix [P] such as ["https://"]. *)
Lemma plain_preprocess P slash :
  URL.dropWhile URL.isC0OrSpace (P ++ D ++ URL.optionalSlash slash) = (P ++ D ++ URL.optionalSlash slash)%list ->
  filter (fun c => negb (URL.isTabOrNewline c)) P = P ->
  URL.preprocess (P ++ D ++ URL.optionalSlash slash) = (P ++ D ++ URL.optionalSlash slash)%list.
Proof.
  intros Hlead Hfilt. unfold URL.preprocess. rewrite Hlead.
  assert (Htail : URL.dropWhile URL.isC0OrSpace (rev (P ++ D ++ URL.optionalSlash slash))
                  = rev (P ++ D ++ URL.optionalSlash slash)).
  { rewrite !rev_app_distr. destruct slash; simpl.
    - reflexivity.
    - apply plain_last_kept. }
  rewrite Htail, rev_involutive, filter_app, plain_filter, Hfilt.
  destruct slash; reflexivity.
Qed.

(** Behind a lower-case [https://] or [http://] the host is the name in
    lower case. *)
Lemma plain_hostname_with_scheme (secure slash : bool) :
  URL.hostnameChars
    (list_ascii_of_string (if secure then "https://" else "http://") ++ D ++ URL.optionalSlash slash)
  = Some (map JS.lowerChar D).
Proof.
  unfold URL.hostnameChars.
  rewrite plain_preprocess; [| destruct secure; reflexivity | destruct secure; reflexivity].
  assert (Hscheme :
    URL.parseScheme (list_ascii_of_string (if secure then "https://" else "http://")
                     ++ D ++ URL.optionalSlash slash)
    = Some (list_ascii_of_string (if secure then "https" else "http"),
            "/"%char :: "/"%char :: D ++ URL.optionalSlash slash)%list).
  { destruct secure; reflexivity. }
  rewrite Hscheme.
  replace (URL.special (list_ascii_of_string (if secure then "https" else "http"))) with true
    by (destruct secure; reflexivity).
  cbn [URL.dropWhile]. change (URL.isSlash "/") with true. cbv iota.
  rewrite plain_head_kept by (intros c Hc; apply (plain_char_facts c Hc)).
  rewrite plain_break. cbn [fst]. apply plain_hostOfAuthority.
Qed.

(** Without a scheme it does not parse. *)
Lemma plain_hostname_bare slash : URL.hostnameChars (D ++ URL.optionalSlash slash) = None.
Proof.
  unfold URL.hostnameChars.
  change (D ++ URL.optionalSlash slash) with ([] ++ D ++ URL.optionalSlash slash).
  rewrite (@plain_preprocess [] slash); [| | reflexivity].
  2: { simpl. apply plain_head_kept. intros c Hc. apply (plain_char_facts c Hc). }
  simpl. unfold URL.parseScheme.
  destruct (D ++ URL.optionalSlash slash)%list as [|c l] eqn:E; [reflexivity |].
  rewrite <- E, plain_schemeTail. destruct (JS.isAlpha c); reflexivity.
Qed.

End PlainDomain.

Lemma lowerChar_idempotent c : JS.lowerChar (JS.lowerChar c) = JS.lowerChar c.
Proof. destruct c as [[] [] [] [] [] [] [] []]; reflexivity. Qed.

Lemma toLowerCase_idempotent s : JS.toLowerCase (JS.toLowerCase s) = JS.toLowerCase s.
Proof.
  unfold JS.toLowerCase. induction s as [|c s IH]; cbn [JS.mapString]; [reflexivity |].
  rewrite lowerChar_idempotent, IH. reflexivity.
Qed.

Lemma toLowerCase_app s t : JS.toLowerCase (s ++ t) = JS.toLowerCase s ++ JS.toLowerCase t.
Proof.
  unfold JS.toLowerCase. induction s as [|c s IH]; cbn [JS.mapString append]; [reflexivity |].
  rewrite IH. reflexivity.
Qed.

(** For an ordinary domain name [d], in any letter case, with or without the
    scheme [https://] or [http://] in lower case and with or without a
    trailing slash, the normaliser returns [d] in lower case; the one
    exception is a bare name that itself starts with "http", which keeps its
    trailing slash. *)
Theorem extractDomain_plain_domain d :
  URL.plainDomain d ->
  VerifyLicense.extractDomain URL.hostname d = JS.toLowerCase d
  /\ (JS.startsWith (d ++ "/") "http" = false ->
      VerifyLicense.extractDomain URL.hostname (d ++ "/") = JS.toLowerCase d)
  /\ (JS.startsWith (d ++ "/") "http" = true ->
      VerifyLicense.extractDomain URL.hostname (d ++ "/") = JS.toLowerCase d ++ "/")
  /\ VerifyLicense.extractDomain URL.hostname ("https://" ++ d) = JS.toLowerCase d
  /\ VerifyLicense.extractDomain URL.hostname ("https://" ++ d ++ "/") = JS.toLowerCase d
  /\ VerifyLicense.extractDomain URL.hostname ("http://" ++ d) = JS.toLowerCase d
  /\ VerifyLicense.extractDomain URL.hostname ("http://" ++ d ++ "/") = JS.toLowerCase d.
Proof.
  intros [Hne Hplain].
  assert (HD : list_ascii_of_string d <> []).
  { destruct d; [congruence | discriminate]. }
  assert (Hscheme : forall secure slash : bool,
            URL.hostname ((if secure then "https://" else "http://")
                          ++ d ++ (if slash then "/" else ""))
            = Some (JS.toLowerCase d)).
  { intros secure slash. unfold URL.hostname.
    rewrite !list_ascii_of_string_app.
    replace (list_ascii_of_string (if slash then "/" else ""))
      with (URL.optionalSlash slash) by (destruct slash; reflexivity).
    rewrite (plain_hostname_with_scheme Hplain HD). cbn [option_map].
    rewrite string_of_map_lower. reflexivity. }
  assert (Hbare : forall slash : bool,
            URL.hostname (d ++ (if slash then "/" else "")) = None).
  { intros slash. unfold URL.hostname.
    rewrite list_ascii_of_string_app.
    replace (list_ascii_of_string (if slash then "/" else ""))
      with (URL.optionalSlash slash) by (destruct slash; reflexivity).
    rewrite (plain_hostname_bare Hplain HD). reflexivity. }
  assert (Hwith : forall secure slash : bool,
            VerifyLicense.extractDomain URL.hostname
              ((if secure then "https://" else "http://") ++ d ++ (if slash then "/" else ""))
            = JS.toLowerCase d).
  { intros secure slash. unfold VerifyLicense.extractDomain.
    replace (JS.startsWith ((if secure then "https://" else "http://")
                            ++ d ++ (if slash then "/" else "")) "http") with true
      by (destruct secure; reflexivity).
    rewrite Hscheme. apply toLowerCase_idempotent. }
  pose proof (Hwith true false) as H1. pose proof (Hwith true true) as H2.
  pose proof (Hwith false false) as H3. pose proof (Hwith false true) as H4.
  cbv iota in H1, H2, H3, H4. rewrite append_empty in H1, H3.
  split; [| split; [| split; [| repeat split; assumption]]].
  - unfold VerifyLicense.extractDomain.
    destruct (JS.startsWith d "http").
    + specialize (Hbare false). cbv iota in Hbare. rewrite append_empty in Hbare.
      rewrite Hbare. reflexivity.
    + specialize (Hscheme true false). cbv iota in Hscheme. rewrite append_empty in Hscheme.
      rewrite Hscheme. apply toLowerCase_idempotent.
  - intros Hs. unfold VerifyLicense.extractDomain. rewrite Hs.
    rewrite (Hscheme true true). apply toLowerCase_idempotent.
  - intros Hs. unfold VerifyLicense.extractDomain. rewrite Hs.
    rewrite (Hbare true). apply toLowerCase_app.
Qed.

(** The names "shop.example.com" and "httpbin.org". *)
Example extractDomain_variants :
  map (VerifyLicense.extractDomain URL.hostname)
      ["shop.example.com"; "Shop.Example.COM"; "https://shop.example.com";
       "http://SHOP.example.com/"; "shop.example.com/"; "httpbin.org"; "httpbin.org/"]
  = ["shop.example.com"; "shop.example.com"; "shop.example.com";
     "shop.example.com"; "shop.example.com"; "httpbin.org"; "httpbin.org/"].
Proof. vm_compute. reflexivity. Qed.

(** ** Further worked examples *)

Example hostname_samples :
  map URL.hostname
      ["https://user:pw@Shop.Example.com:8080/path?q#f"; "https://localhost:3000";
       "https:\\foo.com\bar"; "https://foo.com "; "http://"; "https://foo.com:99999";
       "https://a b.com"; "httpx:foo"; "shop.example.com"]
  = [Some "shop.example.com"; Some "localhost"; Some "foo.com"; Some "foo.com"; None; None;
     None; Some ""; None].
Proof. vm_compute. reflexivity. Qed.

Example getClientIP_sample :
  VerifyLicense.getClientIP Samples.request = "203.0.113.7"
  /\ VerifyLicense.getClientIP Samples.foreignRequest = "unknown".
Proof. split; reflexivity. Qed.

Example stringOfZ_sample : JS.stringOfZ 1700000000000 = "1700000000000".
Proof. reflexivity. Qed.

(** RFC 4231, test case 6: a key longer than a block is hashed first. *)
Example hmac_rfc4231_case6 :
  Hex.encode (Hmac.hmacSha256 (repeat xaa 131)
    (list_byte_of_string "Test Using Larger Than Block-Size Key - Hash Key First"))
  = "60e431591ee0b67f0d8a26aacbf5b77f8e0bc6213728c5140546040f0ee37f54".
Proof. vm_compute. reflexivity. Qed.

(* ================================================================== *)
(** * Part II, continued: further properties of the code               *)
(* ================================================================== *)

Unset Implicit Arguments.

(** ** The client address *)

Lemma orElse_nonempty v d : d <> "" -> JS.orElse v d <> "".
Proof. intros Hd. destruct v as [[|c s]|]; simpl; congruence. Qed.

Lemma orElse_truthy v d : JS.truthy v = true -> JS.orElse v d = JS.value v.
Proof. destruct v as [[|c s]|]; simpl; try discriminate; reflexivity. Qed.

Lemma orElse_falsy v d : JS.truthy v = false -> JS.orElse v d = d.
Proof. destruct v as [[|c s]|]; simpl; try discriminate; reflexivity. Qed.

Lemma beforeComma_no_comma s :
  Hex.forallb (fun c => negb (Ascii.eqb c ",")) (JS.beforeComma s) = true.
Proof.
  induction s as [|c s IH]; simpl; [reflexivity |].
  destruct (Ascii.eqb c ",") eqn:E; simpl; [reflexivity |].
  rewrite E. exact IH.
Qed.

(** X1.  The address [getClientIP] hands to the log is never empty: it is the
    text before the first comma of [x-forwarded-for] when that text is not
    empty (and then holds no comma), otherwise [x-real-ip] when that is not
    empty, otherwise "unknown". *)
Theorem getClientIP_cases (req : VerifyLicense.Request) :
  let first := option_map JS.beforeComma (VerifyLicense.xForwardedFor req) in
  VerifyLicense.getClientIP req <> ""
  /\ (JS.truthy first = true ->
      VerifyLicense.getClientIP req = JS.value first
      /\ Hex.forallb (fun c => negb (Ascii.eqb c ",")) (VerifyLicense.getClientIP req) = true)
  /\ (JS.truthy first = false -> JS.truthy (VerifyLicense.xRealIp req) = true ->
      VerifyLicense.getClientIP req = JS.value (VerifyLicense.xRealIp req))
  /\ (JS.truthy first = false -> JS.truthy (VerifyLicense.xRealIp req) = false ->
      VerifyLicense.getClientIP req = "unknown").
Proof.
  cbv zeta. unfold VerifyLicense.getClientIP.
  split; [| split; [| split]].
  - apply orElse_nonempty, orElse_nonempty. discriminate.
  - intros T. rewrite (orElse_truthy _ _ T). split; [reflexivity |].
    destruct (VerifyLicense.xForwardedFor req) as [h|]; [| discriminate T].
    apply beforeComma_no_comma.
  - intros F T. rewrite (orElse_falsy _ _ F). apply orElse_truthy. exact T.
  - intros F F'. rewrite (orElse_falsy _ _ F). apply orElse_falsy. exact F'.
Qed.

(** ** What a verification leaves alone *)

Lemma Forall2_refl {A : Type} (R : A -> A -> Prop) (l : list A) :
  (forall a, R a a) -> Forall2 R l l.
Proof. intros HR. induction l; constructor; auto. Qed.

Lemma Forall2_map_where {A : Type} (R : A -> A -> Prop) (cond : A -> bool) (f : A -> A)
    (l : list A) :
  (forall a, R a a) -> (forall a, cond a = true -> R a (f a)) ->
  Forall2 R l (map (fun a => if cond a then f a else a) l).
Proof.
  intros Hrefl Hf. induction l as [|a l IH]; cbn [map]; constructor; [| exact IH].
  destruct (cond a) eqn:E; auto.
Qed.

Section VerifyFrame.

Import Store Http VerifyLicense.

Variable hostnameOf : string -> option string.

(** The columns a patch of the verification handler can change. *)
Lemma applyPatch_keeps p r :
  setStatus p = None -> setNotes p = None ->
  let r' := applyPatch p r in
  id r' = id r /\ companyName r' = companyName r /\ contactName r' = contactName r
  /\ contactEmail r' = contactEmail r /\ contactPhone r' = contactPhone r
  /\ websiteUrl r' = websiteUrl r /\ websiteDomain r' = websiteDomain r
  /\ licenseKey r' = licenseKey r /\ status r' = status r
  /\ subscriptionType r' = subscriptionType r
  /\ subscriptionStartDate r' = subscriptionStartDate r
  /\ subscriptionEndDate r' = subscriptionEndDate r
  /\ licenseVerified r' = licenseVerified r /\ notes r' = notes r
  /\ apiBaseUrl r' = apiBaseUrl r /\ authType r' = authType r /\ apiKey r' = apiKey r
  /\ publicKey r' = publicKey r /\ apiStatus r' = apiStatus r
  /\ lastSeenAt r' = lastSeenAt r /\ createdAt r' = createdAt r.
Proof. intros Hs Hn. cbv zeta. simpl. rewrite Hs, Hn. repeat split. Qed.

(** The store after a POST: the tenants as they were, or one id patched as
    expired, or one id patched as verified; the log as it was or one entry
    longer. *)
Lemma POST_world rt req w :
  let w' := snd (POST hostnameOf rt req w) in
  (clients w' = clients w
   \/ (exists i, clients w' = clients (update (expiredPatch (now rt)) (idIs i) w))
   \/ (exists i, clients w' = clients (update (verifiedPatch (now rt)) (idIs i) w)))
  /\ (logs w' = logs w \/ exists e, logs w' = (logs w ++ [e])%list).
Proof.
  cbv zeta. unfold VerifyLicense.POST.
  destruct (negb (JS.truthy (licenseKeyField req)) || negb (JS.truthy (domainField req)));
    [split; left; reflexivity |].
  destruct (selectFirst _ w) as [t|]; [| split; [left; reflexivity | right; eexists; reflexivity]].
  destruct (negb (String.eqb (status t) "active"));
    [split; [left; reflexivity | right; eexists; reflexivity] |].
  destruct (negb (String.eqb (extractDomain hostnameOf _) _));
    [split; [left; reflexivity | right; eexists; reflexivity] |].
  destruct (negb (String.eqb (subscriptionStatus t) "active"));
    [split; [left; reflexivity | right; eexists; reflexivity] |].
  destruct (elapsed (subscriptionEndDate t) (now rt)).
  - split; [right; left; exists (id t); reflexivity | right; eexists; reflexivity].
  - split; [right; right; exists (id t); reflexivity | right; eexists; reflexivity].
Qed.

(** X2.  A full verification, whatever its outcome, keeps the rows of the
    table in number and order and changes none of their id, license key,
    domain, URL, account status, plan, end date, notes or API columns; a
    row's [subscriptionStatus] stays as it was or becomes "expired"; the
    log keeps its entries and grows by at most one. *)
Theorem POST_frame rt req w :
  let w' := snd (POST hostnameOf rt req w) in
  Forall2
    (fun r r' =>
       id r' = id r /\ licenseKey r' = licenseKey r /\ websiteDomain r' = websiteDomain r
       /\ websiteUrl r' = websiteUrl r /\ status r' = status r
       /\ subscriptionType r' = subscriptionType r
       /\ subscriptionEndDate r' = subscriptionEndDate r /\ notes r' = notes r
       /\ apiBaseUrl r' = apiBaseUrl r /\ apiKey r' = apiKey r /\ apiStatus r' = apiStatus r
       /\ (subscriptionStatus r' = subscriptionStatus r \/ subscriptionStatus r' = "expired"))
    (clients w) (clients w')
  /\ exists added, logs w' = (logs w ++ added)%list /\ (List.length added <= 1)%nat.
Proof.
  cbv zeta. destruct (POST_world rt req w) as [Hc Hl]. split.
  - assert (Hpatch : forall p i,
              setStatus p = None -> setNotes p = None ->
              (setSubscriptionStatus p = None \/ setSubscriptionStatus p = Some "expired") ->
              Forall2
                (fun r r' =>
                   id r' = id r /\ licenseKey r' = licenseKey r
                   /\ websiteDomain r' = websiteDomain r
                   /\ websiteUrl r' = websiteUrl r /\ status r' = status r
                   /\ subscriptionType r' = subscriptionType r
                   /\ subscriptionEndDate r' = subscriptionEndDate r /\ notes r' = notes r
                   /\ apiBaseUrl r' = apiBaseUrl r /\ apiKey r' = apiKey r
                   /\ apiStatus r' = apiStatus r
                   /\ (subscriptionStatus r' = subscriptionStatus r
                       \/ subscriptionStatus r' = "expired"))
                (clients w) (clients (update p (idIs i) w))).
    { intros p i Hs Hn Hsub. unfold update. cbn [clients].
      apply Forall2_map_where.
      - intros r. repeat split; auto.
      - intros r _. pose proof (applyPatch_keeps p r Hs Hn) as K. cbv zeta in K.
        repeat match goal with H : _ /\ _ |- _ => destruct H end.
        repeat (split; [assumption |]).
        cbn. destruct Hsub as [-> | ->]; cbn; auto. }
    destruct Hc as [-> | [[i ->] | [i ->]]].
    + apply Forall2_refl. intros r. repeat split; auto.
    + apply Hpatch; auto.
    + apply Hpatch; auto.
  - destruct Hl as [-> | [e ->]].
    + exists []. rewrite app_nil_r. auto.
    + exists [e]. auto.
Qed.

End VerifyFrame.

Section VerifyOutcome.

Import Store Http VerifyLicense.

Variable hostnameOf : string -> option string.

Lemma app_one_inv {A : Type} (l : list A) (a b : A) : (l ++ [a])%list = (l ++ [b])%list -> a = b.
Proof. intros H. apply app_inv_head in H. congruence. Qed.

Lemma app_one_neq {A : Type} (l : list A) (a : A) : l <> (l ++ [a])%list.
Proof.
  intros H. apply (f_equal (@List.length A)) in H. rewrite length_app in H. simpl in H. lia.
Qed.

(** X3.  The answer of a full verification is coherent: the status code is
    200 exactly when the body says [valid: true]; every other answer says
    [valid: false] and carries an error message; and the entry written to
    the log has status "valid", and no error message, exactly when the
    answer is 200.  Every answer carries [Access-Control-Allow-Origin: *]. *)
Theorem POST_answer_coherent rt req w :
  let r := fst (POST hostnameOf rt req w) in
  let w' := snd (POST hostnameOf rt req w) in
  (statusCode r = 200%Z <-> get "valid" (body r) = Some (JBool true))
  /\ (statusCode r <> 200%Z ->
      get "valid" (body r) = Some (JBool false)
      /\ exists message, get "error" (body r) = Some (JString message))
  /\ (forall e, logs w' = (logs w ++ [e])%list ->
      (verificationStatus e = "valid" <-> statusCode r = 200%Z)
      /\ (errorMessage e = None <-> statusCode r = 200%Z))
  /\ header "Access-Control-Allow-Origin" r = Some "*".
Proof.
  cbv zeta. unfold VerifyLicense.POST.
  assert (Hneq : forall (l : list VerificationLogEntry) e, l = (l ++ [e])%list -> False)
    by (intros l e; apply app_one_neq).
  destruct (negb (JS.truthy (licenseKeyField req)) || negb (JS.truthy (domainField req))).
  { cbn [fst snd].
    split; [split; intros H; discriminate H |].
    split; [intros _; split; [reflexivity | eexists; reflexivity] |].
    split; [| reflexivity].
    intros e He. exfalso. exact (Hneq _ _ He). }
  assert (Hfail : forall code message clientId st msg w0,
            let r := respond (invalid message) code corsHeaders in
            let e0 := {| logId := uuid rt; clientId := clientId;
                         logLicenseKey := JS.value (licenseKeyField req);
                         requestDomain := extractDomain hostnameOf (JS.value (domainField req));
                         requestIp := getClientIP req;
                         userAgent := JS.orElse (userAgentHeader req) "unknown";
                         verificationStatus := st; errorMessage := Some msg;
                         responseTime := (now rt - startTime rt)%Z |} in
            code <> 200%Z -> st <> "valid" -> logs w0 = logs w ->
            (statusCode r = 200%Z <-> get "valid" (body r) = Some (JBool true))
            /\ (statusCode r <> 200%Z ->
                get "valid" (body r) = Some (JBool false)
                /\ exists m, get "error" (body r) = Some (JString m))
            /\ (forall e, logs (insertLog e0 w0) = (logs w ++ [e])%list ->
                (verificationStatus e = "valid" <-> statusCode r = 200%Z)
                /\ (errorMessage e = None <-> statusCode r = 200%Z))
            /\ header "Access-Control-Allow-Origin" r = Some "*").
  { intros code message clientId st msg w0 r e0 Hcode Hst Hlogs. subst r. cbn.
    split; [split; [intros H; contradiction | intros H; discriminate H] |].
    split; [intros _; split; [reflexivity | eexists; reflexivity] |].
    split; [| reflexivity].
    intros e He. rewrite Hlogs in He. apply app_one_inv in He. subst e. cbn.
    split; split; intros H; try contradiction; try discriminate H. }
  destruct (selectFirst _ w) as [t|].
  2: { apply Hfail; [discriminate | discriminate | reflexivity]. }
  destruct (negb (String.eqb (status t) "active")).
  { apply Hfail; [discriminate | discriminate | reflexivity]. }
  destruct (negb (String.eqb (extractDomain hostnameOf _) _)).
  { apply Hfail; [discriminate | discriminate | reflexivity]. }
  destruct (negb (String.eqb (subscriptionStatus t) "active")).
  { apply Hfail; [discriminate | discriminate | reflexivity]. }
  destruct (elapsed (subscriptionEndDate t) (now rt)).
  { apply Hfail; [discriminate | discriminate | reflexivity]. }
  cbn [fst snd].
  split; [split; intros _; reflexivity |].
  split; [intros H; exfalso; apply H; reflexivity |].
  split; [| reflexivity].
  intros e He. cbn in He. apply app_one_inv in He. subst e. cbn.
  split; split; intros _; reflexivity.
Qed.

(** X4.  The lightweight GET check accepts exactly the requests the full
    POST verification accepts: one answers 200 if and only if the other
    does, and then the end date GET reports as [expiresAt] is the one POST
    reports in the tenant projection. *)
Theorem GET_accepts_iff_POST rt req w :
  let g := fst (GET hostnameOf rt req w) in
  let p := fst (POST hostnameOf rt req w) in
  (statusCode g = 200%Z <-> statusCode p = 200%Z)
  /\ (statusCode g = 200%Z ->
      exists client,
        get "client" (body p) = Some client
        /\ get "subscriptionEndDate" client = get "expiresAt" (body g)).
Proof.
  cbv zeta. unfold VerifyLicense.GET, VerifyLicense.POST.
  destruct (negb (JS.truthy (licenseKeyField req)) || negb (JS.truthy (domainField req)));
    [cbn; split; [tauto | discriminate] |].
  destruct (selectFirst _ w) as [t|]; [| cbn; split; [split |]; discriminate].
  destruct (negb (String.eqb (status t) "active")); [cbn; split; [split |]; discriminate |].
  destruct (negb (String.eqb (subscriptionStatus t) "active"));
    destruct (negb (String.eqb (extractDomain hostnameOf _) _));
    try (cbn; split; [split |]; discriminate).
  destruct (elapsed (subscriptionEndDate t) (now rt)); [cbn; split; [split |]; discriminate |].
  cbn. split; [tauto |]. intros _. eexists. split; reflexivity.
Qed.

(** The accepted case, read off the status code. *)
Lemma POST_200_inv rt req w :
  statusCode (fst (POST hostnameOf rt req w)) = 200%Z ->
  exists key domain t,
    licenseKeyField req = Some key /\ key <> "" /\ domainField req = Some domain /\ domain <> ""
    /\ selectFirst (licenseKeyIs key) w = Some t /\ passes hostnameOf rt domain t.
Proof.
  unfold VerifyLicense.POST.
  destruct (JS.truthy (licenseKeyField req)) eqn:Tk; cbn [negb orb]; [| discriminate].
  destruct (JS.truthy (domainField req)) eqn:Td; cbn [negb orb]; [| discriminate].
  apply truthy_value in Tk as [Ek Nk]. apply truthy_value in Td as [Ed Nd].
  destruct (selectFirst _ w) as [t|] eqn:Hsel; [| discriminate].
  intros H. exists (JS.value (licenseKeyField req)), (JS.value (domainField req)), t.
  repeat (split; [assumption |]).
  apply passesb_passes. unfold passesb.
  destruct (String.eqb (status t) "active"); [| discriminate H].
  destruct (String.eqb (extractDomain hostnameOf _) _); [| discriminate H].
  destruct (String.eqb (subscriptionStatus t) "active"); [| discriminate H].
  destruct (elapsed (subscriptionEndDate t) (now rt)); [discriminate H | reflexivity].
Qed.

(** X5.  An accepted verification can be repeated: after a request was
    answered 200, the same request handled again, at any time at which the
    tenant's end date has not passed, gets the very same answer. *)
Theorem POST_accepted_again rt1 rt2 req w :
  statusCode (fst (POST hostnameOf rt1 req w)) = 200%Z ->
  (forall t, selectFirst (licenseKeyIs (JS.value (licenseKeyField req))) w = Some t ->
             notPast (subscriptionEndDate t) (now rt2)) ->
  fst (POST hostnameOf rt2 req (snd (POST hostnameOf rt1 req w)))
  = fst (POST hostnameOf rt1 req w).
Proof.
  intros H200 Hlater.
  destruct (POST_200_inv rt1 req w H200) as (key & domain & t & Hk & Nk & Hd & Nd & Hsel & Hp).
  rewrite Hk in Hlater. cbn [JS.value] in Hlater. specialize (Hlater t Hsel).
  destruct (@POST_success hostnameOf rt1 req w key domain t Hk Nk Hd Nd Hsel Hp) as [e [E1 _]].
  rewrite E1. cbn [fst snd].
  set (t' := applyPatch (verifiedPatch (now rt1)) t).
  assert (Hsel' : selectFirst (licenseKeyIs key)
                    (insertLog e (update (verifiedPatch (now rt1)) (idIs (id t)) w)) = Some t').
  { rewrite selectFirst_insertLog, selectFirst_key_update, Hsel. cbn [option_map].
    rewrite idIs_self. reflexivity. }
  assert (Hp' : passes hostnameOf rt2 domain t').
  { destruct Hp as (P1 & P2 & P3 & _). repeat split; assumption. }
  destruct (@POST_success hostnameOf rt2 req _ key domain t' Hk Nk Hd Nd Hsel' Hp') as [e' [E2 _]].
  rewrite E2. reflexivity.
Qed.

(** A verification leaves a subscription that is not active not active. *)
Lemma POST_keeps_inactive rt req w key t :
  selectFirst (licenseKeyIs key) w = Some t -> subscriptionStatus t <> "active" ->
  exists t', selectFirst (licenseKeyIs key) (snd (POST hostnameOf rt req w)) = Some t'
             /\ subscriptionStatus t' <> "active".
Proof.
  intros Hsel Hna.
  destruct (POST_world hostnameOf rt req w) as [Hc _]. cbv zeta in Hc.
  unfold selectFirst in *.
  destruct Hc as [-> | [[i ->] | [i ->]]].
  - eauto.
  - fold (selectFirst (licenseKeyIs key) (update (expiredPatch (now rt)) (idIs i) w)).
    rewrite selectFirst_key_update. unfold selectFirst. rewrite Hsel. cbn [option_map].
    eexists. split; [reflexivity |]. destruct (idIs i t); [cbn; discriminate | exact Hna].
  - fold (selectFirst (licenseKeyIs key) (update (verifiedPatch (now rt)) (idIs i) w)).
    rewrite selectFirst_key_update. unfold selectFirst. rewrite Hsel. cbn [option_map].
    eexists. split; [reflexivity |]. destruct (idIs i t); [cbn | ]; exact Hna.
Qed.

Lemma run_keeps_inactive requests : forall w key t,
  selectFirst (licenseKeyIs key) w = Some t -> subscriptionStatus t <> "active" ->
  exists t', selectFirst (licenseKeyIs key) (Traffic.run hostnameOf requests w) = Some t'
             /\ subscriptionStatus t' <> "active".
Proof.
  induction requests as [|[rt req] rest IH]; intros w key t Hsel Hna; cbn.
  - eauto.
  - destruct (POST_keeps_inactive rt req w key t Hsel Hna) as [t1 [H1 N1]].
    apply (IH _ key t1 H1 N1).
Qed.

(** X6.  Verification traffic never reactivates a subscription: if the
    tenant holding a key has a subscription that is not active (expired,
    suspended, cancelled), then after any sequence of verification requests,
    for any keys and domains and at any times, a request with that key is
    still not accepted. *)
Theorem traffic_never_reactivates requests rt req w key t :
  selectFirst (licenseKeyIs key) w = Some t ->
  subscriptionStatus t <> "active" ->
  licenseKeyField req = Some key ->
  statusCode (fst (POST hostnameOf rt req (Traffic.run hostnameOf requests w))) <> 200%Z.
Proof.
  intros Hsel Hna Hk H200.
  destruct (run_keeps_inactive requests w key t Hsel Hna) as [t' [Hsel' Hna']].
  destruct (POST_200_inv rt req _ H200) as (key' & domain & t2 & Hk' & _ & _ & _ & Hsel2 & Hp).
  rewrite Hk in Hk'. injection Hk' as <-. rewrite Hsel' in Hsel2. injection Hsel2 as <-.
  destruct Hp as (_ & _ & P3 & _). contradiction.
Qed.

End VerifyOutcome.

(** ** The two domain look-ups *)

Section DomainLookups.

Import Store Http.

Variable hostnameOf : string -> option string.

(** X7.  POST /check-by-domain answers [valid: true] if and only if the
    body has a domain and the first tenant stored under its canonical form
    is active, with an active subscription and an end date that is null or
    not past; and the answer has a [licenseKey] field only then: no failure
    answer (400, 404, 403, 402) discloses a key.  The store is never
    changed. *)
Theorem check_by_domain_valid_iff rt domainField w :
  let r := fst (CheckByDomain.POST hostnameOf rt domainField w) in
  let accepted :=
    JS.truthy domainField = true
    /\ exists t,
         selectFirst (websiteDomainIs (CheckByDomain.extractDomain hostnameOf (JS.value domainField))) w
         = Some t
         /\ status t = "active" /\ subscriptionStatus t = "active"
         /\ VerifyLicense.notPast (subscriptionEndDate t) (now rt) in
  (get "valid" (body r) = Some (JBool true) <-> accepted)
  /\ (statusCode r = 200%Z <-> accepted)
  /\ (get "licenseKey" (body r) <> None <-> accepted)
  /\ snd (CheckByDomain.POST hostnameOf rt domainField w) = w.
Proof.
  cbv zeta. unfold CheckByDomain.POST.
  destruct (JS.truthy domainField) eqn:T; cbn [negb].
  2: { cbn. repeat split; try discriminate; try tauto; intros [H _]; discriminate H. }
  destruct (selectFirst _ w) as [t|] eqn:Hsel.
  2: { cbn. repeat split; try discriminate; try tauto;
       intros [_ [t [H _]]]; discriminate H. }
  destruct (String.eqb (status t) "active") eqn:E1; cbn [negb].
  2: { apply String.eqb_neq in E1. cbn.
       repeat split; try discriminate; try tauto;
         intros [_ [t' [H [H1 _]]]]; injection H as <-; contradiction. }
  destruct (String.eqb (subscriptionStatus t) "active") eqn:E2; cbn [negb].
  2: { apply String.eqb_neq in E2. cbn.
       repeat split; try discriminate; try tauto;
         intros [_ [t' [H [_ [H2 _]]]]]; injection H as <-; contradiction. }
  destruct (elapsed (subscriptionEndDate t) (now rt)) eqn:E3.
  { cbn. repeat split; try discriminate; try tauto;
      intros [_ [t' [H [_ [_ H3]]]]]; injection H as <-;
      apply elapsed_notPast in H3; congruence. }
  apply String.eqb_eq in E1, E2. apply elapsed_notPast in E3.
  assert (Hacc : true = true
                 /\ exists t0, Some t = Some t0 /\ status t0 = "active"
                               /\ subscriptionStatus t0 = "active"
                               /\ VerifyLicense.notPast (subscriptionEndDate t0) (now rt)).
  { split; [reflexivity |]. exists t. auto. }
  destruct Hacc as [_ Hex].
  cbn. repeat split; try discriminate; auto.
Qed.

(** An answer of POST /check-by-domain that has a [licenseKey] field comes
    from the accepting branch. *)
Lemma check_by_domain_key_inv rt domainField w :
  get "licenseKey" (body (fst (CheckByDomain.POST hostnameOf rt domainField w))) <> None ->
  JS.truthy domainField = true
  /\ exists t,
       selectFirst (websiteDomainIs (CheckByDomain.extractDomain hostnameOf (JS.value domainField))) w
       = Some t
       /\ status t = "active" /\ subscriptionStatus t = "active"
       /\ VerifyLicense.notPast (subscriptionEndDate t) (now rt).
Proof.
  unfold CheckByDomain.POST.
  destruct (JS.truthy domainField) eqn:T; cbn [negb];
    [| cbn; intros H; exfalso; apply H; reflexivity].
  destruct (selectFirst _ w) as [t|] eqn:Hsel;
    [| cbn; intros H; exfalso; apply H; reflexivity].
  destruct (String.eqb (status t) "active") eqn:E1; cbn [negb];
    [| cbn; intros H; exfalso; apply H; reflexivity].
  destruct (String.eqb (subscriptionStatus t) "active") eqn:E2; cbn [negb];
    [| cbn; intros H; exfalso; apply H; reflexivity].
  destruct (elapsed (subscriptionEndDate t) (now rt)) eqn:E3;
    [cbn; intros H; exfalso; apply H; reflexivity |].
  intros _. apply String.eqb_eq in E1, E2. apply elapsed_notPast in E3.
  split; [reflexivity |]. exists t. auto.
Qed.

(** X8.  The key POST /check-by-domain discloses for a domain is accepted
    by the full verification for that domain: when license keys are unique
    and the stored domain of the tenant is in canonical form, a request to
    POST /verify-license with the disclosed key and the same domain, handled
    at the same time, is answered 200. *)
Theorem disclosed_key_verifies rt domain key req w :
  NoDup (map licenseKey (clients w)) ->
  (forall t, In t (clients w) ->
     VerifyLicense.extractDomain hostnameOf (websiteDomain t) = websiteDomain t) ->
  get "licenseKey" (body (fst (CheckByDomain.POST hostnameOf rt (Some domain) w)))
  = Some (JString key) ->
  key <> "" ->
  VerifyLicense.licenseKeyField req = Some key ->
  VerifyLicense.domainField req = Some domain ->
  statusCode (fst (VerifyLicense.POST hostnameOf rt req w)) = 200%Z.
Proof.
  intros Hnd Hcanon Hkey Nk Hk Hd.
  assert (Hsome : get "licenseKey" (body (fst (CheckByDomain.POST hostnameOf rt (Some domain) w)))
                  <> None) by congruence.
  apply check_by_domain_key_inv in Hsome. destruct Hsome as [T (t & Hsel & H1 & H2 & H3)].
  cbn [JS.value] in Hsel.
  assert (Nd : domain <> "") by (destruct domain; [discriminate T | discriminate]).
  (* the key disclosed is the key of [t] *)
  assert (Hkt : licenseKey t = key).
  { revert Hkey. unfold CheckByDomain.POST. rewrite T. cbn [negb JS.value].
    rewrite Hsel, H1, H2. change (String.eqb "active" "active") with true. cbn [negb].
    apply elapsed_notPast in H3. rewrite H3. cbn. congruence. }
  assert (Hin : In t (clients w) /\ websiteDomain t = CheckByDomain.extractDomain hostnameOf domain).
  { unfold selectFirst in Hsel. apply find_some in Hsel as [Hin Heq].
    apply String.eqb_eq in Heq. auto. }
  destruct Hin as [Hin Hweb].
  assert (Hselk : selectFirst (licenseKeyIs key) w = Some t).
  { apply selectFirst_unique_key; auto. }
  assert (Hp : VerifyLicense.passes hostnameOf rt domain t).
  { repeat split; try assumption.
    rewrite (Hcanon t Hin). symmetry. exact Hweb. }
  destruct (@POST_success hostnameOf rt req w key domain t Hk Nk Hd Nd Hselk Hp) as [e [E _]].
  rewrite E. reflexivity.
Qed.

Variable like : string -> string -> bool.

Lemma substring_length_le n : forall m s, (String.length (String.substring n m s) <= m)%nat.
Proof.
  induction n as [|n IHn]; intros m s.
  - revert s. induction m as [|m IHm]; intros s; destruct s; simpl; try lia.
    specialize (IHm s). lia.
  - destruct s; simpl; [destruct m; simpl; lia | apply IHn].
Qed.

Lemma length_append s t : String.length (s ++ t) = (String.length s + String.length t)%nat.
Proof. induction s as [|c s IH]; simpl; [reflexivity | rewrite IH; reflexivity]. Qed.

(** X9.  POST /check-domain never returns a whole license key: the
    [licenseKey] it reports for the client is the first ten characters of a
    stored key followed by "...", at most 13 characters, so that a stored
    key of 14 characters or more (every generated key has 33) is never
    returned as it is. *)
Theorem check_domain_masks_key domainField w client reported :
  get "client" (body (CheckDomain.POST hostnameOf like domainField w)) = Some client ->
  get "licenseKey" client = Some (JString reported) ->
  (String.length reported <= 13)%nat
  /\ exists t, In t (clients w)
               /\ reported = Text.take 10 (licenseKey t) ++ "..."
               /\ ((14 <= String.length (licenseKey t))%nat -> reported <> licenseKey t).
Proof.
  unfold CheckDomain.POST.
  destruct (negb (JS.truthy domainField)); [discriminate |].
  set (n := CheckDomain.extractDomain hostnameOf (JS.value domainField)).
  cbv zeta. fold n.
  destruct (CheckDomain.matching like n w) as [|first rest] eqn:Hm; [discriminate |].
  set (found := find _ (first :: rest)).
  set (primary := match found with Some c => c | None => first end).
  assert (Hin : In primary (clients w)).
  { assert (Hsub : forall t, In t (first :: rest) -> In t (clients w)).
    { intros t Ht. rewrite <- Hm in Ht. unfold CheckDomain.matching in Ht.
      apply filter_In in Ht. tauto. }
    subst primary. destruct found as [c|] eqn:Ef.
    - apply Hsub. subst found. apply find_some in Ef. tauto.
    - apply Hsub. left. reflexivity. }
  cbn. intros Hc. injection Hc as <-. cbn.
  unfold CheckDomain.maskedKey. destruct (JS.truthy (Some (licenseKey primary))); [| discriminate].
  intros Hr. injection Hr as <-.
  assert (Hlen : (String.length (Text.take 10 (licenseKey primary) ++ "...") <= 13)%nat).
  { rewrite length_append. unfold Text.take.
    pose proof (substring_length_le 0 10 (licenseKey primary)). simpl. lia. }
  split; [exact Hlen |].
  exists primary. split; [exact Hin | split; [reflexivity |]].
  intros Hlong Heq. rewrite Heq in Hlen. lia.
Qed.

(** X10.  POST /check-domain, for a body with a domain: it reports
    [exists: false] exactly when no row matches the query; otherwise the
    client it reports is the first matching row whose canonical domain is
    the normalised domain, when there is one ([exactMatch: true]), and the
    first matching row when there is none ([exactMatch: false]). *)
Theorem check_domain_prefers_exact domain w :
  domain <> "" ->
  let n := CheckDomain.extractDomain hostnameOf domain in
  let rows := CheckDomain.matching like n w in
  let r := CheckDomain.POST hostnameOf like (Some domain) w in
  let exact := find (fun c => String.eqb (CheckDomain.extractDomain hostnameOf (websiteDomain c)) n)
                    rows in
  statusCode r = 200%Z
  /\ (get "exists" (body r) = Some (JBool false) <-> rows = [])
  /\ (forall c, exact = Some c ->
        get "exactMatch" (body r) = Some (JBool true)
        /\ exists client, get "client" (body r) = Some client
                          /\ get "id" client = Some (JString (id c)))
  /\ (forall first rest, rows = first :: rest -> exact = None ->
        get "exactMatch" (body r) = Some (JBool false)
        /\ exists client, get "client" (body r) = Some client
                          /\ get "id" client = Some (JString (id first)))
  /\ (rows <> [] -> get "allMatches" (body r) = Some (JNumber (Z.of_nat (List.length rows)))).
Proof.
  intros Nd. cbv zeta. unfold CheckDomain.POST.
  rewrite truthy_some by assumption. cbn [negb JS.value]. cbv zeta.
  destruct (CheckDomain.matching like _ w) as [|first rest] eqn:Hm.
  - cbn. repeat split; try discriminate; try tauto; congruence.
  - set (found := find _ (first :: rest)).
    split; [reflexivity |].
    split; [cbn; split; discriminate |].
    split; [| split].
    + intros c Hc. rewrite Hc. cbn. split; [reflexivity |]. eexists. split; reflexivity.
    + intros f l Hfl Hnone. injection Hfl as <- <-. rewrite Hnone. cbn.
      split; [reflexivity |]. eexists. split; reflexivity.
    + intros _. reflexivity.
Qed.

End DomainLookups.

(** ** Toggle status: rejections, frame, notes and the effect on verification *)

Lemma includes_In l x : JS.includes l x = true <-> In x l.
Proof.
  unfold JS.includes. rewrite existsb_exists. split.
  - intros [y [Hin Heq]]. apply String.eqb_eq in Heq. subst. exact Hin.
  - intros Hin. exists x. split; [exact Hin | apply String.eqb_refl].
Qed.

Lemma selectFirst_idIs i w r : Store.selectFirst (Store.idIs i) w = Some r -> Store.idIs i r = true.
Proof. unfold Store.selectFirst. intros H. apply find_some in H. tauto. Qed.

Lemma NoDup_map_inj {A B : Type} (f : A -> B) (l : list A) (a b : A) :
  NoDup (map f l) -> In a l -> In b l -> f a = f b -> a = b.
Proof.
  induction l as [|x l IH]; intros Hnd Ha Hb Hf; [contradiction |].
  simpl in Hnd. inversion Hnd as [|? ? Hnotin Hnd']; subst.
  destruct Ha as [<- | Ha], Hb as [<- | Hb]; auto.
  - exfalso. apply Hnotin. rewrite Hf. apply in_map. exact Hb.
  - exfalso. apply Hnotin. rewrite <- Hf. apply in_map. exact Ha.
Qed.

(** With ids unique, the row an id selects is the only row with that id. *)
Lemma selectFirst_unique_id i w r :
  NoDup (map Store.id (Store.clients w)) ->
  Store.selectFirst (Store.idIs i) w = Some r ->
  forall r', In r' (Store.clients w) -> Store.idIs i r' = true -> r' = r.
Proof.
  unfold Store.selectFirst, Store.idIs. intros Hnd Hsel r' Hin Hid.
  apply find_some in Hsel as [Hin0 Hid0].
  apply String.eqb_eq in Hid, Hid0.
  apply (NoDup_map_inj Store.id (Store.clients w)); auto. congruence.
Qed.




Section ToggleMore.

Import Store Http.

Variable toISOString : Z -> string.

(** X11.  Toggle-status answers 200 if and only if the action is one of
    "enable", "disable" and "suspend" and a client has the id; every other
    request (400 for a missing or unknown action, 404 for an unknown id)
    leaves the store exactly as it was. *)
Theorem toggle_rejections rt idParam actionField reasonField w :
  let result := ToggleStatus.POST toISOString rt idParam actionField reasonField w in
  let wellFormed :=
    (exists action, actionField = Some action /\ In action ["enable"; "disable"; "suspend"])
    /\ exists client, selectFirst (idIs idParam) w = Some client in
  (statusCode (fst result) = 200%Z <-> wellFormed)
  /\ (~ wellFormed ->
      snd result = w
      /\ (statusCode (fst result) = 400%Z \/ statusCode (fst result) = 404%Z)
      /\ get "success" (body (fst result)) = Some (JBool false)).
Proof.
  cbv zeta. unfold ToggleStatus.POST.
  destruct (JS.truthy actionField) eqn:T; cbn [negb orb].
  2: { cbn. split; [split; [discriminate |] | auto].
       intros [[a [-> Hin]] _]. simpl in Hin.
       destruct Hin as [<- | [<- | [<- | []]]]; discriminate T. }
  apply truthy_value in T as [Ea Na].
  destruct (JS.includes _ (JS.value actionField)) eqn:Inc; cbn [negb].
  2: { cbn. split; [split; [discriminate |] | auto].
       intros [[a [Ha Hin]] _]. rewrite Ha in Inc. cbn [JS.value] in Inc.
       pose proof (proj2 (includes_In ["enable"; "disable"; "suspend"] a) Hin) as Hi.
       congruence. }
  apply includes_In in Inc.
  destruct (selectFirst (idIs idParam) w) as [client|] eqn:Hsel.
  2: { cbn. split; [split; [discriminate |] | auto].
       intros [_ [c H]]. discriminate H. }
  assert (Hdec : exists s1 s2, ToggleStatus.decide (JS.value actionField) client = Some (s1, s2)).
  { simpl in Inc. destruct Inc as [<- | [<- | [<- | []]]]; cbn; eauto. }
  destruct Hdec as (s1 & s2 & ->).
  cbn [fst snd statusCode respond].
  split; [| intros Hn; exfalso; apply Hn; split; eauto].
  split; [intros _; split; eauto | reflexivity].
Qed.

(** X12.  A toggle changes nothing but [status], [subscriptionStatus],
    [notes] and [updatedAt], and only in rows that have the id: rows with
    another id are untouched, every row keeps its id, license key, domain,
    end date and API columns, and the verification log is untouched. *)
Theorem toggle_frame rt idParam actionField reasonField w :
  let w' := snd (ToggleStatus.POST toISOString rt idParam actionField reasonField w) in
  Forall2
    (fun r r' =>
       (idIs idParam r = false -> r' = r)
       /\ id r' = id r /\ licenseKey r' = licenseKey r /\ websiteDomain r' = websiteDomain r
       /\ websiteUrl r' = websiteUrl r /\ companyName r' = companyName r
       /\ subscriptionType r' = subscriptionType r
       /\ subscriptionEndDate r' = subscriptionEndDate r
       /\ lastAccessDate r' = lastAccessDate r
       /\ lastVerificationDate r' = lastVerificationDate r
       /\ apiBaseUrl r' = apiBaseUrl r /\ apiKey r' = apiKey r /\ apiStatus r' = apiStatus r)
    (clients w) (clients w')
  /\ logs w' = logs w.
Proof.
  cbv zeta. unfold ToggleStatus.POST.
  assert (Hrefl : forall l : list TenantRecord,
            Forall2 (fun r r' =>
              (idIs idParam r = false -> r' = r)
              /\ id r' = id r /\ licenseKey r' = licenseKey r
              /\ websiteDomain r' = websiteDomain r
              /\ websiteUrl r' = websiteUrl r /\ companyName r' = companyName r
              /\ subscriptionType r' = subscriptionType r
              /\ subscriptionEndDate r' = subscriptionEndDate r
              /\ lastAccessDate r' = lastAccessDate r
              /\ lastVerificationDate r' = lastVerificationDate r
              /\ apiBaseUrl r' = apiBaseUrl r /\ apiKey r' = apiKey r
              /\ apiStatus r' = apiStatus r) l l).
  { intros l. apply Forall2_refl. intros r. repeat split; auto. }
  destruct (negb (JS.truthy actionField) || negb (JS.includes _ (JS.value actionField)));
    [split; [apply Hrefl | reflexivity] |].
  destruct (selectFirst (idIs idParam) w) as [client|]; [| split; [apply Hrefl | reflexivity]].
  destruct (ToggleStatus.decide _ client) as [[s1 s2]|]; [| split; [apply Hrefl | reflexivity]].
  cbn [snd]. split; [| reflexivity].
  unfold update. cbn [clients].
  apply Forall2_map_where.
  - intros r. repeat split; auto.
  - intros r Hid. split; [intros Hf; congruence |]. cbn. repeat split.
Qed.


End ToggleMore.

(** ** Toggles and verification *)

Lemma find_Forall2 {A : Type} (R : A -> A -> Prop) (p : A -> bool) (l l' : list A) :
  Forall2 R l l' -> (forall a a', R a a' -> p a' = p a) ->
  match find p l, find p l' with
  | Some a, Some a' => R a a'
  | None, None => True
  | _, _ => False
  end.
Proof.
  intros H Hp. induction H as [|a a' l l' HR _ IH]; cbn; [exact I |].
  rewrite (Hp a a' HR). destruct (p a); [exact HR | exact IH].
Qed.

Section ToggleAndVerify.

Import Store Http.

Variable hostnameOf : string -> option string.
Variable toISOString : Z -> string.

(** The answer of a verification depends on the store only through the
    columns the handler reads. *)
Lemma POST_answer_depends rt req w w' :
  Forall2 Relevant.sameForVerification (clients w) (clients w') ->
  fst (VerifyLicense.POST hostnameOf rt req w') = fst (VerifyLicense.POST hostnameOf rt req w).
Proof.
  intros HF. unfold VerifyLicense.POST.
  destruct (negb (JS.truthy (VerifyLicense.licenseKeyField req))
            || negb (JS.truthy (VerifyLicense.domainField req))); [reflexivity |].
  pose proof (find_Forall2 Relevant.sameForVerification
                (licenseKeyIs (JS.value (VerifyLicense.licenseKeyField req)))
                (clients w) (clients w') HF) as Hfind.
  unfold selectFirst.
  destruct (find _ (clients w)) as [t|], (find _ (clients w')) as [t'|];
    try (exfalso; apply Hfind; intros a a' (_ & K & _); unfold licenseKeyIs; rewrite K;
         reflexivity);
    [| reflexivity].
  assert (HR : Relevant.sameForVerification t t').
  { apply Hfind. intros a a' (_ & K & _). unfold licenseKeyIs. rewrite K. reflexivity. }
  destruct HR as (E1 & E2 & E3 & E4 & E5 & E6 & E7 & E8).
  rewrite E5, E4, E7, E8.
  destruct (negb (String.eqb (status t) "active")); [reflexivity |].
  destruct (negb (String.eqb _ (VerifyLicense.extractDomain hostnameOf (websiteDomain t))));
    [reflexivity |].
  destruct (negb (String.eqb (subscriptionStatus t) "active")); [reflexivity |].
  destruct (elapsed (subscriptionEndDate t) (now rt)); [reflexivity |].
  cbn [fst]. unfold VerifyLicense.validBody. rewrite E1, E3, E6, E8. reflexivity.
Qed.

(** X14.  After [enable], a verification of the tenant (with its key, its
    domain, its end date not past) is accepted if and only if the
    subscription was "active" or "cancelled" before: enabling revives a
    cancelled subscription and no other, so that an expired or suspended
    one is still refused, with 402. *)
Theorem enable_then_verify rt rt' idParam reasonField req w client key domain :
  selectFirst (idIs idParam) w = Some client ->
  selectFirst (licenseKeyIs key) w = Some client ->
  VerifyLicense.licenseKeyField req = Some key -> key <> "" ->
  VerifyLicense.domainField req = Some domain -> domain <> "" ->
  VerifyLicense.extractDomain hostnameOf domain
  = VerifyLicense.extractDomain hostnameOf (websiteDomain client) ->
  VerifyLicense.notPast (subscriptionEndDate client) (now rt') ->
  let w' := snd (ToggleStatus.POST toISOString rt idParam (Some "enable") reasonField w) in
  let answer := fst (VerifyLicense.POST hostnameOf rt' req w') in
  (statusCode answer = 200%Z
   <-> subscriptionStatus client = "active" \/ subscriptionStatus client = "cancelled")
  /\ (statusCode answer <> 200%Z ->
      statusCode answer = 402%Z
      /\ body answer = VerifyLicense.invalid ("Subscription is " ++ subscriptionStatus client)).
Proof.
  intros Hid Hkey Hk Nk Hd Nd Hdom Hend. cbv zeta.
  unfold ToggleStatus.POST. cbn [JS.truthy JS.value negb orb].
  change (JS.includes _ "enable") with true. cbn [negb]. rewrite Hid.
  cbn [ToggleStatus.decide String.eqb Ascii.eqb Bool.eqb andb snd].
  set (p := {| setStatus := Some "active"; setSubscriptionStatus := _; setNotes := _;
               setLastAccessDate := None; setLastVerificationDate := None;
               setUpdatedAt := _ |}).
  assert (Hsel' : selectFirst (licenseKeyIs key) (update p (idIs idParam) w)
                  = Some (applyPatch p client)).
  { rewrite selectFirst_key_update, Hkey. cbn [option_map].
    rewrite (selectFirst_idIs idParam w client Hid). reflexivity. }
  unfold VerifyLicense.POST. rewrite Hk, Hd, !truthy_some by assumption.
  cbn [negb orb JS.value]. rewrite Hsel'.
  cbn [status websiteDomain subscriptionStatus subscriptionEndDate applyPatch assign
       setStatus setSubscriptionStatus p].
  change (String.eqb "active" "active") with true. cbn [negb].
  rewrite Hdom, String.eqb_refl. cbn [negb].
  apply elapsed_notPast in Hend.
  destruct (String.eqb (subscriptionStatus client) "cancelled") eqn:Ec.
  - apply String.eqb_eq in Ec. change (String.eqb "active" "active") with true. cbn [negb].
    rewrite Hend. cbn. split; [tauto | intros H; exfalso; apply H; reflexivity].
  - apply String.eqb_neq in Ec.
    destruct (String.eqb (subscriptionStatus client) "active") eqn:Ea; cbn [negb].
    + apply String.eqb_eq in Ea. rewrite Hend. cbn.
      split; [tauto | intros H; exfalso; apply H; reflexivity].
    + apply String.eqb_neq in Ea. cbn.
      split; [split; [discriminate | tauto] | auto].
Qed.

(** The store after a toggle that goes through: the rows with the id are
    patched with the status and the subscription status the action decides. *)
Lemma toggle_world rt idParam action reasonField w client :
  selectFirst (idIs idParam) w = Some client ->
  In action ["enable"; "disable"; "suspend"] ->
  exists p s1 s2,
    ToggleStatus.decide action client = Some (s1, s2)
    /\ snd (ToggleStatus.POST toISOString rt idParam (Some action) reasonField w)
       = update p (idIs idParam) w
    /\ setStatus p = Some s1 /\ setSubscriptionStatus p = Some s2
    /\ setLastAccessDate p = None /\ setLastVerificationDate p = None.
Proof.
  intros Hid Hin.
  assert (Hinc : JS.includes ["enable"; "disable"; "suspend"] action = true)
    by (apply includes_In; exact Hin).
  assert (Htr : JS.truthy (Some action) = true).
  { simpl in Hin. destruct Hin as [<- | [<- | [<- | []]]]; reflexivity. }
  unfold ToggleStatus.POST. rewrite Htr. cbn [JS.value negb orb]. rewrite Hinc.
  cbn [negb]. rewrite Hid.
  assert (Hdec : exists s1 s2, ToggleStatus.decide action client = Some (s1, s2)).
  { simpl in Hin. destruct Hin as [<- | [<- | [<- | []]]]; cbn; eauto. }
  destruct Hdec as (s1 & s2 & Hdec). rewrite Hdec. cbn [snd].
  eexists _, s1, s2. split; [reflexivity |]. split; [reflexivity |]. repeat split.
Qed.

(** X15.  Disabling and enabling again is a round trip for verification:
    for a tenant that was active and whose subscription was not cancelled,
    with ids unique, while it is disabled a verification with its key is
    answered 403 "License is suspended", and after it is enabled again
    every verification request gets the answer it would have got before the
    two toggles. *)
Theorem disable_enable_round_trip rt1 rt2 idParam reason1 reason2 w client :
  NoDup (map id (clients w)) ->
  selectFirst (idIs idParam) w = Some client ->
  status client = "active" -> subscriptionStatus client <> "cancelled" ->
  let w1 := snd (ToggleStatus.POST toISOString rt1 idParam (Some "disable") reason1 w) in
  let w2 := snd (ToggleStatus.POST toISOString rt2 idParam (Some "enable") reason2 w1) in
  (forall rt req,
     selectFirst (licenseKeyIs (JS.value (VerifyLicense.licenseKeyField req))) w = Some client ->
     JS.truthy (VerifyLicense.licenseKeyField req) = true ->
     JS.truthy (VerifyLicense.domainField req) = true ->
     statusCode (fst (VerifyLicense.POST hostnameOf rt req w1)) = 403%Z
     /\ body (fst (VerifyLicense.POST hostnameOf rt req w1))
        = VerifyLicense.invalid "License is suspended")
  /\ (forall rt req,
        fst (VerifyLicense.POST hostnameOf rt req w2)
        = fst (VerifyLicense.POST hostnameOf rt req w)).
Proof.
  intros Hnd Hid Hst Hsub. cbv zeta.
  assert (Hidc : idIs idParam client = true) by (apply (selectFirst_idIs idParam w); exact Hid).
  destruct (toggle_world rt1 idParam "disable" reason1 w client Hid)
    as (p1 & s1 & s2 & Hdec1 & Hw1 & P1 & P2 & P3 & P4); [simpl; auto |].
  cbn in Hdec1. injection Hdec1 as <- <-.
  rewrite Hw1.
  assert (Hid1 : selectFirst (idIs idParam) (update p1 (idIs idParam) w)
                 = Some (applyPatch p1 client)).
  { rewrite selectFirst_id_update, Hid. reflexivity. }
  destruct (toggle_world rt2 idParam "enable" reason2 _ _ Hid1)
    as (p2 & s3 & s4 & Hdec2 & Hw2 & Q1 & Q2 & Q3 & Q4); [simpl; auto |].
  cbn [ToggleStatus.decide String.eqb Ascii.eqb Bool.eqb andb] in Hdec2.
  cbn [subscriptionStatus applyPatch] in Hdec2. rewrite P2 in Hdec2. cbn [assign] in Hdec2.
  apply String.eqb_neq in Hsub. rewrite Hsub in Hdec2. injection Hdec2 as <- <-.
  rewrite Hw2.
  split.
  - intros rt req Hkey Tk Td.
    unfold VerifyLicense.POST. rewrite Tk, Td. cbn [negb orb].
    rewrite selectFirst_key_update, Hkey. cbn [option_map]. rewrite Hidc.
    cbn [status applyPatch]. rewrite P1. cbn. split; reflexivity.
  - intros rt req.
    apply POST_answer_depends.
    unfold update. cbn [clients]. rewrite map_map.
    assert (Hall : forall r, In r (clients w) -> idIs idParam r = true -> r = client).
    { intros r Hin Hr. apply (selectFirst_unique_id idParam w client Hnd Hid r Hin Hr). }
    revert Hall. generalize (clients w) as l. intros l Hall.
    induction l as [|r l IH]; cbn [map]; constructor.
    + destruct (idIs idParam r) eqn:Er.
      * assert (r = client) by (apply Hall; [left; reflexivity | exact Er]). subst r.
        assert (Hid' : idIs idParam (applyPatch p1 client) = true) by exact Hidc.
        rewrite Hid'.
        unfold Relevant.sameForVerification. cbn. rewrite P1, P2, Q1, Q2. cbn.
        rewrite Hst. repeat split.
      * rewrite Er. unfold Relevant.sameForVerification. repeat split.
    + apply IH. intros r' Hin. apply Hall. right. exact Hin.
Qed.

End ToggleAndVerify.

(** ** Keys: what the generators return, and the uniqueness loop *)

Lemma byteOfDigits_upper b :
  HexRead.byteOfDigits (JS.upperChar (Hex.hi b)) (JS.upperChar (Hex.lo b)) = b.
Proof. destruct b; reflexivity. Qed.

Lemma byteOfDigits_lower b : HexRead.byteOfDigits (Hex.hi b) (Hex.lo b) = b.
Proof. destruct b; reflexivity. Qed.

Lemma decode_encode bs : HexRead.decode (Hex.encode bs) = bs.
Proof.
  induction bs as [|b bs IH]; [reflexivity |].
  cbn [Hex.encode HexRead.decode]. rewrite byteOfDigits_lower, IH. reflexivity.
Qed.

Lemma forallb_lower_hex_truthy s :
  (0 < String.length s)%nat -> JS.truthy (Some s) = true.
Proof. destruct s; cbn; [lia | reflexivity]. Qed.

(** X16.  A key determines the random bytes it was made from: two calls of
    [generateLicenseKey] return the same key exactly when they drew the
    same twelve bytes, and two calls of [generateApiKey] the same key
    exactly when they drew the same thirty-two; so keys collide only when
    the random source repeats itself. *)
Theorem keys_determine_bytes (src src' : KeyGen.entropy) :
  (fst (KeyGen.generateLicenseKey src) = fst (KeyGen.generateLicenseKey src')
   <-> fst (KeyGen.randomBytes 12 src) = fst (KeyGen.randomBytes 12 src'))
  /\ (fst (KeyGen.generateApiKey src) = fst (KeyGen.generateApiKey src')
      <-> fst (KeyGen.randomBytes 32 src) = fst (KeyGen.randomBytes 32 src')).
Proof.
  split; split.
  - rewrite !generateLicenseKey_chars. cbv zeta.
    cbn [string_of_list_ascii KeyGen.randomBytes fst map seq].
    intros H.
    injection H as H0 H0' H1 H1' H2 H2' H3 H3' H4 H4' H5 H5' H6 H6' H7 H7' H8 H8'
                   H9 H9' H10 H10' H11 H11'.
    repeat match goal with
           | Hh : JS.upperChar (Hex.hi (src ?i)) = JS.upperChar (Hex.hi (src' ?i)),
             Hl : JS.upperChar (Hex.lo (src ?i)) = JS.upperChar (Hex.lo (src' ?i)) |- _ =>
               let E := fresh "E" in
               assert (E : src i = src' i)
                 by (rewrite <- (byteOfDigits_upper (src i)), Hh, Hl;
                     apply byteOfDigits_upper);
               clear Hh Hl
           end.
    congruence.
  - intros H. rewrite !generateLicenseKey_chars. cbv zeta.
    cbn [KeyGen.randomBytes fst map seq] in H.
    injection H as E0 E1 E2 E3 E4 E5 E6 E7 E8 E9 E10 E11.
    rewrite E0, E1, E2, E3, E4, E5, E6, E7, E8, E9, E10, E11. reflexivity.
  - unfold KeyGen.generateApiKey. cbn [KeyGen.randomBytes fst].
    intros H. rewrite <- (decode_encode (map src (seq 0 32))), H. apply decode_encode.
  - unfold KeyGen.generateApiKey. cbn [KeyGen.randomBytes fst].
    intros H. rewrite H. reflexivity.
Qed.

Lemma generateApiKey_length (src : KeyGen.entropy) :
  String.length (fst (KeyGen.generateApiKey src)) = 64%nat.
Proof.
  unfold KeyGen.generateApiKey. cbn [KeyGen.randomBytes fst].
  rewrite encode_length, length_map, length_seq. reflexivity.
Qed.

(** X17.  Every API key [generateApiKey] returns is 64 lower-case
    hexadecimal characters, the encoding of the 32 bytes drawn; the
    validation utility therefore never raises an API-key issue for a client
    that holds a generated key. *)
Theorem generateApiKey_format (src : KeyGen.entropy) (client : Validation.SaasClientData) :
  let key := fst (KeyGen.generateApiKey src) in
  String.length key = 64%nat
  /\ Hex.forallb Hex.isLowerHex key = true
  /\ key = Hex.encode (fst (KeyGen.randomBytes 32 src))
  /\ (forall i, snd (KeyGen.generateApiKey src) i = src (32 + i)%nat)
  /\ (Validation.apiKey client = Some key -> Validation.apiKeyFindings client = []).
Proof.
  cbv zeta. unfold KeyGen.generateApiKey. cbn [KeyGen.randomBytes fst snd].
  split; [rewrite encode_length, length_map, length_seq; reflexivity |].
  split; [apply encode_lower_hex |].
  split; [reflexivity |]. split; [reflexivity |].
  intros Hk. unfold Validation.apiKeyFindings. rewrite Hk.
  rewrite forallb_lower_hex_truthy
    by (rewrite encode_length, length_map, length_seq; cbn; lia).
  cbn [negb JS.value]. rewrite encode_length, length_map, length_seq. reflexivity.
Qed.

Lemma generateLicenseKey_matches (src : KeyGen.entropy) :
  Regex.test KeyGen.licensePattern (fst (KeyGen.generateLicenseKey src)) = true.
Proof.
  rewrite generateLicenseKey_chars. cbv zeta. cbn [string_of_list_ascii].
  apply test_complete.
  unfold KeyGen.licensePattern.
  apply (Regex.MCat (s1 := "LIC") (Matches_Lit "LIC")).
  cbn [Regex.Repeat].
  repeat first
    [ apply Regex.MEps
    | apply Matches_cons; [first [apply hi_upper_hex | apply lo_upper_hex] | ]
    | match goal with
      | |- Regex.Matches (Regex.Cat (Regex.Cat _ _) _)
             (String ?m (String ?a (String ?b (String ?c (String ?d ?rest))))) =>
          apply (Regex.MCat (s1 := String m (String a (String b (String c (String d "")))))
                            (s2 := rest));
          [ apply Matches_cons; [reflexivity | ] | ]
      end ].
Qed.

Lemma generateLicenseKey_length (src : KeyGen.entropy) :
  String.length (fst (KeyGen.generateLicenseKey src)) = 33%nat.
Proof. rewrite generateLicenseKey_chars. reflexivity. Qed.

(** The loop of the create and regenerate routes, from any number of
    attempts left. *)
Lemma uniqueKeyLoop_spec remaining : forall src w,
  let attempt := fun n => Nat.iter n (fun s => snd (KeyGen.generateLicenseKey s)) src in
  let key := fun n => fst (KeyGen.generateLicenseKey (attempt n)) in
  match Admin.uniqueKeyLoop remaining src w with
  | (Some k, src') =>
      exists n, (n < remaining)%nat /\ k = key n /\ src' = attempt (S n)
                /\ Store.selectFirst (Store.licenseKeyIs k) w = None
                /\ forall m, (m < n)%nat ->
                     Store.selectFirst (Store.licenseKeyIs (key m)) w <> None
  | (None, src') =>
      src' = attempt remaining
      /\ forall m, (m < remaining)%nat ->
           Store.selectFirst (Store.licenseKeyIs (key m)) w <> None
  end.
Proof.
  induction remaining as [|r IH]; intros src w attempt key.
  - cbn. split; [reflexivity | intros m Hm; lia].
  - cbn [Admin.uniqueKeyLoop].
    destruct (KeyGen.generateLicenseKey src) as [k0 src0] eqn:Eg.
    assert (Hk0 : k0 = key 0%nat).
    { change (k0 = fst (KeyGen.generateLicenseKey src)). rewrite Eg. reflexivity. }
    assert (Hs0 : src0 = attempt 1%nat).
    { change (src0 = snd (KeyGen.generateLicenseKey src)). rewrite Eg. reflexivity. }
    assert (Hshift : forall n, Nat.iter n (fun s => snd (KeyGen.generateLicenseKey s)) src0
                               = attempt (S n)).
    { intros n. unfold attempt. rewrite Nat.iter_succ_r, Eg. reflexivity. }
    destruct (Store.selectFirst (Store.licenseKeyIs k0) w) as [held|] eqn:Es.
    + specialize (IH src0 w). cbv zeta in IH.
      destruct (Admin.uniqueKeyLoop r src0 w) as [[k|] src'].
      * destruct IH as (n & Hn & Hk & Hs & Hfresh & Hheld).
        exists (S n). rewrite Hshift in Hk. rewrite (Hshift (S n)) in Hs.
        split; [lia |]. split; [exact Hk |]. split; [exact Hs |]. split; [exact Hfresh |].
        intros [|m] Hm.
        -- rewrite <- Hk0, Es. discriminate.
        -- unfold key. rewrite <- Hshift. apply Hheld. lia.
      * destruct IH as (Hs & Hheld). rewrite Hshift in Hs. split; [exact Hs |].
        intros [|m] Hm.
        -- rewrite <- Hk0, Es. discriminate.
        -- unfold key. rewrite <- Hshift. apply Hheld. lia.
    + exists 0%nat. split; [lia |]. split; [exact Hk0 |]. split; [exact Hs0 |].
      split; [exact Es |]. intros m Hm. lia.
Qed.

(** X18.  The uniqueness loop of the create and regenerate routes returns
    the first of up to ten freshly drawn license keys that no row of the
    table holds (so the key it returns is new to the table and has the
    generator's format), leaving the random source behind the keys it drew;
    it gives up only when each of the ten keys drawn is already held by
    some row, hence never on an empty table. *)
Theorem generateUniqueLicenseKey_spec (src : KeyGen.entropy) (w : Store.World) :
  let attempt := fun n => Nat.iter n (fun s => snd (KeyGen.generateLicenseKey s)) src in
  let key := fun n => fst (KeyGen.generateLicenseKey (attempt n)) in
  match Admin.generateUniqueLicenseKey src w with
  | (Some k, src') =>
      (exists n, (n < 10)%nat /\ k = key n /\ src' = attempt (S n)
                 /\ forall m, (m < n)%nat ->
                      Store.selectFirst (Store.licenseKeyIs (key m)) w <> None)
      /\ Store.selectFirst (Store.licenseKeyIs k) w = None
      /\ Regex.test KeyGen.licensePattern k = true
  | (None, src') =>
      src' = attempt 10%nat
      /\ Store.clients w <> []
      /\ forall m, (m < 10)%nat -> Store.selectFirst (Store.licenseKeyIs (key m)) w <> None
  end.
Proof.
  cbv zeta. unfold Admin.generateUniqueLicenseKey, Admin.maxAttempts.
  pose proof (uniqueKeyLoop_spec 10 src w) as H. cbv zeta in H.
  destruct (Admin.uniqueKeyLoop 10 src w) as [[k|] src'].
  - destruct H as (n & Hn & Hk & Hs & Hfresh & Hheld).
    split; [exists n; auto |]. split; [exact Hfresh |].
    rewrite Hk. apply generateLicenseKey_matches.
  - destruct H as (Hs & Hheld). split; [exact Hs |]. split; [| exact Hheld].
    intros He. apply (Hheld 0%nat); [lia |]. unfold Store.selectFirst. rewrite He. reflexivity.
Qed.

(** ** The regenerate routes *)

Lemma id_assign a r : Store.id (Admin.assign a r) = Store.id r.
Proof. reflexivity. Qed.

Lemma id_set values : forall r, Store.id (Admin.set values r) = Store.id r.
Proof.
  unfold Admin.set. induction values as [|a values IH]; intros r; cbn [fold_left];
    [reflexivity |]. rewrite IH. apply id_assign.
Qed.

Lemma selectFirst_id_admin_update values i w :
  Store.selectFirst (Store.idIs i) (Admin.update values (Store.idIs i) w)
  = option_map (Admin.set values) (Store.selectFirst (Store.idIs i) w).
Proof.
  unfold Store.selectFirst, Admin.update. cbn [Store.clients].
  induction (Store.clients w) as [|a l IH]; cbn [map find option_map]; [reflexivity |].
  destruct (Store.idIs i a) eqn:E.
  - unfold Store.idIs in *. rewrite id_set, E. reflexivity.
  - rewrite E. exact IH.
Qed.

(** An update by id that writes a key no row holds: the key then selects
    the first row with the id, updated. *)
Lemma find_fresh_key (key : string) (i : string) (g : Store.TenantRecord -> Store.TenantRecord)
    (l : list Store.TenantRecord) :
  (forall r, Store.licenseKey (g r) = key) ->
  find (Store.licenseKeyIs key) l = None ->
  find (Store.licenseKeyIs key) (map (fun r => if Store.idIs i r then g r else r) l)
  = option_map g (find (Store.idIs i) l).
Proof.
  intros Hg. induction l as [|a l IH]; cbn [map find option_map]; [reflexivity |].
  destruct (Store.licenseKeyIs key a) eqn:Ek; [discriminate |]. intros Hnone.
  destruct (Store.idIs i a) eqn:Ei.
  - unfold Store.licenseKeyIs. rewrite Hg, String.eqb_refl. reflexivity.
  - rewrite Ek. apply IH. exact Hnone.
Qed.

(** ... and, keys being unique, the key the row held selects nothing. *)
Lemma find_old_key (old key : string) (i : string)
    (g : Store.TenantRecord -> Store.TenantRecord) (l : list Store.TenantRecord)
    (client : Store.TenantRecord) :
  NoDup (map Store.licenseKey l) ->
  In client l -> Store.idIs i client = true -> Store.licenseKey client = old ->
  (forall r, Store.licenseKey (g r) = key) -> key <> old ->
  find (Store.licenseKeyIs old) (map (fun r => if Store.idIs i r then g r else r) l) = None.
Proof.
  intros Hnd Hin Hid Hold Hg Hne.
  destruct (find _ _) as [r'|] eqn:Ef; [| reflexivity]. exfalso.
  apply find_some in Ef as [Hin' Hk]. apply in_map_iff in Hin' as [r [Hr Hinr]].
  unfold Store.licenseKeyIs in Hk. apply String.eqb_eq in Hk.
  destruct (Store.idIs i r) eqn:Ei; subst r'.
  - rewrite Hg in Hk. contradiction.
  - assert (r = client).
    { apply (NoDup_map_inj Store.licenseKey l); auto. congruence. }
    subst r. congruence.
Qed.

Section VerifyRows.

Import Store Http VerifyLicense.

Variable hostnameOf : string -> option string.

(** Two verifications whose lookups find rows that agree on the columns
    read after the lookup get the same answer. *)
Lemma POST_answer_same_row rt req req' w w' t t' :
  domainField req' = domainField req ->
  JS.truthy (licenseKeyField req') = JS.truthy (licenseKeyField req) ->
  selectFirst (licenseKeyIs (JS.value (licenseKeyField req))) w = Some t ->
  selectFirst (licenseKeyIs (JS.value (licenseKeyField req'))) w' = Some t' ->
  id t' = id t -> companyName t' = companyName t -> websiteDomain t' = websiteDomain t ->
  status t' = status t -> subscriptionType t' = subscriptionType t ->
  subscriptionStatus t' = subscriptionStatus t ->
  subscriptionEndDate t' = subscriptionEndDate t ->
  fst (POST hostnameOf rt req' w') = fst (POST hostnameOf rt req w).
Proof.
  intros Hd Ht Hs Hs' E1 E2 E3 E4 E5 E6 E7.
  unfold POST. rewrite Hd, Ht.
  destruct (negb (JS.truthy (licenseKeyField req)) || negb (JS.truthy (domainField req)));
    [reflexivity |].
  rewrite Hs, Hs', E4, E3, E6, E7.
  destruct (negb (String.eqb (status t) "active")); [reflexivity |].
  destruct (negb (String.eqb _ (extractDomain hostnameOf (websiteDomain t))));
    [reflexivity |].
  destruct (negb (String.eqb (subscriptionStatus t) "active")); [reflexivity |].
  destruct (elapsed (subscriptionEndDate t) (now rt)); [reflexivity |].
  cbn [fst]. unfold validBody. rewrite E1, E2, E5, E7. reflexivity.
Qed.

Lemma POST_unknown_key rt req w :
  JS.truthy (licenseKeyField req) = true -> JS.truthy (domainField req) = true ->
  selectFirst (licenseKeyIs (JS.value (licenseKeyField req))) w = None ->
  fst (POST hostnameOf rt req w) = respond (invalid "Invalid license key") 401 corsHeaders.
Proof.
  intros Tk Td Hs. unfold POST. rewrite Tk, Td. cbn [negb orb]. rewrite Hs. reflexivity.
Qed.

End VerifyRows.

Section Regenerate.

Import Store.

Variable hostnameOf : string -> option string.
Variable toISOString : Z -> string.

(** X19.  Regenerating a license key swaps the key: when POST
    /regenerate-license answers 200 for a tenant with a non-empty key
    (license keys being unique in the table), the response carries the new
    key and the old one, the new key has the generator's format and was
    held by no row, a verification request that names a domain and the old
    key is from then on answered 401 "Invalid license key", and a
    verification with the new key gets the answer the same request with the
    old key would have got before. *)
Theorem regenerate_license_swaps_key rt idParam src w client :
  NoDup (map licenseKey (clients w)) ->
  selectFirst (idIs idParam) w = Some client ->
  licenseKey client <> "" ->
  let answer := fst (fst (RegenerateLicense.POST toISOString rt idParam src w)) in
  let w' := snd (fst (RegenerateLicense.POST toISOString rt idParam src w)) in
  Json.code answer = 200%Z ->
  exists newKey,
    match Json.get "data" (Json.content answer) with
    | Some data => Json.get "licenseKey" data = Some (Json.Str newKey)
                   /\ Json.get "oldLicenseKey" data = Some (Json.Str (licenseKey client))
    | None => False
    end
    /\ newKey <> licenseKey client
    /\ Regex.test KeyGen.licensePattern newKey = true
    /\ selectFirst (licenseKeyIs newKey) w = None
    /\ (forall rt' req,
          VerifyLicense.licenseKeyField req = Some (licenseKey client) ->
          JS.truthy (VerifyLicense.domainField req) = true ->
          fst (VerifyLicense.POST hostnameOf rt' req w')
          = Http.respond (VerifyLicense.invalid "Invalid license key") 401 Http.corsHeaders)
    /\ (forall rt' req,
          VerifyLicense.licenseKeyField req = Some (licenseKey client) ->
          fst (VerifyLicense.POST hostnameOf rt'
                 {| VerifyLicense.licenseKeyField := Some newKey;
                    VerifyLicense.domainField := VerifyLicense.domainField req;
                    VerifyLicense.xForwardedFor := VerifyLicense.xForwardedFor req;
                    VerifyLicense.xRealIp := VerifyLicense.xRealIp req;
                    VerifyLicense.userAgentHeader := VerifyLicense.userAgentHeader req |} w')
          = fst (VerifyLicense.POST hostnameOf rt' req w)).
Proof.
  intros Hnd Hid Hne. cbv zeta.
  assert (Hin : In client (clients w) /\ idIs idParam client = true).
  { unfold selectFirst in Hid. apply find_some in Hid. exact Hid. }
  destruct Hin as [Hin Hidc].
  assert (Hold : selectFirst (licenseKeyIs (licenseKey client)) w = Some client).
  { apply (@selectFirst_unique_key (licenseKey client) w client Hnd). auto. }
  unfold RegenerateLicense.POST. rewrite Hid.
  unfold Admin.generateUniqueLicenseKey, Admin.maxAttempts.
  pose proof (uniqueKeyLoop_spec 10 src w) as Hloop. cbv zeta in Hloop.
  destruct (Admin.uniqueKeyLoop 10 src w) as [[newKey|] src1]; cbn [fst snd].
  2: { intros Hcode. cbn in Hcode. discriminate. }
  intros _.
  destruct Hloop as (n & _ & Hk & _ & Hfresh & _).
  set (values := [Admin.LicenseKey newKey; Admin.Notes _; Admin.UpdatedAt _]).
  assert (Hsetkey : forall r, licenseKey (Admin.set values r) = newKey) by reflexivity.
  assert (Hnew : newKey <> licenseKey client).
  { intros E. rewrite E, Hold in Hfresh. discriminate. }
  assert (Hsel' : selectFirst (licenseKeyIs newKey) (Admin.update values (idIs idParam) w)
                  = Some (Admin.set values client)).
  { unfold selectFirst, Admin.update. cbn [clients].
    rewrite (find_fresh_key newKey idParam (Admin.set values) (clients w) Hsetkey Hfresh).
    unfold selectFirst in Hid. rewrite Hid. reflexivity. }
  exists newKey. split.
  { cbn [Json.content Json.reply Json.get Json.field String.eqb Ascii.eqb Bool.eqb].
    rewrite selectFirst_id_admin_update, Hid. cbn. split; reflexivity. }
  split; [exact Hnew |].
  split; [rewrite Hk; apply generateLicenseKey_matches |].
  split; [exact Hfresh |].
  split.
  - intros rt' req Hreq Td. apply POST_unknown_key; [| exact Td |].
    + rewrite Hreq. apply truthy_some. exact Hne.
    + rewrite Hreq. cbn [JS.value]. unfold selectFirst, Admin.update. cbn [clients].
      apply (find_old_key (licenseKey client) newKey idParam (Admin.set values) (clients w)
               client); auto.
  - intros rt' req Hreq.
    apply (POST_answer_same_row hostnameOf rt' req _ w _ client (Admin.set values client));
      try reflexivity.
    + rewrite Hreq. cbn [VerifyLicense.licenseKeyField].
      rewrite !truthy_some; [reflexivity | exact Hne |].
      intros E. rewrite E in Hk.
      pose proof (generateLicenseKey_length
                    (Nat.iter n (fun s => snd (KeyGen.generateLicenseKey s)) src)) as HL.
      rewrite <- Hk in HL. discriminate.
    + rewrite Hreq. exact Hold.
    + exact Hsel'.
Qed.

(** X20.  Regenerating an API key never touches license verification:
    whatever POST /regenerate-api-key answers, every verification request
    gets the same answer from the store it leaves as from the store it
    found, and the verification log is as it was. *)
Theorem regenerate_api_key_keeps_verification rt idParam src w rt' req :
  let w' := snd (fst (RegenerateApiKey.POST rt idParam src w)) in
  fst (VerifyLicense.POST hostnameOf rt' req w') = fst (VerifyLicense.POST hostnameOf rt' req w)
  /\ fst (VerifyLicense.GET hostnameOf rt' req w') = fst (VerifyLicense.GET hostnameOf rt' req w)
  /\ logs w' = logs w.
Proof.
  cbv zeta.
  assert (Hw : snd (fst (RegenerateApiKey.POST rt idParam src w)) = w
               \/ exists values,
                    snd (fst (RegenerateApiKey.POST rt idParam src w))
                    = Admin.update values (idIs idParam) w
                    /\ forall r, Relevant.sameForVerification r (Admin.set values r)).
  { unfold RegenerateApiKey.POST.
    destruct (selectFirst (idIs idParam) w) as [client|]; [| left; reflexivity].
    destruct (KeyGen.generateApiKey src) as [newApiKey src1].
    right. eexists. split.
    - destruct (selectFirst _ (Admin.update _ _ w)); reflexivity.
    - intros r. unfold Relevant.sameForVerification. cbn. repeat split. }
  destruct Hw as [-> | (values & -> & Hsame)]; [repeat split |].
  assert (HF : Forall2 Relevant.sameForVerification (clients w)
                 (clients (Admin.update values (idIs idParam) w))).
  { unfold Admin.update. cbn [clients]. apply Forall2_map_where.
    - intros a. unfold Relevant.sameForVerification. repeat split.
    - intros a _. apply Hsame. }
  split; [apply POST_answer_depends; exact HF |].
  split; [| reflexivity].
  unfold VerifyLicense.GET.
  destruct (negb (JS.truthy (VerifyLicense.licenseKeyField req))
            || negb (JS.truthy (VerifyLicense.domainField req))); [reflexivity |].
  pose proof (find_Forall2 Relevant.sameForVerification
                (licenseKeyIs (JS.value (VerifyLicense.licenseKeyField req)))
                (clients w) (clients (Admin.update values (idIs idParam) w)) HF) as Hfind.
  unfold selectFirst.
  destruct (find _ (clients w)) as [t|], (find _ (clients (Admin.update _ _ w))) as [t'|];
    try (exfalso; apply Hfind; intros a a' (_ & K & _); unfold licenseKeyIs; rewrite K;
         reflexivity);
    [| reflexivity].
  assert (HR : Relevant.sameForVerification t t').
  { apply Hfind. intros a a' (_ & K & _). unfold licenseKeyIs. rewrite K. reflexivity. }
  destruct HR as (E1 & E2 & E3 & E4 & E5 & E6 & E7 & E8).
  rewrite E5, E4, E7, E8.
  repeat match goal with
         | |- context [if ?b then _ else _] => destruct b
         end; reflexivity.
Qed.

End Regenerate.

Section RegenerateApi.

Import Store.

(** X21.  Regenerating an API key re-activates the tenant API: after POST
    /regenerate-api-key found the tenant, the tenant the users page reads
    from the table has [apiStatus] "active" (whatever it was, "paused"
    included) and the key just generated, so that the guards of
    [fetchTenantUsers] let it through exactly when its base URL is set and
    its auth type is HMAC. *)
Theorem regenerate_api_key_enables_fetch rt idParam src w client :
  selectFirst (idIs idParam) w = Some client ->
  let w' := snd (fst (RegenerateApiKey.POST rt idParam src w)) in
  exists tenant,
    TenantPage.getTenantFromDB idParam w' = Some tenant
    /\ TenantApi.apiStatus tenant = Some "active"
    /\ TenantApi.apiKey tenant = Some (fst (KeyGen.generateApiKey src))
    /\ TenantApi.apiBaseUrl tenant = apiBaseUrl client
    /\ TenantApi.authType tenant = authType client
    /\ (TenantApi.precondition tenant = None
        <-> JS.truthy (apiBaseUrl client) = true /\ authType client = "HMAC").
Proof.
  intros Hid. cbv zeta. unfold RegenerateApiKey.POST. rewrite Hid.
  destruct (KeyGen.generateApiKey src) as [newApiKey src1] eqn:Eg.
  rewrite selectFirst_id_admin_update, Hid. cbn [option_map fst snd].
  unfold TenantPage.getTenantFromDB. rewrite selectFirst_id_admin_update, Hid.
  cbn [option_map]. eexists. split; [reflexivity |].
  cbn [TenantApi.apiStatus TenantApi.apiKey TenantApi.apiBaseUrl TenantApi.authType].
  split; [reflexivity |]. split; [reflexivity |]. split; [reflexivity |].
  split; [reflexivity |].
  unfold TenantApi.precondition.
  cbn [TenantApi.apiStatus TenantApi.apiKey TenantApi.apiBaseUrl TenantApi.authType].
  change (apiStatus (Admin.set _ client)) with (Some "active").
  change (apiKey (Admin.set _ client)) with (Some newApiKey).
  change (apiBaseUrl (Admin.set _ client)) with (apiBaseUrl client).
  change (authType (Admin.set _ client)) with (authType client).
  change (String.eqb "active" "active") with true. cbn [negb].
  assert (Hk : JS.truthy (Some newApiKey) = true).
  { pose proof (generateApiKey_length src) as HL. rewrite Eg in HL. cbn [fst] in HL.
    destruct newApiKey; [discriminate | reflexivity]. }
  rewrite Hk. cbn [negb].
  destruct (JS.truthy (apiBaseUrl client)); cbn [negb].
  - destruct (String.eqb (authType client) "HMAC") eqn:Ea; cbn [negb orb].
    + apply String.eqb_eq in Ea. tauto.
    + apply String.eqb_neq in Ea. split; [discriminate | tauto].
  - split; [discriminate | intros [H _]; discriminate].
Qed.

End RegenerateApi.


(** ** Reading, updating and deleting one client *)

Lemma find_filter_other (i j : string) (l : list Store.TenantRecord) :
  j <> i ->
  find (Store.idIs j) (filter (fun r => negb (Store.idIs i r)) l) = find (Store.idIs j) l.
Proof.
  intros Hne. induction l as [|a l IH]; cbn [filter find]; [reflexivity |].
  destruct (Store.idIs i a) eqn:Ei; cbn [negb].
  - assert (Ej : Store.idIs j a = false).
    { unfold Store.idIs in *. apply String.eqb_eq in Ei. apply String.eqb_neq. congruence. }
    rewrite Ej. exact IH.
  - cbn [find]. destruct (Store.idIs j a); [reflexivity | exact IH].
Qed.

Lemma find_filter_self (i : string) (l : list Store.TenantRecord) :
  find (Store.idIs i) (filter (fun r => negb (Store.idIs i r)) l) = None.
Proof.
  destruct (find _ _) as [r|] eqn:E; [| reflexivity].
  apply find_some in E as [Hin Hid]. apply filter_In in Hin as [_ Hn].
  rewrite Hid in Hn. discriminate.
Qed.

Section ClientByIdFacts.

Import Store.

Variable hostnameOf : string -> option string.
Variable dateOf : string -> Z.
Variable onDelete : string -> list VerificationLogEntry -> list VerificationLogEntry.

(** X22.  DELETE /clients/[id] answers 200 when a row has the id and 404
    (changing nothing) when none has.  Afterwards no row has the id: GET
    and a second DELETE answer 404; every other id selects the row it
    selected before; and, license keys being unique, a verification
    request that names a domain and the deleted tenant's (non-empty) key is
    answered 401 "Invalid license key". *)
Theorem delete_removes_tenant idParam w :
  let answer := fst (ClientById.DELETE onDelete idParam w) in
  let w' := snd (ClientById.DELETE onDelete idParam w) in
  (Json.code answer = 200%Z <-> selectFirst (idIs idParam) w <> None)
  /\ (Json.code answer <> 200%Z -> answer = Json.reply (Json.failure "Client not found") 404
                                    /\ w' = w)
  /\ Json.code (ClientById.GET idParam w') = 404%Z
  /\ Json.code (fst (ClientById.DELETE onDelete idParam w')) = 404%Z
  /\ (forall j, j <> idParam -> selectFirst (idIs j) w' = selectFirst (idIs j) w)
  /\ (forall client rt req,
        NoDup (map licenseKey (clients w)) ->
        selectFirst (idIs idParam) w = Some client ->
        VerifyLicense.licenseKeyField req = Some (licenseKey client) ->
        licenseKey client <> "" ->
        JS.truthy (VerifyLicense.domainField req) = true ->
        fst (VerifyLicense.POST hostnameOf rt req w')
        = Http.respond (VerifyLicense.invalid "Invalid license key") 401 Http.corsHeaders).
Proof.
  cbv zeta. unfold ClientById.DELETE.
  destruct (selectFirst (idIs idParam) w) as [client|] eqn:Hid; cbn [fst snd].
  - split; [split; [discriminate | reflexivity] |].
    split; [intros H; exfalso; apply H; reflexivity |].
    assert (Hgone : forall ls,
              selectFirst (idIs idParam)
                {| clients := filter (fun r => negb (idIs idParam r)) (clients w);
                   logs := ls |} = None).
    { intros ls. unfold selectFirst. cbn [clients]. apply find_filter_self. }
    split; [unfold ClientById.GET; rewrite Hgone; reflexivity |].
    split; [rewrite Hgone; reflexivity |].
    split.
    + intros j Hj. unfold selectFirst. cbn [clients]. apply find_filter_other. exact Hj.
    + intros c rt req Hnd Hc Hreq Hne Td. injection Hc as <-.
      apply POST_unknown_key; [rewrite Hreq; apply truthy_some; exact Hne | exact Td |].
      rewrite Hreq. cbn [JS.value]. unfold selectFirst. cbn [clients].
      destruct (find _ _) as [r|] eqn:E; [| reflexivity]. exfalso.
      apply find_some in E as [Hin Hk]. apply filter_In in Hin as [Hin Hn].
      unfold licenseKeyIs in Hk. apply String.eqb_eq in Hk.
      unfold selectFirst in Hid. apply find_some in Hid as [Hinc Hidc].
      assert (r = client) by (apply (NoDup_map_inj licenseKey (clients w)); auto).
      subst r. rewrite Hidc in Hn. discriminate.
  - split; [split; [discriminate | intros H; exfalso; apply H; reflexivity] |].
    split; [intros _; split; reflexivity |].
    split; [unfold ClientById.GET; rewrite Hid; reflexivity |].
    split; [rewrite Hid; reflexivity |].
    split; [reflexivity |].
    intros c rt req _ Hc. discriminate.
Qed.

(** The row a PUT writes, column by column. *)
Lemma set_updateData rt body r :
  Admin.set (ClientById.updateData dateOf rt body) r
  = {| id := id r;
       companyName := match ClientById.companyNameField body with
                      | Some v => v | None => companyName r end;
       contactName := match ClientById.contactNameField body with
                      | Some v => v | None => contactName r end;
       contactEmail := match ClientById.contactEmailField body with
                       | Some v => v | None => contactEmail r end;
       contactPhone := match ClientById.contactPhoneField body with
                       | Some v => v | None => contactPhone r end;
       websiteUrl := match ClientById.websiteUrlField body with
                     | Some v => v | None => websiteUrl r end;
       websiteDomain := match ClientById.websiteDomainField body with
                        | Some v => v | None => websiteDomain r end;
       licenseKey := licenseKey r;
       status := match ClientById.statusField body with
                 | Some v => v | None => status r end;
       subscriptionType := match ClientById.subscriptionTypeField body with
                           | Some v => v | None => subscriptionType r end;
       subscriptionStatus := match ClientById.subscriptionStatusField body with
                             | Some v => v | None => subscriptionStatus r end;
       subscriptionStartDate := subscriptionStartDate r;
       subscriptionEndDate := match ClientById.subscriptionEndDateField body with
                              | Some v => if JS.truthy v then Some (dateOf (JS.value v))
                                          else None
                              | None => subscriptionEndDate r end;
       lastAccessDate := lastAccessDate r;
       lastVerificationDate := lastVerificationDate r;
       licenseVerified := licenseVerified r;
       notes := match ClientById.notesField body with
                | Some v => v | None => notes r end;
       apiBaseUrl := apiBaseUrl r;
       authType := authType r;
       apiKey := apiKey r;
       publicKey := publicKey r;
       apiStatus := apiStatus r;
       lastSeenAt := lastSeenAt r;
       createdAt := createdAt r;
       updatedAt := now rt |}.
Proof.
  destruct body as [f1 f2 f3 f4 f5 f6 f7 f8 f9 f10 f11].
  unfold ClientById.updateData, Admin.set.
  cbn [ClientById.companyNameField ClientById.contactNameField ClientById.contactEmailField
       ClientById.contactPhoneField ClientById.websiteUrlField ClientById.websiteDomainField
       ClientById.statusField ClientById.subscriptionTypeField
       ClientById.subscriptionStatusField ClientById.subscriptionEndDateField
       ClientById.notesField].
  rewrite !fold_left_app.
  destruct f1, f2, f3, f4, f5, f6; cbn [ClientById.whenDefined fold_left];
    destruct f7, f8, f9, f10, f11; reflexivity.
Qed.

Lemma PUT_world rt idParam body w :
  snd (ClientById.PUT dateOf rt idParam body w) = w
  /\ Json.code (fst (ClientById.PUT dateOf rt idParam body w)) <> 200%Z
  \/ snd (ClientById.PUT dateOf rt idParam body w)
     = Admin.update (ClientById.updateData dateOf rt body) (idIs idParam) w
     /\ Json.code (fst (ClientById.PUT dateOf rt idParam body w)) = 200%Z.
Proof.
  unfold ClientById.PUT.
  destruct (selectFirst (idIs idParam) w) as [existing|]; [| left; split; [reflexivity |]].
  - destruct (_ && _ && _); [left | right]; split; try reflexivity. cbn. discriminate.
  - cbn. discriminate.
Qed.

(** X23.  What PUT /clients/[id] can and cannot change.  It never changes
    the id, the license key, the API columns or the creation and start
    dates of any row, no column of a row with another id, and nothing in
    the log; an answer other than 200 leaves the store as it was.  When it
    answers 200 for a tenant, the tenant's row afterwards holds, column by
    column, the value of the body where the body has the field and the old
    value where it has not, [updatedAt] is the time of the request, and the
    response carries that row. *)
Theorem put_effect rt idParam body w :
  let answer := fst (ClientById.PUT dateOf rt idParam body w) in
  let w' := snd (ClientById.PUT dateOf rt idParam body w) in
  logs w' = logs w
  /\ (Json.code answer <> 200%Z -> w' = w)
  /\ Forall2 (fun r r' =>
                id r' = id r /\ licenseKey r' = licenseKey r
                /\ apiBaseUrl r' = apiBaseUrl r /\ authType r' = authType r
                /\ apiKey r' = apiKey r /\ apiStatus r' = apiStatus r
                /\ createdAt r' = createdAt r
                /\ subscriptionStartDate r' = subscriptionStartDate r
                /\ (idIs idParam r = false -> r' = r))
             (clients w) (clients w')
  /\ (Json.code answer = 200%Z ->
      forall client, selectFirst (idIs idParam) w = Some client ->
      exists client',
        selectFirst (idIs idParam) w' = Some client'
        /\ Json.get "data" (Json.content answer) = Some (Admin.valueOfTenant client')
        /\ companyName client' = assign (ClientById.companyNameField body) (companyName client)
        /\ contactName client' = assign (ClientById.contactNameField body) (contactName client)
        /\ contactEmail client'
           = assign (ClientById.contactEmailField body) (contactEmail client)
        /\ contactPhone client'
           = assign (ClientById.contactPhoneField body) (contactPhone client)
        /\ websiteUrl client' = assign (ClientById.websiteUrlField body) (websiteUrl client)
        /\ websiteDomain client'
           = assign (ClientById.websiteDomainField body) (websiteDomain client)
        /\ status client' = assign (ClientById.statusField body) (status client)
        /\ subscriptionType client'
           = assign (ClientById.subscriptionTypeField body) (subscriptionType client)
        /\ subscriptionStatus client'
           = assign (ClientById.subscriptionStatusField body) (subscriptionStatus client)
        /\ subscriptionEndDate client'
           = assign (option_map (fun v => if JS.truthy v then Some (dateOf (JS.value v))
                                          else None)
                                (ClientById.subscriptionEndDateField body))
                    (subscriptionEndDate client)
        /\ notes client' = assign (ClientById.notesField body) (notes client)
        /\ updatedAt client' = now rt).
Proof.
  cbv zeta.
  destruct (PUT_world rt idParam body w) as [[Hw Hc] | [Hw Hc]].
  - rewrite Hw. split; [reflexivity |]. split; [reflexivity |].
    split; [apply Forall2_refl; intros a; repeat split |].
    intros H. contradiction.
  - split; [rewrite Hw; reflexivity |]. split; [intros H; contradiction |].
    split.
    + rewrite Hw. unfold Admin.update. cbn [clients].
      induction (clients w) as [|a l IH]; cbn [map]; constructor; [| exact IH].
      destruct (idIs idParam a) eqn:E.
      * rewrite set_updateData. cbn. repeat split. discriminate.
      * repeat split.
    + intros _ client Hid.
      unfold ClientById.PUT in *. rewrite Hid in *.
      destruct (_ && _ && _); [cbn in Hc; discriminate |].
      cbn [fst snd]. rewrite selectFirst_id_admin_update, Hid. cbn [option_map].
      eexists. split; [reflexivity |].
      split; [reflexivity |].
      rewrite set_updateData. cbn. unfold assign.
      destruct (ClientById.subscriptionEndDateField body); repeat split.
Qed.

Lemma map_id_admin_update values cond w :
  map id (clients (Admin.update values cond w)) = map id (clients w).
Proof.
  unfold Admin.update. cbn [clients]. rewrite map_map. apply map_ext.
  intros r. cbv beta. destruct (cond r); [apply id_set | reflexivity].
Qed.

Lemma NoDup_email_update (i e : string) (l : list TenantRecord) :
  NoDup (map id l) -> NoDup (map contactEmail l) -> ~ In e (map contactEmail l) ->
  NoDup (map (fun r => if idIs i r then e else contactEmail r) l).
Proof.
  induction l as [|a l IH]; intros Hid Hem He; cbn [map]; [constructor |].
  cbn [map] in Hid, Hem, He.
  inversion Hid as [|? ? Hnid Hid']; subst. inversion Hem as [|? ? Hnem Hem']; subst.
  destruct (idIs i a) eqn:Ea.
  - assert (Hrest : map (fun r => if idIs i r then e else contactEmail r) l
                    = map contactEmail l).
    { apply map_ext_in. intros r Hr. destruct (idIs i r) eqn:Er; [| reflexivity].
      exfalso. apply Hnid. unfold idIs in *. apply String.eqb_eq in Ea, Er.
      rewrite Ea, <- Er. apply in_map. exact Hr. }
    rewrite Hrest. constructor; [| exact Hem'].
    intros H. apply He. right. exact H.
  - constructor.
    + intros H. apply in_map_iff in H as [r [Hr Hin]].
      destruct (idIs i r).
      * apply He. left. symmetry. exact Hr.
      * apply Hnem. rewrite <- Hr. apply in_map. exact Hin.
    + apply IH; auto. intros H. apply He. right. exact H.
Qed.

(** X24.  PUT /clients/[id] keeps contact emails unique.  If ids and
    contact emails are unique in the table and the body does not set the
    email to the empty string, they are unique afterwards; and the answer
    is 409 (with the store unchanged) exactly when the tenant exists and
    the body's email differs from the tenant's and is held by some row. *)
Theorem put_keeps_emails_unique rt idParam body w :
  NoDup (map id (clients w)) ->
  NoDup (map contactEmail (clients w)) ->
  ClientById.contactEmailField body <> Some "" ->
  let answer := fst (ClientById.PUT dateOf rt idParam body w) in
  let w' := snd (ClientById.PUT dateOf rt idParam body w) in
  NoDup (map contactEmail (clients w'))
  /\ NoDup (map id (clients w'))
  /\ (Json.code answer = 409%Z
      <-> exists client e,
            selectFirst (idIs idParam) w = Some client
            /\ ClientById.contactEmailField body = Some e
            /\ e <> contactEmail client
            /\ In e (map contactEmail (clients w))).
Proof.
  intros Hnid Hnem Hne. cbv zeta.
  assert (Hin_sel : forall e, In e (map contactEmail (clients w))
                              <-> selectFirst (Admin.contactEmailIs e) w <> None).
  { intros e. unfold selectFirst, Admin.contactEmailIs. split.
    - intros H. apply in_map_iff in H as [r [Hr Hin]].
      destruct (find _ _) eqn:E; [discriminate |].
      apply (find_none _ _ E) in Hin. rewrite Hr, String.eqb_refl in Hin. discriminate.
    - intros H. destruct (find _ _) as [r|] eqn:E; [| contradiction].
      apply find_some in E as [Hin Hr]. apply String.eqb_eq in Hr. rewrite <- Hr.
      apply in_map. exact Hin. }
  unfold ClientById.PUT.
  destruct (selectFirst (idIs idParam) w) as [client|] eqn:Hid.
  2: { cbn [fst snd]. split; [exact Hnem |]. split; [exact Hnid |].
       split; [cbn; discriminate | intros (c & e & Hc & _); discriminate]. }
  destruct (ClientById.contactEmailField body) as [e|] eqn:He.
  - assert (Te : JS.truthy (Some e) = true).
    { apply truthy_some. intros ->. apply Hne. reflexivity. }
    rewrite Te. cbn [andb JS.value].
    destruct (String.eqb e (contactEmail client)) eqn:Ee; cbn [negb andb].
    + apply String.eqb_eq in Ee. cbn [fst snd].
      assert (Hsame : map contactEmail
                        (clients (Admin.update (ClientById.updateData dateOf rt body)
                                    (idIs idParam) w))
                      = map contactEmail (clients w)).
      { unfold Admin.update. cbn [clients]. rewrite map_map. apply map_ext_in.
        intros r Hr. destruct (idIs idParam r) eqn:Er; [| reflexivity].
        rewrite set_updateData. cbn [contactEmail]. rewrite He.
        rewrite (selectFirst_unique_id idParam w client Hnid Hid r Hr Er). exact Ee. }
      split; [rewrite Hsame; exact Hnem |].
      split.
      * rewrite map_id_admin_update. exact Hnid.
      * split; [cbn; discriminate |].
        intros (c & e' & Hc & He' & Hd & _). injection Hc as <-. injection He' as <-.
        contradiction.
    + apply String.eqb_neq in Ee.
      destruct (selectFirst (Admin.contactEmailIs e) w) as [holder|] eqn:Eh; cbn [fst snd].
      * split; [exact Hnem |]. split; [exact Hnid |].
        split; [intros _ | reflexivity].
        exists client, e. repeat split; auto. apply Hin_sel. rewrite Eh. discriminate.
      * split.
        -- unfold Admin.update. cbn [clients]. rewrite map_map.
           erewrite map_ext.
           ++ apply (NoDup_email_update idParam e); auto.
              intros H. apply Hin_sel in H. apply H. exact Eh.
           ++ intros r. cbv beta. destruct (idIs idParam r); [| reflexivity].
              rewrite set_updateData. cbn [contactEmail]. rewrite He. reflexivity.
        -- split.
           ++ rewrite map_id_admin_update. exact Hnid.
           ++ split; [cbn; discriminate |].
              intros (c & e' & _ & He' & _ & Hin). injection He' as <-.
              apply Hin_sel in Hin. contradiction.
  - cbn [JS.truthy andb fst snd].
    split.
    + unfold Admin.update. cbn [clients]. rewrite map_map.
      erewrite map_ext; [exact Hnem |]. intros r. cbv beta.
      destruct (idIs idParam r); [| reflexivity].
      rewrite set_updateData. cbn [contactEmail]. rewrite He. reflexivity.
    + split.
      * rewrite map_id_admin_update. exact Hnid.
      * split; [cbn; discriminate | intros (c & e' & _ & He' & _); discriminate].
Qed.

End ClientByIdFacts.

(** ** Creating a client *)

Lemma removeTrailingSlash_nonempty s :
  (2 <= String.length s)%nat -> Text.removeTrailingSlash s <> "".
Proof.
  destruct s as [|c [|c' s']]; cbn [String.length]; try lia.
  intros _. cbn [Text.removeTrailingSlash]. discriminate.
Qed.

Lemma prefix_length p : forall s, String.prefix p s = true -> (String.length p <= String.length s)%nat.
Proof.
  induction p as [|a p IH]; intros s H; cbn [String.length]; [lia |].
  destruct s as [|b s]; cbn in H; [discriminate |].
  destruct (Ascii.ascii_dec a b); [| discriminate].
  apply IH in H. cbn [String.length]. lia.
Qed.

Lemma find_app_fresh {A : Type} (p : A -> bool) (l : list A) (a : A) :
  find p l = None -> p a = true -> find p (l ++ [a])%list = Some a.
Proof.
  intros Hn Ha. induction l as [|x l IH]; cbn [app find] in *; [rewrite Ha; reflexivity |].
  destruct (p x); [discriminate | apply IH; exact Hn].
Qed.

Lemma find_none_not_in {A B : Type} (f : A -> B) (eqb : B -> B -> bool) (v : B) (l : list A) :
  (forall x y, eqb x y = true <-> x = y) ->
  find (fun a => eqb (f a) v) l = None <-> ~ In v (map f l).
Proof.
  intros Heqb. split.
  - intros Hn Hin. apply in_map_iff in Hin as [a [Ha Hin]].
    apply (find_none _ _ Hn) in Hin. cbv beta in Hin.
    assert (eqb (f a) v = true) by (apply Heqb; exact Ha). congruence.
  - intros Hnot. destruct (find _ l) as [a|] eqn:E; [| reflexivity]. exfalso.
    apply find_some in E as [Hin Ha]. apply Heqb in Ha. apply Hnot. rewrite <- Ha.
    apply in_map. exact Hin.
Qed.

Lemma NoDup_app_one {A : Type} (l : list A) (a : A) :
  NoDup l -> ~ In a l -> NoDup (l ++ [a])%list.
Proof.
  intros Hnd Hnin. induction l as [|x l IH]; cbn [app]; [constructor; [intros [] | constructor] |].
  inversion Hnd as [|? ? Hx Hl]; subst. constructor.
  - intros H. apply in_app_or in H as [H | [H | []]]; [contradiction |].
    apply Hnin. left. symmetry. exact H.
  - apply IH; [exact Hl |]. intros H. apply Hnin. right. exact H.
Qed.

Section CreateFacts.

Import Store.

Variable plusOneMonth : Z -> Z.
Variable plusOneYear : Z -> Z.
Variable dateOf : string -> Z.

(** The create route, case by case. *)
Lemma create_cases rt body src w :
  let result := Clients.POST plusOneMonth plusOneYear dateOf rt body src w in
  let required :=
    JS.truthy (Clients.companyNameField body) && JS.truthy (Clients.contactNameField body)
    && JS.truthy (Clients.contactEmailField body) && JS.truthy (Clients.websiteUrlField body)
    && JS.truthy (Clients.websiteDomainField body) in
  let email := JS.value (Clients.contactEmailField body) in
  (required = false /\ Json.code (fst (fst result)) = 400%Z /\ snd (fst result) = w)
  \/ (required = true /\ In email (map contactEmail (clients w))
      /\ Json.code (fst (fst result)) = 409%Z /\ snd (fst result) = w)
  \/ (required = true /\ ~ In email (map contactEmail (clients w))
      /\ fst (Admin.generateUniqueLicenseKey src w) = None
      /\ Json.code (fst (fst result)) = 500%Z /\ snd (fst result) = w)
  \/ (required = true /\ ~ In email (map contactEmail (clients w))
      /\ exists key row,
           fst (Admin.generateUniqueLicenseKey src w) = Some key
           /\ Json.code (fst (fst result)) = 201%Z
           /\ snd (fst result) = Admin.insert row w
           /\ Json.get "data" (Json.content (fst (fst result))) = Some (Admin.valueOfTenant row)
           /\ match Json.get "setupInstructions" (Json.content (fst (fst result))) with
              | Some setup => Json.get "licenseKey" setup = Some (Json.Str key)
                              /\ Json.get "apiKey" setup = Some (Json.ofNullable (apiKey row))
              | None => False
              end
           /\ id row = uuid rt /\ licenseKey row = key
           /\ companyName row = JS.value (Clients.companyNameField body)
           /\ contactEmail row = email
           /\ websiteDomain row = JS.value (Clients.websiteDomainField body)
           /\ status row = "active" /\ subscriptionStatus row = "active"
           /\ subscriptionType row
              = match Clients.subscriptionTypeField body with Some s => s | None => "monthly" end
           /\ (JS.truthy (Clients.subscriptionEndDateField body) = false ->
               subscriptionEndDate row
               = match Clients.subscriptionTypeField body with
                 | None => Some (plusOneMonth (now rt))
                 | Some s => if String.eqb s "monthly" then Some (plusOneMonth (now rt))
                             else if String.eqb s "yearly" then Some (plusOneYear (now rt))
                             else None
                 end)
           /\ (JS.truthy (Clients.subscriptionEndDateField body) = true ->
               subscriptionEndDate row
               = Some (dateOf (JS.value (Clients.subscriptionEndDateField body))))
           /\ authType row = "HMAC" /\ apiStatus row = Some "active"
           /\ (exists k, apiKey row = Some k /\ String.length k = 64%nat)
           /\ JS.truthy (apiBaseUrl row) = true).
Proof.
  cbv zeta. unfold Clients.POST.
  destruct (JS.truthy (Clients.companyNameField body)); cbn [negb orb andb];
    [| left; repeat split].
  destruct (JS.truthy (Clients.contactNameField body)); cbn [negb orb andb];
    [| left; repeat split].
  destruct (JS.truthy (Clients.contactEmailField body)); cbn [negb orb andb];
    [| left; repeat split].
  destruct (JS.truthy (Clients.websiteUrlField body)) eqn:Turl; cbn [negb orb andb];
    [| left; repeat split].
  destruct (JS.truthy (Clients.websiteDomainField body)); cbn [negb orb andb];
    [| left; repeat split].
  right.
  pose proof (find_none_not_in contactEmail String.eqb
                (JS.value (Clients.contactEmailField body)) (clients w) String.eqb_eq) as Hem.
  unfold selectFirst, Admin.contactEmailIs.
  destruct (find _ (clients w)) as [holder|] eqn:Ef.
  { left. split; [reflexivity |]. split; [| split; reflexivity].
    destruct (in_dec string_dec (JS.value (Clients.contactEmailField body))
                (map contactEmail (clients w))) as [Hin | Hnin]; [exact Hin |].
    apply Hem in Hnin. discriminate. }
  right. assert (Hnin : ~ In (JS.value (Clients.contactEmailField body))
                          (map contactEmail (clients w))) by (apply Hem; reflexivity).
  destruct (Admin.generateUniqueLicenseKey src w) as [[key|] src1].
  2: { left. repeat split. exact Hnin. }
  right. split; [reflexivity |]. split; [exact Hnin |].
  pose proof (generateApiKey_length src1) as HL.
  destruct (KeyGen.generateApiKey src1) as [apiKey src2]. cbn [fst] in HL.
  cbn [fst snd].
  eexists key, _. split; [reflexivity |]. split; [reflexivity |]. split; [reflexivity |].
  split; [reflexivity |]. split; [split; reflexivity |].
  cbn [id licenseKey companyName contactEmail websiteDomain status subscriptionStatus
       subscriptionType subscriptionEndDate authType apiStatus Store.apiKey apiBaseUrl].
  repeat (split; [reflexivity |]).
  split.
  { intros Hend. rewrite Hend.
    destruct (Clients.subscriptionTypeField body) as [s|]; [| reflexivity].
    destruct (String.eqb s "lifetime") eqn:El; cbn [negb]; [| reflexivity].
    apply String.eqb_eq in El. subst s. reflexivity. }
  split; [intros Hend; rewrite Hend; reflexivity |].
  split; [reflexivity |]. split; [reflexivity |].
  split; [exists apiKey; split; [reflexivity | exact HL] |].
  apply truthy_some. apply removeTrailingSlash_nonempty.
  destruct (JS.startsWith _ "http://") eqn:E1; cbn [negb andb].
  - apply prefix_length in E1. cbn [String.length] in E1. lia.
  - destruct (JS.startsWith _ "https://") eqn:E2; cbn [negb].
    + apply prefix_length in E2. cbn [String.length] in E2. lia.
    + cbn [String.append String.length]. lia.
Qed.


(** X26.  Creating a client keeps license keys and contact emails unique:
    if they are unique in the table before POST /clients, they are unique
    after it, whatever it answers. *)
Theorem create_keeps_unique rt body src w :
  NoDup (map licenseKey (clients w)) ->
  NoDup (map contactEmail (clients w)) ->
  let w' := snd (fst (Clients.POST plusOneMonth plusOneYear dateOf rt body src w)) in
  NoDup (map licenseKey (clients w')) /\ NoDup (map contactEmail (clients w')).
Proof.
  intros Hkeys Hemails. cbv zeta.
  pose proof (create_cases rt body src w) as H. cbv zeta in H.
  pose proof (uniqueKeyLoop_spec 10 src w) as Hloop. cbv zeta in Hloop.
  unfold Admin.generateUniqueLicenseKey, Admin.maxAttempts in H.
  destruct H as [(Hr & Hc & Hw) | [(Hr & Hin & Hc & Hw) | [(Hr & Hnin & Hk & Hc & Hw)
                | (Hr & Hnin & key & row & Hk & Hc & Hw & Hdata & _ & Hrow)]]];
    rewrite Hw; try (split; assumption).
  destruct Hrow as (_ & R2 & _ & R4 & _).
  destruct (Admin.uniqueKeyLoop 10 src w) as [[k|] s]; [| discriminate].
  cbn [fst] in Hk. injection Hk as ->.
  destruct Hloop as (n & _ & _ & _ & Hfresh & _).
  unfold Admin.insert. cbn [clients]. rewrite !map_app. cbn [map].
  split; apply NoDup_app_one.
  - exact Hkeys.
  - rewrite R2. apply (find_none_not_in licenseKey String.eqb key (clients w) String.eqb_eq).
    exact Hfresh.
  - exact Hemails.
  - rewrite R4. exact Hnin.
Qed.

Variable hostnameOf : string -> option string.

(** X27.  A client that was just created is in working order.  When POST
    /clients answers 201, a verification with the license key of the
    response from a domain that normalises like the body's [websiteDomain]
    is accepted as long as the end date of the new row has not passed (for
    a lifetime plan without end date: always); and, if no row had the id
    drawn for the new row, the tenant the users page reads under that id
    passes the three guards of [fetchTenantUsers]. *)
Theorem created_client_works rt body src w :
  let answer := fst (fst (Clients.POST plusOneMonth plusOneYear dateOf rt body src w)) in
  let w' := snd (fst (Clients.POST plusOneMonth plusOneYear dateOf rt body src w)) in
  Json.code answer = 201%Z ->
  exists key endDate,
    match Json.get "setupInstructions" (Json.content answer) with
    | Some setup => Json.get "licenseKey" setup = Some (Json.Str key)
    | None => False
    end
    /\ option_map subscriptionEndDate (selectFirst (licenseKeyIs key) w') = Some endDate
    /\ (Clients.subscriptionTypeField body = Some "lifetime" ->
        JS.truthy (Clients.subscriptionEndDateField body) = false -> endDate = None)
    /\ (forall rt' req domain,
          VerifyLicense.licenseKeyField req = Some key ->
          VerifyLicense.domainField req = Some domain -> domain <> "" ->
          VerifyLicense.extractDomain hostnameOf domain
          = VerifyLicense.extractDomain hostnameOf (JS.value (Clients.websiteDomainField body)) ->
          VerifyLicense.notPast endDate (now rt') ->
          Http.statusCode (fst (VerifyLicense.POST hostnameOf rt' req w')) = 200%Z)
    /\ (~ In (uuid rt) (map id (clients w)) ->
        exists tenant,
          TenantPage.getTenantFromDB (uuid rt) w' = Some tenant
          /\ TenantApi.precondition tenant = None).
Proof.
  cbv zeta. intros Hcode.
  pose proof (create_cases rt body src w) as H. cbv zeta in H.
  pose proof (uniqueKeyLoop_spec 10 src w) as Hloop. cbv zeta in Hloop.
  unfold Admin.generateUniqueLicenseKey, Admin.maxAttempts in H.
  destruct H as [(Hr & Hc & Hw) | [(Hr & Hin & Hc & Hw) | [(Hr & Hnin & Hk & Hc & Hw)
                | (Hr & Hnin & key & row & Hk & Hc & Hw & Hdata & Hsetup & Hrow)]]];
    try (rewrite Hc in Hcode; discriminate).
  destruct Hrow as (R1 & R2 & R3 & R4 & R5 & R6 & R7 & R8 & R9 & R10 & R11 & R12
                    & (k & R13 & R13') & R14).
  destruct (Admin.uniqueKeyLoop 10 src w) as [[k0|] s]; [| discriminate].
  cbn [fst] in Hk. injection Hk as ->.
  destruct Hloop as (n & _ & Hkn & _ & Hfresh & _).
  assert (Hsel : selectFirst (licenseKeyIs key) (Admin.insert row w) = Some row).
  { unfold selectFirst, Admin.insert. cbn [clients]. apply find_app_fresh; [exact Hfresh |].
    unfold licenseKeyIs. rewrite R2. apply String.eqb_refl. }
  exists key, (subscriptionEndDate row). rewrite Hw.
  split.
  { destruct (Json.get "setupInstructions" _); [tauto | exact Hsetup]. }
  split; [rewrite Hsel; reflexivity |].
  split.
  { intros Hlife Hend. rewrite (R9 Hend), Hlife. reflexivity. }
  split.
  - intros rt' req domain Hreq Hd Nd Hdom Hend.
    assert (Nk : key <> "").
    { intros E. rewrite E in Hkn.
      pose proof (generateLicenseKey_length
                    (Nat.iter n (fun s => snd (KeyGen.generateLicenseKey s)) src)) as HL.
      rewrite <- Hkn in HL. discriminate. }
    unfold VerifyLicense.POST. rewrite Hreq, Hd, !truthy_some by assumption.
    cbn [negb orb JS.value]. rewrite Hsel, R6, R5, R7.
    change (String.eqb "active" "active") with true. cbn [negb].
    rewrite Hdom, String.eqb_refl. cbn [negb].
    apply elapsed_notPast in Hend. rewrite Hend. reflexivity.
  - intros Hfreshid.
    assert (Hselid : selectFirst (idIs (uuid rt)) (Admin.insert row w) = Some row).
    { unfold selectFirst, Admin.insert. cbn [clients]. apply find_app_fresh.
      - apply (find_none_not_in id String.eqb (uuid rt) (clients w) String.eqb_eq).
        exact Hfreshid.
      - unfold idIs. rewrite R1. apply String.eqb_refl. }
    unfold TenantPage.getTenantFromDB. rewrite Hselid. eexists. split; [reflexivity |].
    unfold TenantApi.precondition.
    cbn [TenantApi.apiStatus TenantApi.apiKey TenantApi.apiBaseUrl TenantApi.authType].
    rewrite R12, R14, R11, R13.
    change (String.eqb "active" "active") with true.
    change (String.eqb "HMAC" "HMAC") with true. cbn [negb orb].
    destruct k; [discriminate | reflexivity].
Qed.

End CreateFacts.

(** ** The validation utilities *)

Section ValidationFacts.

Import Validation.

Variable hostnameOf : string -> option string.

Lemma findings_ready (client : SaasClientData) :
  (statusFindings client ++ baseUrlFindings hostnameOf client ++ authFindings client
   ++ apiKeyFindings client ++ apiStatusFindings client)%list = [] ->
  String.eqb (status client) "active" && JS.truthy (apiBaseUrl client)
  && holds (authType client) "HMAC" && JS.truthy (apiKey client)
  && holds (apiStatus client) "active" = true.
Proof.
  intros H.
  apply app_eq_nil in H as [H1 H]. apply app_eq_nil in H as [H2 H].
  apply app_eq_nil in H as [H3 H]. apply app_eq_nil in H as [H4 H5].
  unfold statusFindings in H1. destruct (String.eqb (status client) "active");
    [| discriminate H1].
  unfold baseUrlFindings in H2. destruct (JS.truthy (apiBaseUrl client));
    [| discriminate H2].
  unfold authFindings in H3. destruct (JS.truthy (authType client)); [| discriminate H3].
  destruct (holds (authType client) "HMAC"); [| discriminate H3].
  unfold apiKeyFindings in H4. destruct (JS.truthy (apiKey client)); [| discriminate H4].
  unfold apiStatusFindings in H5. destruct (holds (apiStatus client) "active");
    [| discriminate H5].
  reflexivity.
Qed.

Lemma baseUrl_issues (client : SaasClientData) :
  JS.truthy (apiBaseUrl client) = true ->
  Forall (fun issue =>
            In issue [ "API Base URL should include protocol (https:// or http://)";
                       "API Base URL is not a valid URL format";
                       "API key appears to be too short (security concern)" ])
         (map fst (baseUrlFindings hostnameOf client)).
Proof.
  intros H. unfold baseUrlFindings. rewrite H. cbn [negb].
  destruct (hostnameOf _); [destruct (_ && _) |]; cbn [map fst];
    repeat constructor; cbn [In]; tauto.
Qed.

Lemma apiKey_issues (client : SaasClientData) :
  JS.truthy (apiKey client) = true ->
  Forall (fun issue =>
            In issue [ "API Base URL should include protocol (https:// or http://)";
                       "API Base URL is not a valid URL format";
                       "API key appears to be too short (security concern)" ])
         (map fst (apiKeyFindings client)).
Proof.
  intros H. unfold apiKeyFindings. rewrite H. cbn [negb].
  destruct (_ <? _)%nat; cbn [map fst]; repeat constructor; cbn [In]; tauto.
Qed.

(** X28.  The validation report is consistent.  For every client record:
    [isValid] says that the list of issues is empty; a client without
    issues is ready for API access (a ready client can still have issues,
    but only about the format of its base URL or the length of its key);
    every issue comes with one setup instruction, a
    ready client gets three more, and there is always at least one
    instruction; and the formatted report of a client without issues is the
    fixed text of eight lines. *)
Theorem validation_consistent (client : SaasClientData) :
  let v := validateSaasClient hostnameOf client in
  (isValid v = true <-> issues v = [])
  /\ (isValid v = true -> readyForAPI v = true)
  /\ List.length (setupInstructions v)
     = (List.length (issues v) + (if readyForAPI v then 3 else 0))%nat
  /\ setupInstructions v <> []
  /\ (readyForAPI v = true ->
      Forall (fun issue =>
                In issue [ "API Base URL should include protocol (https:// or http://)";
                           "API Base URL is not a valid URL format";
                           "API key appears to be too short (security concern)" ])
             (issues v))
  /\ (isValid v = true ->
      formatValidationReport v
      = JS.join JS.newline
          [ "✅ SaaS Client API Federation - All checks passed!";
            "";
            "🎉 Ready for API access!";
            "";
            "📋 Next steps:";
            "   • Add ADMIN_API_SECRET to client .env.local file";
            "   • Restart client application";
            "   • Test connection from SaaS Users page" ]).
Proof.
  cbv zeta.
  pose proof (findings_ready client) as Hready.
  unfold validateSaasClient.
  set (findings := (statusFindings client ++ baseUrlFindings hostnameOf client
                    ++ authFindings client ++ apiKeyFindings client
                    ++ apiStatusFindings client)%list) in *.
  set (ready := String.eqb (status client) "active" && JS.truthy (apiBaseUrl client)
                && holds (authType client) "HMAC" && JS.truthy (apiKey client)
                && holds (apiStatus client) "active") in *.
  cbn [isValid issues readyForAPI setupInstructions].
  assert (Hnil : map fst findings = [] -> findings = []).
  { destruct findings; [reflexivity | discriminate]. }
  assert (Hvalid : match map fst findings with [] => true | _ :: _ => false end = true
                   -> findings = []).
  { intros H. apply Hnil. destruct (map fst findings); [reflexivity | discriminate]. }
  split; [destruct (map fst findings); split; intros H; first [reflexivity | discriminate H] |].
  split; [intros H; apply Hready, Hvalid, H |].
  split.
  { destruct ready; rewrite ?length_app, !length_map; cbn [List.length]; lia. }
  split.
  { destruct ready eqn:Er.
    - intros H. apply app_eq_nil in H as [_ H]. discriminate.
    - intros H. assert (findings = []) by (destruct findings; [reflexivity | discriminate]).
      apply Hready in H0. congruence. }
  split.
  { intros Hr. unfold ready in Hr.
    apply andb_prop in Hr as [Hr H5]. apply andb_prop in Hr as [Hr H4].
    apply andb_prop in Hr as [Hr H3]. apply andb_prop in Hr as [H1 H2].
    unfold findings. rewrite !map_app. repeat (apply Forall_app; split).
    - unfold statusFindings. rewrite H1. constructor.
    - apply baseUrl_issues. exact H2.
    - unfold authFindings. destruct (authType client) as [a|]; [| discriminate].
      cbn [holds] in H3. unfold holds. rewrite H3.
      destruct a; [discriminate |]. constructor.
    - apply apiKey_issues. exact H4.
    - unfold apiStatusFindings. rewrite H5. constructor. }
  intros H. pose proof (Hvalid H) as Hf. rewrite (Hready Hf), Hf.
  unfold formatValidationReport. cbn [isValid readyForAPI setupInstructions issues map app].
  reflexivity.
Qed.

(** X29.  The validator and the fetcher agree: for a client record and a
    tenant that hold the same API columns, the validator reports
    [readyForAPI] exactly when the client is active and the tenant passes
    the three guards of [fetchTenantUsers]. *)
Theorem ready_iff_guards (client : SaasClientData) (tenant : TenantApi.TenantClient) :
  apiBaseUrl client = TenantApi.apiBaseUrl tenant ->
  authType client = Some (TenantApi.authType tenant) ->
  apiKey client = TenantApi.apiKey tenant ->
  apiStatus client = TenantApi.apiStatus tenant ->
  (readyForAPI (validateSaasClient hostnameOf client) = true
   <-> status client = "active" /\ TenantApi.precondition tenant = None).
Proof.
  intros Hb Ha Hk Hs.
  unfold validateSaasClient, TenantApi.precondition, holds. cbn [readyForAPI].
  rewrite Hb, Ha, Hk, Hs.
  destruct (String.eqb (status client) "active") eqn:Est.
  - apply String.eqb_eq in Est.
    destruct (TenantApi.apiStatus tenant) as [s|];
      [destruct (String.eqb s "active") |];
      destruct (JS.truthy (TenantApi.apiBaseUrl tenant));
      destruct (String.eqb (TenantApi.authType tenant) "HMAC");
      destruct (JS.truthy (TenantApi.apiKey tenant));
      cbn [negb andb orb]; split; try tauto; try discriminate;
      intros [_ H]; discriminate H.
  - apply String.eqb_neq in Est. cbn [andb]. split; [discriminate | tauto].
Qed.

End ValidationFacts.

(** ** The connection test *)

Section ConnectionTest.

Import TenantApi.

Variable newURL : string -> string -> option URLObject.
Variable serialize : list (string * string) -> string.
Variable remote : FetchRequest -> option FetchResponse.

(** X30.  [testTenantConnection] turns every failure of [fetchTenantUsers]
    into [false]: it returns [true] exactly when the tenant passes the
    three guards, the base URL is accepted, and the remote end answers the
    signed GET request for one user ([limit=1]) with a successful response
    whose body is JSON.  It sends at most one request, and none when a
    guard fails or the URL is rejected. *)
Theorem testTenantConnection_spec now tenant calls :
  let result := testTenantConnection newURL serialize remote now tenant calls in
  let requestFor := fun url =>
    {| reqUrl := toString serialize (set "limit" "1" url);
       reqMethod := "GET";
       reqHeaders :=
         [ ("x-timestamp", JS.stringOfZ now);
           ("x-signature",
            Signer.createHmacSignature (JS.value (apiKey tenant)) (JS.stringOfZ now)
              (pathname (set "limit" "1" url)) (search serialize (set "limit" "1" url)) None);
           ("User-Agent", "Admin-Panel/1.0") ] |} in
  (fst result = true
   <-> precondition tenant = None
       /\ exists url response,
            newURL "/api/admin/users" (JS.value (apiBaseUrl tenant)) = Some url
            /\ remote (requestFor url) = Some response
            /\ ok response = true /\ bodyJson response <> None)
  /\ (precondition tenant <> None
      \/ newURL "/api/admin/users" (JS.value (apiBaseUrl tenant)) = None ->
      result = (false, calls))
  /\ (snd result = calls
      \/ exists url, newURL "/api/admin/users" (JS.value (apiBaseUrl tenant)) = Some url
                     /\ snd result = requestFor url :: calls).
Proof.
  cbv zeta. unfold testTenantConnection, fetchTenantUsers.
  destruct (precondition tenant) as [message|] eqn:Hp.
  { cbn [fst snd]. split; [split; [discriminate | intros [H _]; discriminate] |].
    split; [reflexivity | left; reflexivity]. }
  destruct (newURL "/api/admin/users" (JS.value (apiBaseUrl tenant))) as [url|] eqn:Hu.
  2: { cbn [fst snd].
       split; [split; [discriminate | intros [_ (u & r & H & _)]; discriminate] |].
       split; [reflexivity | left; reflexivity]. }
  cbn [limit cursor q updatedSince JS.truthy Z.eqb].
  change (JS.stringOfZ 1) with "1".
  match goal with
  | |- context [remote ?r] => set (request := r)
  end.
  destruct (remote request) as [response|] eqn:Hr.
  - destruct (ok response) eqn:Hok; cbn [negb].
    + destruct (bodyJson response) as [data|] eqn:Hb; cbn [fst snd].
      * split.
        { split; [intros _ | reflexivity]. split; [reflexivity |].
          exists url, response. repeat split; auto. rewrite Hb. discriminate. }
        split; [intros [H | H]; [contradiction | discriminate] |].
        right. exists url. split; reflexivity.
      * split.
        { split; [discriminate |]. intros [_ (u & r & Hu' & Hr' & _ & Hb')].
          injection Hu' as <-. fold request in Hr'. rewrite Hr in Hr'. injection Hr' as <-.
          contradiction. }
        split; [intros [H | H]; [contradiction | discriminate] |].
        right. exists url. split; reflexivity.
    + cbn [fst snd]. split.
      { split; [discriminate |]. intros [_ (u & r & Hu' & Hr' & Hok' & _)].
        injection Hu' as <-. fold request in Hr'. rewrite Hr in Hr'. injection Hr' as <-.
        congruence. }
      split; [intros [H | H]; [contradiction | discriminate] |].
      right. exists url. split; reflexivity.
  - cbn [fst snd]. split.
    { split; [discriminate |]. intros [_ (u & r & Hu' & Hr' & _)].
      injection Hu' as <-. fold request in Hr'. rewrite Hr in Hr'. discriminate. }
    split; [intros [H | H]; [contradiction | discriminate] |].
    right. exists url. split; reflexivity.
Qed.

End ConnectionTest.

(** ** The theorems above at the sample data *)

Lemma NoDup_one {A : Type} (a : A) : NoDup [a].
Proof. constructor; [intros [] | constructor]. Defined.

Lemma POST_accepted_again_witness :
  fst (VerifyLicense.POST URL.hostname MoreSamples.midway Samples.request
         (snd (VerifyLicense.POST URL.hostname Samples.early Samples.request Samples.world)))
  = fst (VerifyLicense.POST URL.hostname Samples.early Samples.request Samples.world).
Proof.
  apply (POST_accepted_again URL.hostname Samples.early MoreSamples.midway Samples.request
           Samples.world).
  - vm_compute. reflexivity.
  - intros t H. vm_compute in H. injection H as <-. cbn. lia.
Defined.

Lemma traffic_never_reactivates_witness :
  Http.statusCode
    (fst (VerifyLicense.POST URL.hostname Samples.early Samples.request
            (Traffic.run URL.hostname
               [(Samples.late, Samples.request); (Samples.early, Samples.foreignRequest)]
               Samples.lapsedWorld)))
  <> 200%Z.
Proof.
  apply (traffic_never_reactivates URL.hostname
           [(Samples.late, Samples.request); (Samples.early, Samples.foreignRequest)]
           Samples.early Samples.request Samples.lapsedWorld
           "LIC-0000-0000-0000-0000-0000-0000"
           (Store.applyPatch (VerifyLicense.expiredPatch 2500) Samples.acme)).
  - reflexivity.
  - discriminate.
  - reflexivity.
Defined.

Lemma disclosed_key_verifies_witness :
  Http.statusCode
    (fst (VerifyLicense.POST URL.hostname Samples.early Samples.request Samples.world))
  = 200%Z.
Proof.
  apply (disclosed_key_verifies URL.hostname Samples.early "https://Shop.Example.com/"
           "LIC-0000-0000-0000-0000-0000-0000" Samples.request Samples.world).
  - apply NoDup_one.
  - intros t [<- | []]. vm_compute. reflexivity.
  - vm_compute. reflexivity.
  - discriminate.
  - reflexivity.
  - reflexivity.
Defined.

Lemma check_domain_masks_key_witness :
  (String.length "LIC-0000-0..." <= 13)%nat
  /\ exists t, In t (Store.clients MoreSamples.twoWorld)
               /\ "LIC-0000-0..." = Text.take 10 (Store.licenseKey t) ++ "..."
               /\ ((14 <= String.length (Store.licenseKey t))%nat ->
                   "LIC-0000-0..." <> Store.licenseKey t).
Proof.
  eapply (check_domain_masks_key URL.hostname MoreSamples.like (Some "shop.example.com")
            MoreSamples.twoWorld).
  - cbv. reflexivity.
  - cbv. reflexivity.
Defined.

Lemma check_domain_prefers_exact_witness :
  let r := CheckDomain.POST URL.hostname MoreSamples.like (Some "Shop.Example.com")
             MoreSamples.twoWorld in
  Http.get "exactMatch" (Http.body r) = Some (Http.JBool true)
  /\ Http.get "allMatches" (Http.body r) = Some (Http.JNumber 2)
  /\ exists client, Http.get "client" (Http.body r) = Some client
                    /\ Http.get "id" client = Some (Http.JString "t-1").
Proof.
  cbv zeta.
  destruct (check_domain_prefers_exact URL.hostname MoreSamples.like "Shop.Example.com"
              MoreSamples.twoWorld) as (_ & _ & Hexact & _ & Hall); [discriminate |].
  destruct (Hexact Samples.acme) as [He Hc]; [vm_compute; reflexivity |].
  split; [exact He |]. split; [| exact Hc].
  apply Hall. vm_compute. discriminate.
Defined.


Lemma enable_then_verify_witness :
  let w' := snd (ToggleStatus.POST MoreSamples.isoTime MoreSamples.midway "t-1" (Some "enable")
                   None Samples.lapsedWorld) in
  let answer := fst (VerifyLicense.POST URL.hostname Samples.early Samples.request w') in
  Http.statusCode answer = 402%Z
  /\ Http.body answer = VerifyLicense.invalid "Subscription is expired".
Proof.
  cbv zeta.
  destruct (enable_then_verify URL.hostname MoreSamples.isoTime MoreSamples.midway
              Samples.early "t-1" None Samples.request Samples.lapsedWorld
              (Store.applyPatch (VerifyLicense.expiredPatch 2500) Samples.acme)
              "LIC-0000-0000-0000-0000-0000-0000" "https://Shop.Example.com/")
    as [_ Hrefused].
  - reflexivity.
  - reflexivity.
  - reflexivity.
  - discriminate.
  - reflexivity.
  - discriminate.
  - vm_compute. reflexivity.
  - cbn. lia.
  - apply Hrefused. vm_compute. discriminate.
Defined.

Lemma disable_enable_round_trip_witness :
  let w1 := snd (ToggleStatus.POST MoreSamples.isoTime Samples.early "t-1" (Some "disable")
                   (Some "audit") Samples.world) in
  let w2 := snd (ToggleStatus.POST MoreSamples.isoTime MoreSamples.midway "t-1"
                   (Some "enable") None w1) in
  Http.statusCode (fst (VerifyLicense.POST URL.hostname Samples.early Samples.request w1))
  = 403%Z
  /\ fst (VerifyLicense.POST URL.hostname MoreSamples.midway Samples.request w2)
     = fst (VerifyLicense.POST URL.hostname MoreSamples.midway Samples.request Samples.world).
Proof.
  cbv zeta.
  destruct (disable_enable_round_trip URL.hostname MoreSamples.isoTime Samples.early
              MoreSamples.midway "t-1" (Some "audit") None Samples.world Samples.acme)
    as [Hoff Hon].
  - apply NoDup_one.
  - reflexivity.
  - reflexivity.
  - discriminate.
  - split; [| apply Hon].
    apply (Hoff Samples.early Samples.request); reflexivity.
Defined.

Lemma regenerate_license_swaps_key_witness :
  exists newKey,
    newKey <> "LIC-0000-0000-0000-0000-0000-0000"
    /\ fst (VerifyLicense.POST URL.hostname MoreSamples.midway Samples.request
              (snd (fst (RegenerateLicense.POST MoreSamples.isoTime MoreSamples.midway "t-1"
                           MoreSamples.countingEntropy Samples.world))))
       = Http.respond (VerifyLicense.invalid "Invalid license key") 401 Http.corsHeaders.
Proof.
  destruct (regenerate_license_swaps_key URL.hostname MoreSamples.isoTime MoreSamples.midway
              "t-1" MoreSamples.countingEntropy Samples.world Samples.acme)
    as (newKey & _ & Hne & _ & _ & Hold & _).
  - apply NoDup_one.
  - reflexivity.
  - discriminate.
  - vm_compute. reflexivity.
  - exists newKey. split; [exact Hne |]. apply Hold; reflexivity.
Defined.

Lemma regenerate_api_key_enables_fetch_witness :
  exists tenant,
    TenantPage.getTenantFromDB "t-2"
      (snd (fst (RegenerateApiKey.POST MoreSamples.midway "t-2" MoreSamples.countingEntropy
                   MoreSamples.twoWorld))) = Some tenant
    /\ TenantApi.apiStatus tenant = Some "active"
    /\ TenantApi.precondition tenant = None.
Proof.
  destruct (regenerate_api_key_enables_fetch MoreSamples.midway "t-2"
              MoreSamples.countingEntropy MoreSamples.twoWorld MoreSamples.bloom)
    as (tenant & Hget & Hstatus & _ & _ & _ & Hpre).
  - reflexivity.
  - exists tenant. split; [exact Hget |]. split; [exact Hstatus |].
    apply Hpre. split; reflexivity.
Defined.

Lemma put_keeps_emails_unique_witness :
  NoDup (map Store.contactEmail
           (Store.clients (snd (ClientById.PUT (fun _ => 0%Z) MoreSamples.midway "t-2"
                                  MoreSamples.emailChange MoreSamples.twoWorld))))
  /\ Json.code (fst (ClientById.PUT (fun _ => 0%Z) MoreSamples.midway "t-2"
                       MoreSamples.emailChange MoreSamples.twoWorld)) = 409%Z.
Proof.
  destruct (put_keeps_emails_unique (fun _ => 0%Z) MoreSamples.midway "t-2"
              MoreSamples.emailChange MoreSamples.twoWorld) as (Hem & _ & H409).
  - constructor; [intros [H | []]; discriminate H | apply NoDup_one].
  - constructor; [intros [H | []]; discriminate H | apply NoDup_one].
  - discriminate.
  - split; [exact Hem |]. apply H409.
    exists MoreSamples.bloom, "ada@acme.example".
    split; [reflexivity |]. split; [reflexivity |]. split; [discriminate |].
    right. left. reflexivity.
Defined.

Lemma create_keeps_unique_witness :
  let w' := snd (fst (Clients.POST (fun t => t + 2592000000)%Z (fun t => t + 31536000000)%Z
                        (fun _ => 0%Z) MoreSamples.midway MoreSamples.createBody
                        MoreSamples.countingEntropy Samples.world)) in
  NoDup (map Store.licenseKey (Store.clients w'))
  /\ NoDup (map Store.contactEmail (Store.clients w')).
Proof.
  apply (create_keeps_unique (fun t => t + 2592000000)%Z (fun t => t + 31536000000)%Z
           (fun _ => 0%Z) MoreSamples.midway MoreSamples.createBody
           MoreSamples.countingEntropy Samples.world); apply NoDup_one.
Defined.

Lemma created_client_works_witness :
  let w' := snd (fst (Clients.POST (fun t => t + 2592000000)%Z (fun t => t + 31536000000)%Z
                        (fun _ => 0%Z) MoreSamples.midway MoreSamples.createBody
                        MoreSamples.countingEntropy Samples.world)) in
  exists key,
    Http.statusCode
      (fst (VerifyLicense.POST URL.hostname Samples.late
              {| VerifyLicense.licenseKeyField := Some key;
                 VerifyLicense.domainField := Some "https://Bloom.Example/";
                 VerifyLicense.xForwardedFor := None;
                 VerifyLicense.xRealIp := None;
                 VerifyLicense.userAgentHeader := None |} w')) = 200%Z
    /\ exists tenant, TenantPage.getTenantFromDB "t-3" w' = Some tenant
                      /\ TenantApi.precondition tenant = None.
Proof.
  cbv zeta.
  destruct (created_client_works (fun t => t + 2592000000)%Z
              (fun t => t + 31536000000)%Z (fun _ => 0%Z) URL.hostname MoreSamples.midway
              MoreSamples.createBody MoreSamples.countingEntropy Samples.world)
    as (key & endDate & _ & _ & Hlife & Hverify & Hfetch).
  - vm_compute. reflexivity.
  - exists key. split.
    + apply (Hverify Samples.late _ "https://Bloom.Example/").
      * reflexivity.
      * reflexivity.
      * discriminate.
      * vm_compute. reflexivity.
      * rewrite (Hlife eq_refl eq_refl). exact I.
    + apply Hfetch. intros [H | []]. discriminate H.
Defined.

Lemma ready_iff_guards_witness :
  Validation.readyForAPI (Validation.validateSaasClient URL.hostname MoreSamples.readyClient)
  = true
  <-> Validation.status MoreSamples.readyClient = "active"
      /\ TenantApi.precondition MoreSamples.readyTenant = None.
Proof.
  apply (ready_iff_guards URL.hostname MoreSamples.readyClient MoreSamples.readyTenant);
    reflexivity.
Defined.
